(** * GCE persistent-disk CSI driver: controller and node services

    A shallow embedding of the controller service (CreateVolume,
    DeleteVolume, ControllerPublishVolume and their helpers) and of the
    node service (NodeStageVolume, NodeUnstageVolume, NodePublishVolume,
    NodeUnpublishVolume, NodeExpandVolume) of the driver package, with
    the properties of the volume lifecycle that the specification states.
    The remaining operations of the two services (snapshots,
    ControllerUnpublishVolume, ValidateVolumeCapabilities, NodeGetInfo,
    NodeGetVolumeStats) and the mounter for Windows follow, with further
    properties read off the code.

    Conventions of the embedding:
    - Go [int64] values are [Z]; the functions modelled here only compare
      and copy them, so no wrap-around arises, except in
      NodeGetVolumeStats, whose conversions and products go through
      [int64].
    - Go strings are [string] (byte strings).
    - Go maps are [gmap string string]; a [range] loop visits
      [map_to_list], which stands for the order that the loop happens
      to take.  The loops are recursive functions on the list of entries,
      and what is proved of them is proved for every list
      ([CreateVolume_parameters_rejects]) or shown not to depend on the
      order ([getZoneFromSegment_any_order]).
    - a Go function returning [(T, error)] returns [result T];
    - the text of error messages and all logging are left out: an error
      keeps its kind and, for a gRPC status, its code.
    - the collaborators reached through interfaces (the cloud disk client,
      the mounter, the device utilities) are the methods of a type class
      over an abstract state. *)

From Stdlib Require Import ZArith String Ascii List Bool Lia.
From stdpp Require Import gmap strings.
Import ListNotations.

Local Open Scope string_scope.
Local Open Scope Z_scope.

(** ** gRPC status codes and Go errors *)

Inductive Code : Type :=
  | InvalidArgument
  | NotFound
  | AlreadyExists
  | FailedPrecondition
  | Aborted
  | Unimplemented
  | Internal.

(** A Go [error] value.  [status_Error c] is [status.Error(c, ...)];
    [fmt_Errorf] is a plain error built by [fmt.Errorf];
    [googleapi_Error] is an error of the cloud API with the reasons the
    cloud gives; [os_Error] is an error of the operating system. *)
Inductive error : Type :=
  | status_Error (c : Code)
  | fmt_Errorf
  | googleapi_Error (reasons : list string)
  | os_Error (errno : string).

Inductive result (A : Type) : Type :=
  | Ok (a : A)
  | Err (e : error).
Arguments Ok {A} a.
Arguments Err {A} e.

Definition is_Err {A} (r : result A) : bool :=
  match r with Ok _ => false | Err _ => true end.

(** ** Package common: constants (pkg/common/constants.go) *)

Module common.

Definition ParameterKeyType : string := "type".
Definition ParameterKeyReplicationType : string := "replication-type".
Definition ParameterKeyDiskEncryptionKmsKey : string := "disk-encryption-kms-key".

Definition TopologyKeyZone : string := "topology.gke.io/zone".
Definition KubernetesTopologyKeyZone : string := "failure-domain.beta.kubernetes.io/zone".

Definition VolumeAttributePartition : string := "partition".

Definition UnspecifiedValue : string := "UNSPECIFIED".

End common.

(** ** Controller constants *)

Definition MaxVolumeSizeInBytes : Z := 64 * 1024 * 1024 * 1024 * 1024.
Definition MinimumVolumeSizeInBytes : Z := 5 * 1024 * 1024 * 1024.
Definition MinimumDiskSizeInGb : Z := 5.

Definition DiskTypeSSD : string := "pd-ssd".
Definition DiskTypeStandard : string := "pd-standard".
Definition diskTypeDefault : string := DiskTypeStandard.

Definition attachableDiskTypePersistent : string := "PERSISTENT".

(** ** Go standard library functions used by the services *)

Definition len0 (s : string) : bool := Nat.eqb (String.length s) 0.

Definition lower_byte (c : ascii) : ascii :=
  let n := nat_of_ascii c in
  if Nat.leb 65 n && Nat.leb n 90 then ascii_of_nat (n + 32) else c.

(** [strings.ToLower] on ASCII text: the bytes 'A'..'Z' are mapped to
    'a'..'z', every other byte is kept. *)
Fixpoint strings_ToLower (s : string) : string :=
  match s with
  | EmptyString => EmptyString
  | String c r => String (lower_byte c) (strings_ToLower r)
  end.

Definition is_space (c : ascii) : bool :=
  let n := nat_of_ascii c in
  Nat.eqb n 32 || (Nat.leb 9 n && Nat.leb n 13).

Fixpoint trim_left (s : string) : string :=
  match s with
  | String c r => if is_space c then trim_left r else s
  | EmptyString => EmptyString
  end.

Fixpoint trim_right (s : string) : string :=
  match s with
  | EmptyString => EmptyString
  | String c r =>
      match trim_right r with
      | EmptyString => if is_space c then EmptyString else String c EmptyString
      | r' => String c r'
      end
  end.

(** [strings.TrimSpace] on ASCII text. *)
Definition strings_TrimSpace (s : string) : string := trim_right (trim_left s).

Definition digit_of (c : ascii) : option Z :=
  let n := nat_of_ascii c in
  if Nat.leb 48 n && Nat.leb n 57 then Some (Z.of_nat n - 48) else None.

Fixpoint parse_digits (s : string) (acc : Z) : option Z :=
  match s with
  | EmptyString => Some acc
  | String c r =>
      match digit_of c with
      | Some d => parse_digits r (10 * acc + d)
      | None => None
      end
  end.

(** [strconv.ParseInt(s, 10, 64)]: an optional sign, then one or more
    decimal digits; a value outside the int64 range is an error. *)
Definition strconv_ParseInt (s : string) : result Z :=
  let '(neg, body) :=
    match s with
    | String "+"%char r => (false, r)
    | String "-"%char r => (true, r)
    | _ => (false, s)
    end in
  match body with
  | EmptyString => Err fmt_Errorf
  | _ =>
      match parse_digits body 0 with
      | None => Err fmt_Errorf
      | Some n =>
          let v := if neg then - n else n in
          if (v <? - 2 ^ 63) || (2 ^ 63 - 1 <? v) then Err fmt_Errorf else Ok v
      end
  end.

(** [rand.Intn(n)] for [n > 0]: [rnd] is the next output of the
    process-wide random source, reduced into [0, n). *)
Definition rand_Intn (rnd : nat) (n : nat) : nat := Nat.modulo rnd n.

(** ** Protocol messages *)

Record CapacityRange : Type := {
  RequiredBytes : Z;
  LimitBytes : Z
}.

(** The generated getters return the zero value on a nil message. *)
Definition GetRequiredBytes (capRange : option CapacityRange) : Z :=
  match capRange with Some c => RequiredBytes c | None => 0 end.

Definition GetLimitBytes (capRange : option CapacityRange) : Z :=
  match capRange with Some c => LimitBytes c | None => 0 end.

(** ** Capacity resolution *)

Definition getRequestCapacity (capRange : option CapacityRange) : result Z :=
  match capRange with
  | None => Ok MinimumVolumeSizeInBytes
  | Some _ =>
      let rBytes := GetRequiredBytes capRange in
      let rSet := 0 <? rBytes in
      let lBytes := GetLimitBytes capRange in
      let lSet := 0 <? lBytes in
      if lSet && rSet && (lBytes <? rBytes) then Err fmt_Errorf
      else if lSet && (lBytes <? MinimumVolumeSizeInBytes) then Err fmt_Errorf
      else
        let capBytes := if rSet then rBytes else 0 in
        let capBytes :=
          if capBytes <? MinimumVolumeSizeInBytes
          then MinimumVolumeSizeInBytes else capBytes in
        Ok capBytes
  end.

(** ** Protocol messages, continued *)

Module Topology.
(** [Segments = None] is the nil map. *)
Record t : Type := { Segments : option (gmap string string) }.
End Topology.

Module TopologyRequirement.
Record t : Type := {
  Requisite : list Topology.t;
  Preferred : list Topology.t
}.
End TopologyRequirement.

Module VolumeCapability.
Record MountVolume : Type := { FsType : string; MountFlags : list string }.
(** The [access_type] oneof. *)
Inductive AccessType : Type :=
  | Mount (mnt : MountVolume)
  | Block
  | Unset.
Record t : Type := { access_type : AccessType; AccessMode : nat }.

Definition GetMount (c : t) : option MountVolume :=
  match access_type c with Mount mnt => Some mnt | _ => None end.
Definition GetBlock (c : t) : bool :=
  match access_type c with Block => true | _ => false end.
End VolumeCapability.

Module CreateVolumeRequest.
Record t : Type := {
  Name : string;
  CapacityRange_ : option CapacityRange;
  VolumeCapabilities : list VolumeCapability.t;
  Parameters : gmap string string;
  AccessibilityRequirements : option TopologyRequirement.t
}.
End CreateVolumeRequest.

Module Volume.
Record t : Type := {
  CapacityBytes : Z;
  Id : string;
  Attributes : option (gmap string string);
  AccessibleTopology : list Topology.t
}.
End Volume.

Module CreateVolumeResponse.
Record t : Type := { Volume : Volume.t }.
End CreateVolumeResponse.

Module DeleteVolumeRequest.
Record t : Type := { VolumeId : string }.
End DeleteVolumeRequest.

Module ControllerPublishVolumeRequest.
Record t : Type := {
  VolumeId : string;
  NodeId : string;
  VolumeCapability_ : option VolumeCapability.t;
  Readonly : bool
}.
End ControllerPublishVolumeRequest.

Module NodePublishVolumeRequest.
Record t : Type := {
  VolumeId : string;
  StagingTargetPath : string;
  TargetPath : string;
  VolumeCapability_ : option VolumeCapability.t;
  Readonly : bool;
  VolumeContext : gmap string string
}.
End NodePublishVolumeRequest.

Module NodeUnpublishVolumeRequest.
Record t : Type := { VolumeId : string; TargetPath : string }.
End NodeUnpublishVolumeRequest.

Module NodeStageVolumeRequest.
Record t : Type := {
  VolumeId : string;
  StagingTargetPath : string;
  VolumeCapability_ : option VolumeCapability.t;
  VolumeContext : gmap string string
}.
End NodeStageVolumeRequest.

Module NodeUnstageVolumeRequest.
Record t : Type := { VolumeId : string; StagingTargetPath : string }.
End NodeUnstageVolumeRequest.

Module NodeExpandVolumeRequest.
Record t : Type := {
  VolumeId : string;
  VolumePath : string;
  CapacityRange_ : option CapacityRange
}.
End NodeExpandVolumeRequest.

Module NodeExpandVolumeResponse.
Record t : Type := { CapacityBytes : Z }.
End NodeExpandVolumeResponse.

Inductive NodePublishVolumeResponse : Type := NodePublishVolumeResponse_empty.
Inductive NodeUnpublishVolumeResponse : Type := NodeUnpublishVolumeResponse_empty.
Inductive NodeStageVolumeResponse : Type := NodeStageVolumeResponse_empty.
Inductive NodeUnstageVolumeResponse : Type := NodeUnstageVolumeResponse_empty.

(** Responses without content that the services read. *)
Inductive DeleteVolumeResponse : Type := DeleteVolumeResponse_empty.
Inductive ControllerPublishVolumeResponse : Type := ControllerPublishVolumeResponse_nil_info.

(** ** Cloud entities (package compute of the cloud API) *)

Module Disk.
Record t : Type := {
  Name : string;
  SizeGb : Z;
  Description : string;
  Type_ : string;
  Kind : string
}.
End Disk.

Module AttachedDisk.
Record t : Type := {
  DeviceName : string;
  Kind : string;
  Mode : string;
  Source : string;
  Type_ : string
}.
End AttachedDisk.

Module Instance.
Record t : Type := { Disks : list AttachedDisk.t }.
End Instance.

Module Operation.
Record t : Type := { Name : string }.
End Operation.

(** ** Collaborators *)

(** The cloud disk client, interface [gce.GCECompute], over the state [C]
    of the cloud as the client sees it.  Every method that sends a request
    takes the state and returns the next one. *)
Class GCECompute (C : Type) : Type := {
  GetZone : C -> string;
  GetDiskSourceURI : Disk.t -> string -> C -> string;
  GetDiskTypeURI : string -> string -> C -> string;
  GetAndValidateExistingDisk :
    string -> string -> string -> Z -> Z -> C -> result bool * C;
  InsertDisk : string -> Disk.t -> C -> result Operation.t * C;
  DeleteDisk : string -> string -> C -> result Operation.t * C;
  WaitForOp : Operation.t -> string -> C -> option error * C;
  GetDiskOrError : string -> string -> C -> result Disk.t * C;
  GetInstanceOrError : string -> string -> C -> result Instance.t * C;
  AttachDisk : string -> string -> AttachedDisk.t -> C -> result Operation.t * C;
  WaitForAttach : string -> string -> string -> C -> option error * C
}.

(** The requests sent to the cloud, in the order of sending. *)
Inductive CloudCall : Type :=
  | Call_GetAndValidateExistingDisk (zone name diskType : string) (reqBytes limBytes : Z)
  | Call_InsertDisk (zone : string) (diskToCreate : Disk.t)
  | Call_DeleteDisk (zone name : string)
  | Call_WaitForOp (op : Operation.t) (zone : string)
  | Call_GetDiskOrError (zone name : string)
  | Call_GetInstanceOrError (zone name : string)
  | Call_AttachDisk (zone instanceName : string) (disk : AttachedDisk.t)
  | Call_WaitForAttach (zone diskName instanceName : string).

Definition is_InsertDisk (c : CloudCall) : bool :=
  match c with Call_InsertDisk _ _ => true | _ => false end.

Definition is_AttachDisk (c : CloudCall) : bool :=
  match c with Call_AttachDisk _ _ _ => true | _ => false end.

(** The mounter ([mount.SafeFormatAndMount] with its [Interface] and
    [Exec]), the resizer, the device utilities and the file operations of
    package os, over the state [H] of the host. *)
Class NodeHost (H : Type) : Type := {
  IsLikelyNotMountPoint : string -> H -> (bool * option error) * H;
  MakeDir : string -> H -> option error * H;
  MakeFile : string -> H -> option error * H;
  Mount_ : string -> string -> string -> list string -> H -> option error * H;
  Unmount : string -> H -> option error * H;
  FormatAndMount : string -> string -> string -> list string -> H -> option error * H;
  CleanupMountPoint : string -> bool -> H -> option error * H;
  Exec_Run : string -> list string -> H -> (string * option error) * H;
  Resize : string -> string -> H -> result bool * H;
  os_Remove : string -> H -> option error * H;
  os_IsNotExist : error -> bool;
  GetDiskByIdPaths : string -> string -> list string;
  VerifyDevicePath : list string -> H -> result string * H
}.

Module VolumeKey.
Record t : Type := { Zone : string; Name : string }.
End VolumeKey.

(** Functions and constants of this repository that the services use and
    that are defined in files not covered here (package common,
    package gce, utils.go of the driver package).  They are parameters of
    the development. *)
Class Helpers : Type := {
  ParameterKeyZone : string;
  SplitZoneNameId : string -> result (string * string);
  BytesToGb : Z -> Z;
  VolumeIDToKey : string -> result VolumeKey.t;
  GetDeviceName : VolumeKey.t -> result string;
  IsGCEError : error -> string -> bool;
  validateVolumeCapability : VolumeCapability.t -> option error
}.

(** Modelled from the spec: [common.CombineVolumeId], whose source is
    not covered here.  The specification (Volume-ID codec,
    Encode) gives the identifier as the zone, the separator and the
    name. *)
Definition CombineVolumeId (zone name : string) : string :=
  (zone ++ "/" ++ name)%string.

(** Modelled from the spec: [common.VolumeLocks], whose source is not
    covered here.  The specification (Volume Lock Registry)
    gives it as the set of identifiers in use: [TryAcquire] fails at once
    on an identifier that is held and otherwise takes it, [Release] frees
    it. *)
Module VolumeLocks.
Definition t : Type := gset string.

Definition TryAcquire (volumeID : string) (vl : gset string) : bool * gset string :=
  if bool_decide (volumeID ∈ vl) then (false, vl)
  else (true, {[ volumeID ]} ∪ vl).

Definition Release (volumeID : string) (vl : gset string) : gset string :=
  vl ∖ {[ volumeID ]}.
End VolumeLocks.

Inductive LockCall : Type :=
  | Call_TryAcquire (volumeID : string) (acquired : bool)
  | Call_Release (volumeID : string).

(** ** Control flow of a Go function body

    A body runs on the state [W] of the process.  A step either goes on
    with a value ([inl]) or leaves the function with its results ([inr],
    a [return] statement). *)

Definition Go (W R A : Type) : Type := W -> (A + R) * W.

Definition go_pure {W R A} (a : A) : Go W R A := fun w => (inl a, w).

Definition Return {W R A} (r : R) : Go W R A := fun w => (inr r, w).

Definition go_bind {W R A B} (m : Go W R A) (k : A -> Go W R B) : Go W R B :=
  fun w =>
    match m w with
    | (inl a, w') => k a w'
    | (inr r, w') => (inr r, w')
    end.

(** [if c { return ... }] *)
Definition when {W R} (c : bool) (m : Go W R unit) : Go W R unit :=
  if c then m else go_pure tt.

(** [v, err := f(); if err != nil { return h(err) }] *)
Definition orReturn {W R A} (r : result A) (h : error -> R) : Go W R A :=
  match r with
  | Ok a => go_pure a
  | Err e => Return (h e)
  end.

Definition gets {W R A} (f : W -> A) : Go W R A := fun w => (inl (f w), w).

(** [defer f()] in front of the rest of a body: [f] runs when the
    function is left, whichever [return] is taken. *)
Definition defer {W R A} (f : W -> W) (rest : Go W R A) : Go W R A :=
  fun w => let '(x, w') := rest w in (x, f w').

(** A call, inside a body, of another function of the process. *)
Definition invoke {W R X} (f : W -> X * W) : Go W R X :=
  fun w => let '(x, w') := f w in (inl x, w').

(** A call of a function whose body is [body]. *)
Definition call {W R} (body : Go W R R) : W -> R * W :=
  fun w =>
    match body w with
    | (inl r, w') => (r, w')
    | (inr r, w') => (r, w')
    end.

Notation "x <- m ;; k" := (go_bind m (fun x => k))
  (at level 100, m at next level, k at level 200, right associativity).
Notation "m ;; k" := (go_bind m (fun _ => k))
  (at level 100, k at level 200, right associativity).

Definition is_nil {A} (o : option A) : bool :=
  match o with None => true | Some _ => false end.

(** ** Pure helpers of the controller *)

Fixpoint getZoneFromSegment_range (kvs : list (string * string)) (zone : string)
  : result string :=
  match kvs with
  | [] => Ok zone
  | (k, v) :: rest =>
      if String.eqb k common.TopologyKeyZone
      then getZoneFromSegment_range rest v
      else Err fmt_Errorf
  end.

Definition getZoneFromSegment (seg : gmap string string) : result string :=
  match getZoneFromSegment_range (map_to_list seg) "" with
  | Err e => Err e
  | Ok zone => if len0 zone then Err fmt_Errorf else Ok zone
  end.

Definition pickTopology (rnd : nat) (top : TopologyRequirement.t) : result string :=
  let reqTop := TopologyRequirement.Requisite top in
  let prefTop := TopologyRequirement.Preferred top in
  match prefTop with
  | pref0 :: _ =>
      match Topology.Segments pref0 with
      | None => Err fmt_Errorf
      | Some seg =>
          match getZoneFromSegment seg with
          | Err _ => Err fmt_Errorf
          | Ok zone => Ok zone
          end
      end
  | [] =>
      match reqTop with
      | req0 :: _ =>
          let r := rand_Intn rnd (length reqTop) in
          match Topology.Segments (nth r reqTop req0) with
          | None => Err fmt_Errorf
          | Some seg =>
              match getZoneFromSegment seg with
              | Err _ => Err fmt_Errorf
              | Ok zone => Ok zone
              end
          end
      | [] => Err fmt_Errorf
      end
  end.

Fixpoint diskIsAttachedAndCompatible_range
    (disks : list AttachedDisk.t) (volume : Disk.t) (readWrite : string)
  : bool * option error :=
  match disks with
  | [] => (false, None)
  | disk :: rest =>
      if String.eqb (AttachedDisk.DeviceName disk) (Disk.Name volume) then
        if negb (String.eqb (AttachedDisk.Mode disk) readWrite)
        then (true, Some fmt_Errorf)
        else (true, None)
      else diskIsAttachedAndCompatible_range rest volume readWrite
  end.

Definition diskIsAttachedAndCompatible
    (volume : Disk.t) (instance : Instance.t)
    (volumeCapability : option VolumeCapability.t) (readWrite : string)
  : bool * option error :=
  diskIsAttachedAndCompatible_range (Instance.Disks instance) volume readWrite.

Fixpoint diskIsAttached_range (disks : list AttachedDisk.t) (volume : Disk.t) : bool :=
  match disks with
  | [] => false
  | disk :: rest =>
      if String.eqb (AttachedDisk.DeviceName disk) (Disk.Name volume) then true
      else diskIsAttached_range rest volume
  end.

Definition diskIsAttached (volume : Disk.t) (instance : Instance.t) : bool :=
  diskIsAttached_range (Instance.Disks instance) volume.

(** ** The services *)

Section Driver.

Context {C H : Type} {gce : GCECompute C} {nh : NodeHost H} {hp : Helpers}.

(** The state of the driver process: the lock registry of the node
    server with the calls made on it, the cloud behind the controller
    server with the requests sent to it, and the host of the node
    server. *)
Record World : Type := {
  volumeLocks : gset string;
  lockCalls : list LockCall;
  cloud : C;
  cloudCalls : list CloudCall;
  host : H
}.

Definition cloudDo {R X} (f : C -> X * C) (ev : CloudCall) : Go World R X :=
  fun w =>
    let '(x, c') := f (cloud w) in
    (inl x, {| volumeLocks := volumeLocks w; lockCalls := lockCalls w;
               cloud := c'; cloudCalls := cloudCalls w ++ [ev];
               host := host w |}).

Definition hostDo {R X} (f : H -> X * H) : Go World R X :=
  fun w =>
    let '(x, h') := f (host w) in
    (inl x, {| volumeLocks := volumeLocks w; lockCalls := lockCalls w;
               cloud := cloud w; cloudCalls := cloudCalls w;
               host := h' |}).

Definition TryAcquire {R} (volumeID : string) : Go World R bool :=
  fun w =>
    let '(acquired, vl) := VolumeLocks.TryAcquire volumeID (volumeLocks w) in
    (inl acquired,
     {| volumeLocks := vl;
        lockCalls := lockCalls w ++ [Call_TryAcquire volumeID acquired];
        cloud := cloud w; cloudCalls := cloudCalls w; host := host w |}).

Definition Release (volumeID : string) (w : World) : World :=
  {| volumeLocks := VolumeLocks.Release volumeID (volumeLocks w);
     lockCalls := lockCalls w ++ [Call_Release volumeID];
     cloud := cloud w; cloudCalls := cloudCalls w; host := host w |}.

(** *** Controller server *)

(** The loop of CreateVolume over the parameters of the request. *)
Fixpoint CreateVolume_parameters
    (kvs : list (string * string)) (diskType configuredZone : string)
  : result (string * string) :=
  match kvs with
  | [] => Ok (diskType, configuredZone)
  | (k, v) :: rest =>
      if String.eqb k "csiProvisionerSecretName"
         || String.eqb k "csiProvisionerSecretNamespace"
      then CreateVolume_parameters rest diskType configuredZone
      else if String.eqb (strings_ToLower k) common.ParameterKeyType
      then CreateVolume_parameters rest v configuredZone
      else if String.eqb (strings_ToLower k) ParameterKeyZone
      then CreateVolume_parameters rest diskType v
      else Err (status_Error InvalidArgument)
  end.

Definition CreateVolume (rnd : nat) (req : CreateVolumeRequest.t)
  : World -> result CreateVolumeResponse.t * World :=
  call (
    let volumeCapabilities := CreateVolumeRequest.VolumeCapabilities req in
    let name := CreateVolumeRequest.Name req in
    let capacityRange := CreateVolumeRequest.CapacityRange_ req in
    when (len0 name) (Return (Err (status_Error InvalidArgument))) ;;
    when (Nat.eqb (length volumeCapabilities) 0)
      (Return (Err (status_Error InvalidArgument))) ;;
    capBytes <- orReturn (getRequestCapacity capacityRange)
                  (fun _ => Err (status_Error InvalidArgument)) ;;
    params <-
      orReturn (CreateVolume_parameters
                  (map_to_list (CreateVolumeRequest.Parameters req))
                  "pd-standard" "") Err ;;
    let '(diskType, configuredZone) := params in
    configuredZone <-
      match CreateVolumeRequest.AccessibilityRequirements req with
      | Some top =>
          when (negb (len0 configuredZone))
            (Return (Err (status_Error InvalidArgument))) ;;
          orReturn (pickTopology rnd top)
            (fun _ => Err (status_Error InvalidArgument))
      | None => go_pure configuredZone
      end ;;
    configuredZone <-
      (if len0 configuredZone
       then gets (fun w => GetZone (cloud w))
       else go_pure configuredZone) ;;
    let createResp :=
      {| CreateVolumeResponse.Volume :=
           {| Volume.CapacityBytes := capBytes;
              Volume.Id := CombineVolumeId configuredZone name;
              Volume.Attributes := None;
              Volume.AccessibleTopology :=
                [ {| Topology.Segments :=
                       Some {[ common.TopologyKeyZone := configuredZone ]} |} ]
           |} |} in
    let check :=
      Call_GetAndValidateExistingDisk configuredZone name diskType
        (GetRequiredBytes capacityRange) (GetLimitBytes capacityRange) in
    r <- cloudDo (GetAndValidateExistingDisk configuredZone name diskType
                    (GetRequiredBytes capacityRange)
                    (GetLimitBytes capacityRange)) check ;;
    exists_ <- orReturn r Err ;;
    when exists_ (Return (Ok createResp)) ;;
    let sizeGb := BytesToGb capBytes in
    let sizeGb :=
      if sizeGb <? MinimumDiskSizeInGb then MinimumDiskSizeInGb else sizeGb in
    typeURI <- gets (fun w => GetDiskTypeURI configuredZone diskType (cloud w)) ;;
    let diskToCreate :=
      {| Disk.Name := name;
         Disk.SizeGb := sizeGb;
         Disk.Description := "Disk created by GCE-PD CSI Driver";
         Disk.Type_ := typeURI;
         Disk.Kind := "" |} in
    r <- cloudDo (InsertDisk configuredZone diskToCreate)
           (Call_InsertDisk configuredZone diskToCreate) ;;
    insertOp <-
      match r with
      | Err err =>
          if IsGCEError err "alreadyExists" then
            r <- cloudDo (GetAndValidateExistingDisk configuredZone name diskType
                            (GetRequiredBytes capacityRange)
                            (GetLimitBytes capacityRange)) check ;;
            _ <- orReturn r Err ;;
            Return (Ok createResp)
          else Return (Err (status_Error Internal))
      | Ok op => go_pure op
      end ;;
    err <- cloudDo (WaitForOp insertOp configuredZone)
             (Call_WaitForOp insertOp configuredZone) ;;
    match err with
    | Some err =>
        if IsGCEError err "alreadyExists" then
          r <- cloudDo (GetAndValidateExistingDisk configuredZone name diskType
                          (GetRequiredBytes capacityRange)
                          (GetLimitBytes capacityRange)) check ;;
          _ <- orReturn r Err ;;
          Return (Ok createResp)
        else Return (Err (status_Error Internal))
    | None => go_pure tt
    end ;;
    Return (Ok createResp)).

Definition DeleteVolume (req : DeleteVolumeRequest.t)
  : World -> result DeleteVolumeResponse * World :=
  call (
    let volumeID := DeleteVolumeRequest.VolumeId req in
    when (len0 volumeID) (Return (Err (status_Error InvalidArgument))) ;;
    match SplitZoneNameId volumeID with
    | Err _ => Return (Ok DeleteVolumeResponse_empty)
    | Ok (zone, name) =>
        r <- cloudDo (DeleteDisk zone name) (Call_DeleteDisk zone name) ;;
        deleteOp <-
          match r with
          | Err err =>
              if IsGCEError err "resourceInUseByAnotherResource"
              then Return (Err (status_Error FailedPrecondition))
              else if IsGCEError err "notFound"
              then Return (Ok DeleteVolumeResponse_empty)
              else Return (Err (status_Error Internal))
          | Ok op => go_pure op
          end ;;
        err <- cloudDo (WaitForOp deleteOp zone) (Call_WaitForOp deleteOp zone) ;;
        when (negb (is_nil err)) (Return (Err (status_Error Internal))) ;;
        Return (Ok DeleteVolumeResponse_empty)
    end).

Definition ControllerPublishVolume (req : ControllerPublishVolumeRequest.t)
  : World -> result ControllerPublishVolumeResponse * World :=
  call (
    let volumeID := ControllerPublishVolumeRequest.VolumeId req in
    let readOnly := ControllerPublishVolumeRequest.Readonly req in
    let nodeID := ControllerPublishVolumeRequest.NodeId req in
    let volumeCapability := ControllerPublishVolumeRequest.VolumeCapability_ req in
    when (len0 volumeID) (Return (Err (status_Error InvalidArgument))) ;;
    when (len0 nodeID) (Return (Err (status_Error InvalidArgument))) ;;
    when (is_nil volumeCapability) (Return (Err (status_Error InvalidArgument))) ;;
    key <-
      orReturn (SplitZoneNameId volumeID) (fun _ => Err (status_Error NotFound)) ;;
    let '(volumeZone, volumeName) := key in
    let pubVolResp := ControllerPublishVolumeResponse_nil_info in
    r <- cloudDo (GetDiskOrError volumeZone volumeName)
           (Call_GetDiskOrError volumeZone volumeName) ;;
    disk <- orReturn r Err ;;
    r <- cloudDo (GetInstanceOrError volumeZone nodeID)
           (Call_GetInstanceOrError volumeZone nodeID) ;;
    instance <-
      match r with
      | Err err =>
          if IsGCEError err "notFound"
          then Return (Err (status_Error NotFound))
          else Return (Err (status_Error Internal))
      | Ok i => go_pure i
      end ;;
    let readWrite := if readOnly then "READ_ONLY" else "READ_WRITE" in
    let '(attached, err) :=
      diskIsAttachedAndCompatible disk instance volumeCapability readWrite in
    when (negb (is_nil err)) (Return (Err (status_Error AlreadyExists))) ;;
    when attached (Return (Ok pubVolResp)) ;;
    source <- gets (fun w => GetDiskSourceURI disk volumeZone (cloud w)) ;;
    let attachedDiskV1 :=
      {| AttachedDisk.DeviceName := Disk.Name disk;
         AttachedDisk.Kind := Disk.Kind disk;
         AttachedDisk.Mode := readWrite;
         AttachedDisk.Source := source;
         AttachedDisk.Type_ := attachableDiskTypePersistent |} in
    r <- cloudDo (AttachDisk volumeZone nodeID attachedDiskV1)
           (Call_AttachDisk volumeZone nodeID attachedDiskV1) ;;
    attachOp <- orReturn r (fun _ => Err (status_Error Internal)) ;;
    err <- cloudDo (WaitForOp attachOp volumeZone)
             (Call_WaitForOp attachOp volumeZone) ;;
    when (negb (is_nil err)) (Return (Err (status_Error Internal))) ;;
    err <- cloudDo (WaitForAttach volumeZone (Disk.Name disk) nodeID)
             (Call_WaitForAttach volumeZone (Disk.Name disk) nodeID) ;;
    when (negb (is_nil err)) (Return (Err (status_Error Internal))) ;;
    Return (Ok pubVolResp)).

(** *** Node server *)

Definition getDevicePath (volumeID partition : string)
  : World -> result string * World :=
  call (
    volumeKey <- orReturn (VolumeIDToKey volumeID) Err ;;
    deviceName <- orReturn (GetDeviceName volumeKey) (fun _ => Err fmt_Errorf) ;;
    let devicePaths := GetDiskByIdPaths deviceName partition in
    r <- hostDo (VerifyDevicePath devicePaths) ;;
    devicePath <- orReturn r (fun _ => Err fmt_Errorf) ;;
    when (String.eqb devicePath "") (Return (Err fmt_Errorf)) ;;
    Return (Ok devicePath)).

(** On an error the Go function returns -1 with the error; its caller
    reads the number only when the error is nil. *)
Definition getBlockSizeBytes (devicePath : string)
  : World -> result Z * World :=
  call (
    p <- hostDo (Exec_Run "blockdev" ["--getsize64"; devicePath]) ;;
    let '(output, err) := p in
    when (negb (is_nil err)) (Return (Err fmt_Errorf)) ;;
    let strOut := strings_TrimSpace output in
    gotSizeBytes <- orReturn (strconv_ParseInt strOut) (fun _ => Err fmt_Errorf) ;;
    Return (Ok gotSizeBytes)).

Definition NodePublishVolume (req : NodePublishVolumeRequest.t)
  : World -> result NodePublishVolumeResponse * World :=
  call (
    let targetPath := NodePublishVolumeRequest.TargetPath req in
    let stagingTargetPath := NodePublishVolumeRequest.StagingTargetPath req in
    let readOnly := NodePublishVolumeRequest.Readonly req in
    let volumeID := NodePublishVolumeRequest.VolumeId req in
    when (len0 volumeID) (Return (Err (status_Error InvalidArgument))) ;;
    when (len0 stagingTargetPath) (Return (Err (status_Error InvalidArgument))) ;;
    when (len0 targetPath) (Return (Err (status_Error InvalidArgument))) ;;
    volumeCapability <-
      match NodePublishVolumeRequest.VolumeCapability_ req with
      | None => Return (Err (status_Error InvalidArgument))
      | Some c => go_pure c
      end ;;
    acquired <- TryAcquire volumeID ;;
    when (negb acquired) (Return (Err (status_Error Aborted))) ;;
    defer (Release volumeID) (
      when (negb (is_nil (validateVolumeCapability volumeCapability)))
        (Return (Err (status_Error InvalidArgument))) ;;
      p <- hostDo (IsLikelyNotMountPoint targetPath) ;;
      let '(notMnt, err) := p in
      when (match err with
            | Some e => negb (os_IsNotExist e)
            | None => false
            end)
        (Return (Err (status_Error Internal))) ;;
      when (negb notMnt) (Return (Ok NodePublishVolumeResponse_empty)) ;;
      let fstype := "" in
      let options := (["bind"] ++ (if readOnly then ["ro"] else []))%list in
      src <-
        match VolumeCapability.GetMount volumeCapability with
        | Some mnt =>
            let fstype :=
              if negb (String.eqb (VolumeCapability.FsType mnt) "")
              then VolumeCapability.FsType mnt else "ext4" in
            let options := (options ++ VolumeCapability.MountFlags mnt)%list in
            let sourcePath := stagingTargetPath in
            err <- hostDo (MakeDir targetPath) ;;
            when (negb (is_nil err)) (Return (Err (status_Error Internal))) ;;
            go_pure (fstype, sourcePath, options)
        | None =>
            if VolumeCapability.GetBlock volumeCapability then
              let partition :=
                match NodePublishVolumeRequest.VolumeContext req
                      !! common.VolumeAttributePartition with
                | Some part => part
                | None => ""
                end in
              r <- invoke (getDevicePath volumeID partition) ;;
              sourcePath <- orReturn r (fun _ => Err (status_Error Internal)) ;;
              err <- hostDo (MakeFile targetPath) ;;
              match err with
              | Some _ =>
                  removeErr <- hostDo (os_Remove targetPath) ;;
                  when (negb (is_nil removeErr))
                    (Return (Err (status_Error Internal))) ;;
                  Return (Err (status_Error Internal))
              | None => go_pure tt
              end ;;
              go_pure (fstype, sourcePath, options)
            else Return (Err (status_Error InvalidArgument))
        end ;;
      let '(fstype, sourcePath, options) := src in
      err <- hostDo (Mount_ sourcePath targetPath fstype options) ;;
      match err with
      | Some _ =>
          p <- hostDo (IsLikelyNotMountPoint targetPath) ;;
          let '(notMnt, mntErr) := p in
          when (negb (is_nil mntErr)) (Return (Err (status_Error Internal))) ;;
          (if negb notMnt then
             mntErr <- hostDo (Unmount targetPath) ;;
             when (negb (is_nil mntErr)) (Return (Err (status_Error Internal))) ;;
             p <- hostDo (IsLikelyNotMountPoint targetPath) ;;
             let '(notMnt, mntErr) := p in
             when (negb (is_nil mntErr)) (Return (Err (status_Error Internal))) ;;
             when (negb notMnt) (Return (Err (status_Error Internal)))
           else go_pure tt) ;;
          hostDo (os_Remove targetPath) ;;
          Return (Err (status_Error Internal))
      | None => Return (Ok NodePublishVolumeResponse_empty)
      end)).

Definition NodeUnpublishVolume (req : NodeUnpublishVolumeRequest.t)
  : World -> result NodeUnpublishVolumeResponse * World :=
  call (
    let targetPath := NodeUnpublishVolumeRequest.TargetPath req in
    let volumeID := NodeUnpublishVolumeRequest.VolumeId req in
    when (len0 volumeID) (Return (Err (status_Error InvalidArgument))) ;;
    when (len0 targetPath) (Return (Err (status_Error InvalidArgument))) ;;
    acquired <- TryAcquire volumeID ;;
    when (negb acquired) (Return (Err (status_Error Aborted))) ;;
    defer (Release volumeID) (
      err <- hostDo (CleanupMountPoint targetPath false) ;;
      when (negb (is_nil err)) (Return (Err (status_Error Internal))) ;;
      Return (Ok NodeUnpublishVolumeResponse_empty))).

Definition NodeStageVolume (req : NodeStageVolumeRequest.t)
  : World -> result NodeStageVolumeResponse * World :=
  call (
    let volumeID := NodeStageVolumeRequest.VolumeId req in
    let stagingTargetPath := NodeStageVolumeRequest.StagingTargetPath req in
    when (len0 volumeID) (Return (Err (status_Error InvalidArgument))) ;;
    when (len0 stagingTargetPath) (Return (Err (status_Error InvalidArgument))) ;;
    volumeCapability <-
      match NodeStageVolumeRequest.VolumeCapability_ req with
      | None => Return (Err (status_Error InvalidArgument))
      | Some c => go_pure c
      end ;;
    acquired <- TryAcquire volumeID ;;
    when (negb acquired) (Return (Err (status_Error Aborted))) ;;
    defer (Release volumeID) (
      when (negb (is_nil (validateVolumeCapability volumeCapability)))
        (Return (Err (status_Error InvalidArgument))) ;;
      volumeKey <- orReturn (VolumeIDToKey volumeID)
                     (fun _ => Err (status_Error InvalidArgument)) ;;
      let partition :=
        match NodeStageVolumeRequest.VolumeContext req
              !! common.VolumeAttributePartition with
        | Some part => part
        | None => ""
        end in
      r <- invoke (getDevicePath volumeID partition) ;;
      devicePath <- orReturn r (fun _ => Err (status_Error Internal)) ;;
      p <- hostDo (IsLikelyNotMountPoint stagingTargetPath) ;;
      let '(notMnt, err) := p in
      notMnt <-
        match err with
        | Some e =>
            if os_IsNotExist e then
              err <- hostDo (MakeDir stagingTargetPath) ;;
              when (negb (is_nil err)) (Return (Err (status_Error Internal))) ;;
              go_pure true
            else Return (Err (status_Error Internal))
        | None => go_pure notMnt
        end ;;
      when (negb notMnt) (Return (Ok NodeStageVolumeResponse_empty)) ;;
      let fstype := "ext4" in
      let options := [] in
      mode <-
        match VolumeCapability.GetMount volumeCapability with
        | Some mnt =>
            let fstype :=
              if negb (String.eqb (VolumeCapability.FsType mnt) "")
              then VolumeCapability.FsType mnt else fstype in
            let options := (options ++ VolumeCapability.MountFlags mnt)%list in
            go_pure (fstype, options)
        | None =>
            if VolumeCapability.GetBlock volumeCapability
            then Return (Ok NodeStageVolumeResponse_empty)
            else go_pure (fstype, options)
        end ;;
      let '(fstype, options) := mode in
      err <- hostDo (FormatAndMount devicePath stagingTargetPath fstype options) ;;
      when (negb (is_nil err)) (Return (Err (status_Error Internal))) ;;
      Return (Ok NodeStageVolumeResponse_empty))).

Definition NodeUnstageVolume (req : NodeUnstageVolumeRequest.t)
  : World -> result NodeUnstageVolumeResponse * World :=
  call (
    let volumeID := NodeUnstageVolumeRequest.VolumeId req in
    let stagingTargetPath := NodeUnstageVolumeRequest.StagingTargetPath req in
    when (len0 volumeID) (Return (Err (status_Error InvalidArgument))) ;;
    when (len0 stagingTargetPath) (Return (Err (status_Error InvalidArgument))) ;;
    acquired <- TryAcquire volumeID ;;
    when (negb acquired) (Return (Err (status_Error Aborted))) ;;
    defer (Release volumeID) (
      err <- hostDo (CleanupMountPoint stagingTargetPath false) ;;
      when (negb (is_nil err)) (Return (Err (status_Error Internal))) ;;
      Return (Ok NodeUnstageVolumeResponse_empty))).

Definition NodeExpandVolume (req : NodeExpandVolumeRequest.t)
  : World -> result NodeExpandVolumeResponse.t * World :=
  call (
    let volumeID := NodeExpandVolumeRequest.VolumeId req in
    when (len0 volumeID) (Return (Err (status_Error InvalidArgument))) ;;
    let capacityRange := NodeExpandVolumeRequest.CapacityRange_ req in
    reqBytes <- orReturn (getRequestCapacity capacityRange)
                  (fun _ => Err (status_Error InvalidArgument)) ;;
    let volumePath := NodeExpandVolumeRequest.VolumePath req in
    when (len0 volumePath) (Return (Err (status_Error InvalidArgument))) ;;
    volKey <- orReturn (VolumeIDToKey volumeID)
                (fun _ => Err (status_Error InvalidArgument)) ;;
    r <- invoke (getDevicePath volumeID "") ;;
    devicePath <- orReturn r (fun _ => Err (status_Error Internal)) ;;
    r <- hostDo (Resize devicePath volumePath) ;;
    _ <- orReturn r (fun _ => Err (status_Error Internal)) ;;
    r <- invoke (getBlockSizeBytes devicePath) ;;
    gotBlockSizeBytes <- orReturn r (fun _ => Err (status_Error Internal)) ;;
    when (gotBlockSizeBytes <? reqBytes) (Return (Err (status_Error Internal))) ;;
    Return (Ok {| NodeExpandVolumeResponse.CapacityBytes := reqBytes |})).

End Driver.

Arguments World C H : clear implicits.

(** ** A cloud, a host and helpers to run the services on *)

Module Fake.

(** Modelled from the spec: the cloud disk client (package gce of this
    repository, whose source is not covered here), as an in-memory cloud.
    The specification's Cloud Disk Client creates, deletes and attaches
    disks and answers the existence check of CreateVolume with "absent",
    "present and compatible with the requested type and capacity
    bounds", or AlreadyExists.  [racing] holds the disks that another
    creator gets into the cloud just before our next insert arrives;
    [waitError] is the error, if any, that the next wait returns. *)
Record Cloud : Type := {
  zone : string;
  disks : list (string * Disk.t);
  instances : list (string * string * Instance.t);
  racing : list (string * Disk.t);
  waitError : option error;
  outage : option error
}.

Definition GiB : Z := 1024 * 1024 * 1024.

Definition diskTypeURI (zone diskType : string) : string :=
  ("zones/" ++ zone ++ "/diskTypes/" ++ diskType)%string.

Definition diskSourceURI (zone name : string) : string :=
  ("zones/" ++ zone ++ "/disks/" ++ name)%string.

Definition findDisk (zone name : string) (ds : list (string * Disk.t)) : option Disk.t :=
  match List.find (fun zd => String.eqb (fst zd) zone
                             && String.eqb (Disk.Name (snd zd)) name) ds with
  | Some zd => Some (snd zd)
  | None => None
  end.

Definition findInstance (zone name : string)
    (insts : list (string * string * Instance.t)) : option Instance.t :=
  match List.find (fun zni => String.eqb (fst (fst zni)) zone
                              && String.eqb (snd (fst zni)) name) insts with
  | Some zni => Some (snd zni)
  | None => None
  end.

Definition getAndValidateExistingDisk
    (zone name diskType : string) (reqBytes limBytes : Z) (c : Cloud)
  : result bool * Cloud :=
  match findDisk zone name (disks c) with
  | None => (Ok false, c)
  | Some d =>
      if String.eqb (Disk.Type_ d) (diskTypeURI zone diskType)
         && (reqBytes <=? Disk.SizeGb d * GiB)
         && ((limBytes <=? 0) || (Disk.SizeGb d * GiB <=? limBytes))
      then (Ok true, c)
      else (Err (status_Error AlreadyExists), c)
  end.

Definition refused (c : Cloud) : Cloud :=
  {| zone := Fake.zone c; disks := disks c; instances := instances c;
     racing := racing c; waitError := waitError c; outage := None |}.

Definition insertDisk (zone : string) (d : Disk.t) (c : Cloud)
  : result Operation.t * Cloud :=
  let present := (disks c ++ racing c)%list in
  match outage c with
  | Some e => (Err e, refused c)
  | None =>
  match findDisk zone (Disk.Name d) present with
  | Some _ =>
      (Err (googleapi_Error ["alreadyExists"]),
       {| zone := Fake.zone c; disks := present; instances := instances c;
          racing := []; waitError := waitError c; outage := outage c |})
  | None =>
      (Ok {| Operation.Name := "insert" |},
       {| zone := Fake.zone c; disks := (present ++ [(zone, d)])%list;
          instances := instances c; racing := []; waitError := waitError c; outage := outage c |})
  end
  end.

Definition attachedAnywhere (name : string) (c : Cloud) : bool :=
  existsb (fun zni =>
             existsb (fun ad => String.eqb (AttachedDisk.DeviceName ad) name)
                     (Instance.Disks (snd zni)))
          (instances c).

Definition deleteDisk (zone name : string) (c : Cloud)
  : result Operation.t * Cloud :=
  match outage c with
  | Some e => (Err e, refused c)
  | None =>
  match findDisk zone name (disks c) with
  | None => (Err (googleapi_Error ["notFound"]), c)
  | Some _ =>
      if attachedAnywhere name c
      then (Err (googleapi_Error ["resourceInUseByAnotherResource"]), c)
      else
        (Ok {| Operation.Name := "delete" |},
         {| zone := Fake.zone c;
            disks := List.filter
                       (fun zd => negb (String.eqb (fst zd) zone
                                        && String.eqb (Disk.Name (snd zd)) name))
                       (disks c);
            instances := instances c; racing := racing c;
            waitError := waitError c; outage := outage c |})
  end
  end.

Definition waitForOp (op : Operation.t) (zone : string) (c : Cloud)
  : option error * Cloud :=
  (waitError c,
   {| zone := Fake.zone c; disks := disks c; instances := instances c;
      racing := racing c; waitError := None; outage := outage c |}).

Definition getDiskOrError (zone name : string) (c : Cloud) : result Disk.t * Cloud :=
  match findDisk zone name (disks c) with
  | Some d => (Ok d, c)
  | None => (Err (googleapi_Error ["notFound"]), c)
  end.

Definition getInstanceOrError (zone name : string) (c : Cloud)
  : result Instance.t * Cloud :=
  match findInstance zone name (instances c) with
  | Some i => (Ok i, c)
  | None => (Err (googleapi_Error ["notFound"]), c)
  end.

Definition attachDisk (zone instanceName : string) (ad : AttachedDisk.t) (c : Cloud)
  : result Operation.t * Cloud :=
  match outage c with
  | Some e => (Err e, refused c)
  | None =>
  match findInstance zone instanceName (instances c) with
  | None => (Err (googleapi_Error ["notFound"]), c)
  | Some _ =>
      (Ok {| Operation.Name := "attach" |},
       {| zone := Fake.zone c; disks := disks c;
          instances :=
            List.map
              (fun zni =>
                 if String.eqb (fst (fst zni)) zone
                    && String.eqb (snd (fst zni)) instanceName
                 then (fst zni,
                       {| Instance.Disks := (Instance.Disks (snd zni) ++ [ad])%list |})
                 else zni)
              (instances c);
          racing := racing c; waitError := waitError c; outage := outage c |})
  end
  end.

Definition waitForAttach (zone diskName instanceName : string) (c : Cloud)
  : option error * Cloud :=
  match findInstance zone instanceName (instances c) with
  | Some i =>
      if existsb (fun ad => String.eqb (AttachedDisk.DeviceName ad) diskName)
                 (Instance.Disks i)
      then (None, c) else (Some fmt_Errorf, c)
  | None => (Some fmt_Errorf, c)
  end.

#[global] Instance cloud_GCECompute : GCECompute Cloud := {|
  GetZone := zone;
  GetDiskSourceURI := fun d z _ => diskSourceURI z (Disk.Name d);
  GetDiskTypeURI := fun z t _ => diskTypeURI z t;
  GetAndValidateExistingDisk := getAndValidateExistingDisk;
  InsertDisk := insertDisk;
  DeleteDisk := deleteDisk;
  WaitForOp := waitForOp;
  GetDiskOrError := getDiskOrError;
  GetInstanceOrError := getInstanceOrError;
  AttachDisk := attachDisk;
  WaitForAttach := waitForAttach
|}.

(** A host for the examples: the mount table, the device paths that
    exist, what [blockdev --getsize64] prints, and the error, if any,
    that a mount returns. *)
Record Host : Type := {
  mountPoints : list string;
  devices : list string;
  blockdevOutput : string;
  mountError : option error
}.

Definition isMountPoint (path : string) (h : Host) : bool :=
  existsb (String.eqb path) (mountPoints h).

Definition withMounts (ms : list string) (h : Host) : Host :=
  {| mountPoints := ms; devices := devices h;
     blockdevOutput := blockdevOutput h; mountError := mountError h |}.

Definition mount (target : string) (h : Host) : option error * Host :=
  match mountError h with
  | Some e => (Some e, h)
  | None => (None, withMounts (mountPoints h ++ [target])%list h)
  end.

Definition unmount (target : string) (h : Host) : option error * Host :=
  (None, withMounts (List.filter (fun m => negb (String.eqb m target)) (mountPoints h)) h).

#[global] Instance host_NodeHost : NodeHost Host := {|
  IsLikelyNotMountPoint := fun path h => ((negb (isMountPoint path h), None), h);
  MakeDir := fun _ h => (None, h);
  MakeFile := fun _ h => (None, h);
  Mount_ := fun _ target _ _ => mount target;
  Unmount := unmount;
  FormatAndMount := fun _ target _ _ => mount target;
  CleanupMountPoint := fun path _ => unmount path;
  Exec_Run := fun _ _ h => ((blockdevOutput h, None), h);
  Resize := fun _ _ h => (Ok true, h);
  os_Remove := fun _ h => (None, h);
  os_IsNotExist := fun e =>
    match e with os_Error errno => String.eqb errno "ENOENT" | _ => false end;
  GetDiskByIdPaths := fun deviceName partition =>
    [("/dev/disk/by-id/google-" ++ deviceName)%string];
  VerifyDevicePath := fun paths h =>
    match List.find (fun p => existsb (String.eqb p) (devices h)) paths with
    | Some p => (Ok p, h)
    | None => (Ok "", h)
    end
|}.

Fixpoint splitFirst (s : string) : option (string * string) :=
  match s with
  | EmptyString => None
  | String c r =>
      if Ascii.eqb c "/" then Some (EmptyString, r)
      else match splitFirst r with
           | Some (a, b) => Some (String c a, b)
           | None => None
           end
  end.

(** Modelled from the spec: [common.SplitZoneNameId] (Volume-ID codec,
    Decode): the identifier is split on the first separator and must
    have exactly the structure zone, separator, name. *)
Definition splitZoneNameId (id : string) : result (string * string) :=
  match splitFirst id with
  | Some (z, n) =>
      match splitFirst n with
      | Some _ => Err fmt_Errorf
      | None => if len0 z || len0 n then Err fmt_Errorf else Ok (z, n)
      end
  | None => Err fmt_Errorf
  end.

(** Modelled from the spec: the helpers of package common, package gce
    and utils.go whose source is not covered here.  The zone
    override key is taken to be "zone"; an error of the cloud API is
    classified by the reasons it carries; a capability is valid when
    its access type is set. *)
#[global] Instance helpers : Helpers := {|
  ParameterKeyZone := "zone";
  SplitZoneNameId := splitZoneNameId;
  BytesToGb := fun bytes => bytes / GiB;
  VolumeIDToKey := fun id =>
    match splitZoneNameId id with
    | Ok (z, n) => Ok {| VolumeKey.Zone := z; VolumeKey.Name := n |}
    | Err e => Err e
    end;
  GetDeviceName := fun key => Ok (VolumeKey.Name key);
  IsGCEError := fun err reason =>
    match err with
    | googleapi_Error reasons => existsb (String.eqb reason) reasons
    | _ => false
    end;
  validateVolumeCapability := fun c =>
    match VolumeCapability.access_type c with
    | VolumeCapability.Unset => Some fmt_Errorf
    | _ => None
    end
|}.

Definition emptyCloud : Cloud :=
  {| zone := "zone-a"; disks := []; instances := []; racing := [];
     waitError := None; outage := None |}.

Definition emptyHost : Host :=
  {| mountPoints := []; devices := []; blockdevOutput := ""; mountError := None |}.

Definition world (locks : gset string) (c : Cloud) (h : Host) : World Cloud Host :=
  {| volumeLocks := locks; lockCalls := []; cloud := c; cloudCalls := []; host := h |}.

Definition mountCapability : VolumeCapability.t :=
  {| VolumeCapability.access_type :=
       VolumeCapability.Mount {| VolumeCapability.FsType := "";
                                 VolumeCapability.MountFlags := [] |};
     VolumeCapability.AccessMode := 1 |}.

Definition createRequest (name : string) (cr : option CapacityRange)
    (params : gmap string string) (top : option TopologyRequirement.t)
  : CreateVolumeRequest.t :=
  {| CreateVolumeRequest.Name := name;
     CreateVolumeRequest.CapacityRange_ := cr;
     CreateVolumeRequest.VolumeCapabilities := [mountCapability];
     CreateVolumeRequest.Parameters := params;
     CreateVolumeRequest.AccessibilityRequirements := top |}.

End Fake.

(** ** The controller server, remaining operations *)

(** The result of a call that may panic. *)
Inductive outcome (A : Type) : Type :=
  | Returned (a : A)
  | Panicked.
Arguments Returned {A} a.
Arguments Panicked {A}.

Module Snapshot.
Record t : Type := {
  Name : string;
  Status : string;
  CreationTimestamp : string
}.
End Snapshot.

(** [csi.SnapshotStatus_Type]; UNKNOWN is its zero value. *)
Inductive SnapshotStatus_Type : Type :=
  | SnapshotStatus_UNKNOWN
  | SnapshotStatus_READY
  | SnapshotStatus_UPLOADING
  | SnapshotStatus_ERROR_UPLOADING.

Module CsiSnapshot.
Record t : Type := {
  Id : string;
  CreatedAt : Z;
  Status : SnapshotStatus_Type
}.
End CsiSnapshot.

Module ControllerUnpublishVolumeRequest.
Record t : Type := { VolumeId : string; NodeId : string }.
End ControllerUnpublishVolumeRequest.

Inductive ControllerUnpublishVolumeResponse : Type :=
  ControllerUnpublishVolumeResponse_empty.

(** A capability as the controller reads it: its access mode, which may
    be missing. *)
Module ControllerCapability.
Record t : Type := { AccessMode : option nat }.
End ControllerCapability.

Module ValidateVolumeCapabilitiesRequest.
Record t : Type := {
  VolumeId : string;
  VolumeCapabilities : list ControllerCapability.t;
  AccessibleTopology : list Topology.t
}.
End ValidateVolumeCapabilitiesRequest.

Module ValidateVolumeCapabilitiesResponse.
Record t : Type := { Supported : bool }.
End ValidateVolumeCapabilitiesResponse.

Module CreateSnapshotRequest.
Record t : Type := { Name : string; SourceVolumeId : string }.
End CreateSnapshotRequest.

Module DeleteSnapshotRequest.
Record t : Type := { SnapshotId : string }.
End DeleteSnapshotRequest.

Inductive DeleteSnapshotResponse : Type := DeleteSnapshotResponse_empty.

Module ListSnapshotsRequest.
Record t : Type := { SnapshotId : string }.
End ListSnapshotsRequest.

Module ListSnapshotsResponse.
Record t : Type := { Entries : list CsiSnapshot.t }.
End ListSnapshotsResponse.

(** The methods of [gce.GCECompute] for detaching and for snapshots. *)
Class GCESnapshots (C : Type) : Type := {
  DetachDisk : string -> string -> string -> C -> result Operation.t * C;
  CloudProvider_CreateSnapshot :
    string -> string -> Snapshot.t -> C -> result Operation.t * C;
  WaitAndGetSnapshot : string -> C -> result Snapshot.t * C;
  CloudProvider_DeleteSnapshot : string -> C -> result Operation.t * C;
  WaitForGlobalOp : Operation.t -> C -> option error * C;
  GetSnapshotOrError : string -> C -> result Snapshot.t * C
}.

(** Further functions that the services use and whose source is not
    covered here: [utils.SplitZoneNameId], [common.CreateNodeID], and,
    from the Go library, the parsing of an RFC 3339 time, given here with
    the nanoseconds that [UnixNano] makes of it. *)
Class MoreHelpers : Type := {
  utils_SplitZoneNameId : string -> result (string * string);
  CreateNodeID : string -> string -> string -> string;
  time_Parse_RFC3339 : string -> result Z
}.

(** The requests of the controller server to the cloud. *)
Inductive Request : Type :=
  | Req (c : CloudCall)
  | Req_DetachDisk (zone instanceName deviceName : string)
  | Req_CreateSnapshot (zone disk : string) (snapshotToCreate : Snapshot.t)
  | Req_WaitAndGetSnapshot (name : string)
  | Req_DeleteSnapshot (id : string)
  | Req_WaitForGlobalOp (op : Operation.t)
  | Req_GetSnapshotOrError (id : string).

Definition is_DetachDisk (r : Request) : bool :=
  match r with Req_DetachDisk _ _ _ => true | _ => false end.

Definition CreateSnapshot_status (status : string) : SnapshotStatus_Type :=
  if String.eqb status "READY" then SnapshotStatus_READY
  else if String.eqb status "UPLOADING" then SnapshotStatus_UPLOADING
  else if String.eqb status "FAILED" then SnapshotStatus_ERROR_UPLOADING
  else if String.eqb status "DELETING" then SnapshotStatus_READY
  else SnapshotStatus_UNKNOWN.

Definition ListSnapshots_status (status : string) : SnapshotStatus_Type :=
  if String.eqb status "READY" then SnapshotStatus_READY
  else if String.eqb status "UPLOADING" then SnapshotStatus_UPLOADING
  else if String.eqb status "FAILED" then SnapshotStatus_ERROR_UPLOADING
  else SnapshotStatus_UNKNOWN.

Section Controller.

Context {C : Type} {gce : GCECompute C} {gcs : GCESnapshots C}
  {hp : Helpers} {mh : MoreHelpers}.

(** The controller server: its cloud provider, the access modes that its
    driver supports, and the requests it has sent. *)
Record Controller : Type := {
  CloudProvider : C;
  vcap : list nat;
  requests : list Request
}.

Definition send {R X} (f : C -> X * C) (rq : Request) : Go Controller R X :=
  fun s =>
    let '(x, c') := f (CloudProvider s) in
    (inl x, {| CloudProvider := c'; vcap := vcap s;
               requests := requests s ++ [rq] |}).

Definition ControllerUnpublishVolume (req : ControllerUnpublishVolumeRequest.t)
  : Controller -> result ControllerUnpublishVolumeResponse * Controller :=
  call (
    let volumeID := ControllerUnpublishVolumeRequest.VolumeId req in
    let nodeID := ControllerUnpublishVolumeRequest.NodeId req in
    when (len0 volumeID) (Return (Err (status_Error InvalidArgument))) ;;
    when (len0 nodeID) (Return (Err (status_Error InvalidArgument))) ;;
    key <- orReturn (SplitZoneNameId volumeID) Err ;;
    let '(volumeZone, volumeName) := key in
    r <- send (GetDiskOrError volumeZone volumeName)
           (Req (Call_GetDiskOrError volumeZone volumeName)) ;;
    disk <- orReturn r Err ;;
    r <- send (GetInstanceOrError volumeZone nodeID)
           (Req (Call_GetInstanceOrError volumeZone nodeID)) ;;
    instance <- orReturn r Err ;;
    let attached := diskIsAttached disk instance in
    when (negb attached) (Return (Ok ControllerUnpublishVolumeResponse_empty)) ;;
    r <- send (DetachDisk volumeZone nodeID volumeName)
           (Req_DetachDisk volumeZone nodeID volumeName) ;;
    detachOp <- orReturn r (fun _ => Err (status_Error Internal)) ;;
    err <- send (WaitForOp detachOp volumeZone)
             (Req (Call_WaitForOp detachOp volumeZone)) ;;
    when (negb (is_nil err)) (Return (Err (status_Error Internal))) ;;
    Return (Ok ControllerUnpublishVolumeResponse_empty)).

(** The loop of ValidateVolumeCapabilities over the capabilities of the
    request: [None] when every one of them is found among the modes of
    the driver.  Reading the mode of a capability without access mode
    panics. *)
Fixpoint ValidateVolumeCapabilities_modes
    (supported : list nat) (caps : list ControllerCapability.t)
  : option (outcome (option ValidateVolumeCapabilitiesResponse.t * option error)) :=
  match caps with
  | [] => None
  | c :: rest =>
      match ControllerCapability.AccessMode c with
      | None => Some Panicked
      | Some mode =>
          if existsb (Nat.eqb mode) supported
          then ValidateVolumeCapabilities_modes supported rest
          else Some (Returned
                       (Some {| ValidateVolumeCapabilitiesResponse.Supported := false |},
                        Some (status_Error InvalidArgument)))
      end
  end.

(** The loops of ValidateVolumeCapabilities over the topologies of the
    request and over their segments: the first segment entry met
    decides.  The entries of a topology are visited in the order of
    [map_to_list]; what is proved of the loop is proved for topologies
    with a single entry, where the order plays no part. *)
Fixpoint ValidateVolumeCapabilities_topology
    (tops : list Topology.t) (z : string)
  : option (option ValidateVolumeCapabilitiesResponse.t * option error) :=
  match tops with
  | [] => None
  | top :: rest =>
      match map_to_list (match Topology.Segments top with
                         | Some seg => seg
                         | None => ∅
                         end) with
      | (k, v) :: _ =>
          if String.eqb k common.TopologyKeyZone then
            if String.eqb v z
            then Some (Some {| ValidateVolumeCapabilitiesResponse.Supported := true |},
                       None)
            else Some (Some {| ValidateVolumeCapabilitiesResponse.Supported := false |},
                       None)
          else Some (None, Some (status_Error InvalidArgument))
      | [] => ValidateVolumeCapabilities_topology rest z
      end
  end.

Definition ValidateVolumeCapabilities (req : ValidateVolumeCapabilitiesRequest.t)
  : Controller ->
    outcome (option ValidateVolumeCapabilitiesResponse.t * option error) * Controller :=
  call (
    when (Nat.eqb (length (ValidateVolumeCapabilitiesRequest.VolumeCapabilities req)) 0)
      (Return (Returned (None, Some (status_Error InvalidArgument)))) ;;
    let volumeID := ValidateVolumeCapabilitiesRequest.VolumeId req in
    when (len0 volumeID)
      (Return (Returned (None, Some (status_Error InvalidArgument)))) ;;
    key <- orReturn (SplitZoneNameId volumeID)
             (fun _ => Returned (None, Some (status_Error NotFound))) ;;
    let '(z, n) := key in
    r <- send (GetDiskOrError z n) (Req (Call_GetDiskOrError z n)) ;;
    match r with
    | Err err =>
        if IsGCEError err "notFound"
        then Return (Returned (None, Some (status_Error NotFound)))
        else Return (Returned (None, Some (status_Error Internal)))
    | Ok _ => go_pure tt
    end ;;
    supported <- gets vcap ;;
    match ValidateVolumeCapabilities_modes supported
            (ValidateVolumeCapabilitiesRequest.VolumeCapabilities req) with
    | Some o => Return o
    | None => go_pure tt
    end ;;
    match ValidateVolumeCapabilities_topology
            (ValidateVolumeCapabilitiesRequest.AccessibleTopology req) z with
    | Some o => Return (Returned o)
    | None => go_pure tt
    end ;;
    Return (Returned
              (Some {| ValidateVolumeCapabilitiesResponse.Supported := true |}, None))).

Definition CreateSnapshot (req : CreateSnapshotRequest.t)
  : Controller -> result CsiSnapshot.t * Controller :=
  call (
    let name := CreateSnapshotRequest.Name req in
    let sourceId := CreateSnapshotRequest.SourceVolumeId req in
    key <- orReturn (utils_SplitZoneNameId sourceId) Err ;;
    let '(volumeZone, volumeName) := key in
    configuredZone <- gets (fun s => GetZone (CloudProvider s)) ;;
    when (negb (String.eqb volumeZone configuredZone)) (Return (Err fmt_Errorf)) ;;
    let snapshotToCreate :=
      {| Snapshot.Name := name; Snapshot.Status := "";
         Snapshot.CreationTimestamp := "" |} in
    r <- send (CloudProvider_CreateSnapshot volumeZone volumeName snapshotToCreate)
           (Req_CreateSnapshot volumeZone volumeName snapshotToCreate) ;;
    match r with
    | Err err =>
        if IsGCEError err "alreadyExists" then go_pure tt
        else Return (Err (status_Error Internal))
    | Ok _ => go_pure tt
    end ;;
    r <- send (WaitAndGetSnapshot name) (Req_WaitAndGetSnapshot name) ;;
    snapshot <- orReturn r (fun _ => Err (status_Error Internal)) ;;
    t <- orReturn (time_Parse_RFC3339 (Snapshot.CreationTimestamp snapshot))
           (fun _ => Err (status_Error Internal)) ;;
    let status := CreateSnapshot_status (Snapshot.Status snapshot) in
    Return (Ok {| CsiSnapshot.Id := Snapshot.Name snapshot;
                  CsiSnapshot.CreatedAt := t;
                  CsiSnapshot.Status := status |})).

Definition DeleteSnapshot (req : DeleteSnapshotRequest.t)
  : Controller -> result DeleteSnapshotResponse * Controller :=
  call (
    let snapshotID := DeleteSnapshotRequest.SnapshotId req in
    when (len0 snapshotID) (Return (Err (status_Error InvalidArgument))) ;;
    r <- send (CloudProvider_DeleteSnapshot snapshotID) (Req_DeleteSnapshot snapshotID) ;;
    deleteOp <-
      match r with
      | Err err =>
          if IsGCEError err "resourceInUseByAnotherResource"
          then Return (Err (status_Error FailedPrecondition))
          else if IsGCEError err "notFound"
          then Return (Ok DeleteSnapshotResponse_empty)
          else Return (Err (status_Error Internal))
      | Ok op => go_pure op
      end ;;
    err <- send (WaitForGlobalOp deleteOp) (Req_WaitForGlobalOp deleteOp) ;;
    when (negb (is_nil err)) (Return (Err (status_Error Internal))) ;;
    Return (Ok DeleteSnapshotResponse_empty)).

(** [now] is what [time.Now().UnixNano()] gives at the call. *)
Definition ListSnapshots (now : Z) (req : ListSnapshotsRequest.t)
  : Controller -> result ListSnapshotsResponse.t * Controller :=
  call (
    let snapshotId := ListSnapshotsRequest.SnapshotId req in
    (if negb (String.eqb snapshotId "") then
       r <- send (GetSnapshotOrError snapshotId) (Req_GetSnapshotOrError snapshotId) ;;
       snapshot <- orReturn r Err ;;
       let status := ListSnapshots_status (Snapshot.Status snapshot) in
       let entry :=
         {| CsiSnapshot.Id := Snapshot.Name snapshot;
            CsiSnapshot.CreatedAt := now;
            CsiSnapshot.Status := status |} in
       Return (Ok {| ListSnapshotsResponse.Entries := [entry] |})
     else go_pure tt) ;;
    Return (Err (status_Error Unimplemented))).

End Controller.

Arguments Controller C : clear implicits.

(** A cloud that gives prepared answers, to run the remaining
    operations of the controller on. *)
Module Scripted.

Record Cloud : Type := {
  zone : string;
  disk : result Disk.t;
  instance : result Instance.t;
  detach : result Operation.t;
  wait : option error;
  createSnapshot : result Operation.t;
  snapshot : result Snapshot.t;
  deleteSnapshot : result Operation.t
}.

#[global] Instance cloud_GCECompute : GCECompute Cloud := {|
  GetZone := zone;
  GetDiskSourceURI := fun d z _ => Fake.diskSourceURI z (Disk.Name d);
  GetDiskTypeURI := fun z t _ => Fake.diskTypeURI z t;
  GetAndValidateExistingDisk := fun _ _ _ _ _ c => (Ok false, c);
  InsertDisk := fun _ _ c => (Err fmt_Errorf, c);
  DeleteDisk := fun _ _ c => (Err fmt_Errorf, c);
  WaitForOp := fun _ _ c => (wait c, c);
  GetDiskOrError := fun _ _ c => (disk c, c);
  GetInstanceOrError := fun _ _ c => (instance c, c);
  AttachDisk := fun _ _ _ c => (Err fmt_Errorf, c);
  WaitForAttach := fun _ _ _ c => (None, c)
|}.

#[global] Instance cloud_GCESnapshots : GCESnapshots Cloud := {|
  DetachDisk := fun _ _ _ c => (detach c, c);
  CloudProvider_CreateSnapshot := fun _ _ _ c => (createSnapshot c, c);
  WaitAndGetSnapshot := fun _ c => (snapshot c, c);
  CloudProvider_DeleteSnapshot := fun _ c => (deleteSnapshot c, c);
  WaitForGlobalOp := fun _ c => (wait c, c);
  GetSnapshotOrError := fun _ c => (snapshot c, c)
|}.

(** Helpers for the examples: the identifier is decoded as by
    [Fake.splitZoneNameId], the node identifier joins its parts, and a
    time is taken to be written as its nanoseconds. *)
#[global] Instance moreHelpers : MoreHelpers := {|
  utils_SplitZoneNameId := Fake.splitZoneNameId;
  CreateNodeID := fun project zone name => (project ++ "/" ++ zone ++ "/" ++ name)%string;
  time_Parse_RFC3339 := strconv_ParseInt
|}.

Definition op (name : string) : Operation.t := {| Operation.Name := name |}.

Definition controller (c : Cloud) (modes : list nat) : Controller Cloud :=
  {| CloudProvider := c; vcap := modes; requests := [] |}.

End Scripted.

(** ** The node server, remaining operations *)

(** What Go's conversion to int64, and its arithmetic on int64, make of
    an integer: the value modulo 2^64, read as signed. *)
Definition int64 (z : Z) : Z := (z + 2 ^ 63) mod 2 ^ 64 - 2 ^ 63.

(** [unix.Statfs_t] on linux/amd64: [Bsize] is an int64, the counts are
    uint64. *)
Module Statfs_t.
Record t : Type := {
  Bsize : Z;
  Blocks : Z;
  Bfree : Z;
  Bavail : Z;
  Files : Z;
  Ffree : Z
}.
End Statfs_t.

Inductive VolumeUsage_Unit : Type :=
  | VolumeUsage_UNKNOWN
  | VolumeUsage_BYTES
  | VolumeUsage_INODES.

Module VolumeUsage.
Record t : Type := {
  Available : Z;
  Total : Z;
  Used : Z;
  Unit : VolumeUsage_Unit
}.
End VolumeUsage.

Module NodeGetVolumeStatsRequest.
Record t : Type := { VolumeId : string; VolumePath : string }.
End NodeGetVolumeStatsRequest.

Module NodeGetVolumeStatsResponse.
Record t : Type := { Usage : list VolumeUsage.t }.
End NodeGetVolumeStatsResponse.

Module NodeGetInfoResponse.
Record t : Type := {
  NodeId : string;
  MaxVolumesPerNode : Z;
  AccessibleTopology : option Topology.t
}.
End NodeGetInfoResponse.

Definition volumeLimitSmall : Z := 15.
Definition volumeLimitBig : Z := 127.

(** [strings.HasPrefix]. *)
Definition strings_HasPrefix (s prefix : string) : bool := String.prefix prefix s.

(** Package metadataservice: what the node knows of itself. *)
Module metadataservice.
Class MetadataService (M : Type) : Type := {
  GetZone : M -> string;
  GetProject : M -> string;
  GetName : M -> string;
  GetMachineType : M -> string
}.
End metadataservice.

(** [unix.Statfs] on the host. *)
Class HostStat (H : Type) : Type := {
  unix_Statfs : string -> H -> result Statfs_t.t
}.

Section Node.

Context {H M : Type} {hs : HostStat H} {ms : metadataservice.MetadataService M}
  {mh : MoreHelpers}.

Definition GetVolumeLimits (MetadataService : M) : Z * option error :=
  let machineType := metadataservice.GetMachineType MetadataService in
  let volumeLimits :=
    if strings_HasPrefix machineType "n1-" || strings_HasPrefix machineType "custom-"
    then volumeLimitBig
    else volumeLimitSmall in
  (volumeLimits, None).

Definition NodeGetInfo (MetadataService : M) : NodeGetInfoResponse.t * option error :=
  let top :=
    {| Topology.Segments :=
         Some {[ common.TopologyKeyZone := metadataservice.GetZone MetadataService ]} |} in
  let nodeID :=
    CreateNodeID (metadataservice.GetProject MetadataService)
      (metadataservice.GetZone MetadataService)
      (metadataservice.GetName MetadataService) in
  let '(volumeLimits, err) := GetVolumeLimits MetadataService in
  ({| NodeGetInfoResponse.NodeId := nodeID;
      NodeGetInfoResponse.MaxVolumesPerNode := volumeLimits;
      NodeGetInfoResponse.AccessibleTopology := Some top |}, err).

Definition NodeGetVolumeStats (req : NodeGetVolumeStatsRequest.t) (h : H)
  : result NodeGetVolumeStatsResponse.t :=
  if len0 (NodeGetVolumeStatsRequest.VolumePath req)
  then Err (status_Error InvalidArgument)
  else
    match unix_Statfs (NodeGetVolumeStatsRequest.VolumePath req) h with
    | Err _ => Err (status_Error Internal)
    | Ok statfs =>
        let available :=
          int64 (int64 (Statfs_t.Bavail statfs) * int64 (Statfs_t.Bsize statfs)) in
        let capacity :=
          int64 (int64 (Statfs_t.Blocks statfs) * int64 (Statfs_t.Bsize statfs)) in
        let usage :=
          int64 (int64 (int64 (Statfs_t.Blocks statfs) - int64 (Statfs_t.Bfree statfs))
                 * int64 (Statfs_t.Bsize statfs)) in
        let inodes := int64 (Statfs_t.Files statfs) in
        let inodesFree := int64 (Statfs_t.Ffree statfs) in
        let inodesUsed := int64 (inodes - inodesFree) in
        Ok {| NodeGetVolumeStatsResponse.Usage :=
                [ {| VolumeUsage.Available := available;
                     VolumeUsage.Total := capacity;
                     VolumeUsage.Used := usage;
                     VolumeUsage.Unit := VolumeUsage_BYTES |};
                  {| VolumeUsage.Available := inodesFree;
                     VolumeUsage.Total := inodes;
                     VolumeUsage.Used := inodesUsed;
                     VolumeUsage.Unit := VolumeUsage_INODES |} ] |}
    end.

End Node.

(** ** The mounter for Windows (pkg/mount-manager/safe-mounter_windows.go) *)

Module CSIProxyMounter.

Inductive PathContext : Type :=
  | PathContext_PLUGIN
  | PathContext_POD.

(** The requests of the mounter to the clients of the CSI proxy, and its
    one call of the operating system. *)
Inductive ProxyCall : Type :=
  | Call_MkdirAll (path : string)
  | Call_LinkPath (SourcePath TargetPath : string)
  | Call_Rmdir (Path : string) (Context : PathContext) (Force : bool)
  | Call_IsMountPoint (Path : string)
  | Call_PathExists (Path : string)
  | Call_GetDiskNumberByName (DiskName : string)
  | Call_PartitionDisk (DiskID : string)
  | Call_ListVolumesOnDisk (DiskId : string)
  | Call_IsVolumeFormatted (VolumeId : string)
  | Call_FormatVolume (VolumeId : string)
  | Call_MountVolume (VolumeId Path : string).

(** The three clients of the proxy over their state [P], with the
    functions of the libraries that the mounter applies to paths.  A
    response is given by the fields that the mounter reads; the response
    of [PathExists] is a pointer that may be nil, since the mounter reads
    it without looking at the error. *)
Class CSIProxy (P : Type) : Type := {
  filepath_Dir : string -> string;
  NormalizeWindowsPath : string -> string;
  os_MkdirAll : string -> P -> option error * P;
  FsClient_LinkPath : string -> string -> P -> result string * P;
  FsClient_Rmdir : string -> PathContext -> bool -> P -> option error * P;
  FsClient_IsMountPoint : string -> P -> result bool * P;
  FsClient_PathExists : string -> P -> (option bool * option error) * P;
  DiskClient_GetDiskNumberByName : string -> P -> result string * P;
  DiskClient_PartitionDisk : string -> P -> option error * P;
  VolumeClient_ListVolumesOnDisk : string -> P -> result (list string) * P;
  VolumeClient_IsVolumeFormatted : string -> P -> result bool * P;
  VolumeClient_FormatVolume : string -> P -> option error * P;
  VolumeClient_MountVolume : string -> string -> P -> option error * P
}.

Section Mounter.

Context {P : Type} {px : CSIProxy P}.

(** The mounter: its clients, and the requests it has made. *)
Record t : Type := {
  Clients : P;
  Calls : list ProxyCall
}.

Definition request {R X} (f : P -> X * P) (c : ProxyCall) : Go t R X :=
  fun m =>
    let '(x, p') := f (Clients m) in
    (inl x, {| Clients := p'; Calls := Calls m ++ [c] |}).

Definition Mount (source target fstype : string) (options : list string)
  : t -> option error * t :=
  call (
    let parentDir := filepath_Dir target in
    err <- request (os_MkdirAll parentDir) (Call_MkdirAll parentDir) ;;
    when (negb (is_nil err)) (Return err) ;;
    let SourcePath := NormalizeWindowsPath source in
    let TargetPath := NormalizeWindowsPath target in
    r <- request (FsClient_LinkPath SourcePath TargetPath)
           (Call_LinkPath SourcePath TargetPath) ;;
    response_Error <- orReturn r Some ;;
    when (negb (String.eqb response_Error "")) (Return (Some fmt_Errorf)) ;;
    Return None).

Definition RemovePodDir (target : string) : t -> option error * t :=
  call (
    let Path := NormalizeWindowsPath target in
    err <- request (FsClient_Rmdir Path PathContext_POD true)
             (Call_Rmdir Path PathContext_POD true) ;;
    when (negb (is_nil err)) (Return err) ;;
    Return None).

Definition RemovePluginDir (target : string) : t -> option error * t :=
  call (
    let Path := NormalizeWindowsPath target in
    err <- request (FsClient_Rmdir Path PathContext_PLUGIN true)
             (Call_Rmdir Path PathContext_PLUGIN true) ;;
    when (negb (is_nil err)) (Return err) ;;
    Return None).

Definition Unmount (target : string) : t -> option error * t :=
  RemovePodDir target.

Definition GetDevicePath (deviceName partition volumeKey : string)
  : t -> (string * option error) * t :=
  call (
    r <- request (DiskClient_GetDiskNumberByName deviceName)
           (Call_GetDiskNumberByName deviceName) ;;
    DiskNumber <- orReturn r (fun err => ("", Some err)) ;;
    Return (DiskNumber, None)).

(** Indexing the volume identifiers with 0 panics when there is none. *)
Definition FormatAndMount (source target fstype : string) (options : list string)
  : t -> outcome (option error) * t :=
  call (
    err <- request (DiskClient_PartitionDisk source) (Call_PartitionDisk source) ;;
    when (negb (is_nil err)) (Return (Returned err)) ;;
    r <- request (VolumeClient_ListVolumesOnDisk source)
           (Call_ListVolumesOnDisk source) ;;
    VolumeIds <- orReturn r (fun err => Returned (Some err)) ;;
    volumeID <-
      match VolumeIds with
      | volumeID :: _ => go_pure volumeID
      | [] => Return Panicked
      end ;;
    r <- request (VolumeClient_IsVolumeFormatted volumeID)
           (Call_IsVolumeFormatted volumeID) ;;
    Formatted <- orReturn r (fun err => Returned (Some err)) ;;
    (if negb Formatted then
       err <- request (VolumeClient_FormatVolume volumeID)
                (Call_FormatVolume volumeID) ;;
       when (negb (is_nil err)) (Return (Returned err))
     else go_pure tt) ;;
    err <- request (VolumeClient_MountVolume volumeID target)
             (Call_MountVolume volumeID target) ;;
    when (negb (is_nil err)) (Return (Returned err)) ;;
    Return (Returned None)).

Definition GetMountRefs (pathname : string) : list string * option error :=
  ([], Some fmt_Errorf).

Definition IsLikelyNotMountPoint (file : string) : t -> (bool * option error) * t :=
  call (
    r <- request (FsClient_IsMountPoint file) (Call_IsMountPoint file) ;;
    IsMountPoint <- orReturn r (fun err => (false, Some err)) ;;
    Return (negb IsMountPoint, None)).

(** The field of the response is read before the error is looked at:
    without a response this panics. *)
Definition ExistsPath (path : string) : t -> outcome (bool * option error) * t :=
  call (
    let Path := NormalizeWindowsPath path in
    p <- request (FsClient_PathExists Path) (Call_PathExists Path) ;;
    let '(isExistsResponse, err) := p in
    match isExistsResponse with
    | Some Exists => Return (Returned (Exists, err))
    | None => Return Panicked
    end).

End Mounter.

Arguments t P : clear implicits.

End CSIProxyMounter.

(** A node and a CSI proxy to run the remaining operations on. *)
Module Machines.

Record Machine : Type := {
  zone : string;
  project : string;
  name : string;
  machineType : string
}.

#[global] Instance machine_MetadataService : metadataservice.MetadataService Machine := {|
  metadataservice.GetZone := zone;
  metadataservice.GetProject := project;
  metadataservice.GetName := name;
  metadataservice.GetMachineType := machineType
|}.

(** The file systems of a host, by the path they are mounted at. *)
#[global] Instance table_HostStat : HostStat (list (string * Statfs_t.t)) := {|
  unix_Statfs := fun path h =>
    match List.find (fun e => String.eqb (fst e) path) h with
    | Some e => Ok (snd e)
    | None => Err (os_Error "ENOENT")
    end
|}.

Definition n1 : Machine :=
  {| zone := "zone-a"; project := "p"; name := "n1"; machineType := "n1-standard-4" |}.

Definition f1 : Machine :=
  {| zone := "zone-a"; project := "p"; name := "n2"; machineType := "f1-micro" |}.

Definition ext4 : Statfs_t.t :=
  {| Statfs_t.Bsize := 4096; Statfs_t.Blocks := 5242880; Statfs_t.Bfree := 5000000;
     Statfs_t.Bavail := 4700000; Statfs_t.Files := 1310720; Statfs_t.Ffree := 1310000 |}.

(** A CSI proxy: the volumes of its one disk, those of them that are
    formatted, the links and mounts made, and the errors it is to
    answer with. *)
Record Proxy : Type := {
  volumes : list string;
  formatted : list string;
  mounted : list (string * string);
  partitionError : option error;
  formatError : option error;
  linkError : string
}.

Definition withFormatted (f : list string) (p : Proxy) : Proxy :=
  {| volumes := volumes p; formatted := f; mounted := mounted p;
     partitionError := partitionError p; formatError := formatError p;
     linkError := linkError p |}.

Definition withMounted (m : list (string * string)) (p : Proxy) : Proxy :=
  {| volumes := volumes p; formatted := formatted p; mounted := m;
     partitionError := partitionError p; formatError := formatError p;
     linkError := linkError p |}.

#[global] Instance proxy_CSIProxy : CSIProxyMounter.CSIProxy Proxy := {|
  CSIProxyMounter.filepath_Dir := fun path => path;
  CSIProxyMounter.NormalizeWindowsPath := fun path => path;
  CSIProxyMounter.os_MkdirAll := fun _ p => (None, p);
  CSIProxyMounter.FsClient_LinkPath := fun source target p =>
    if String.eqb (linkError p) ""
    then (Ok "", withMounted (mounted p ++ [(source, target)])%list p)
    else (Ok (linkError p), p);
  CSIProxyMounter.FsClient_Rmdir := fun path _ _ p =>
    (None, withMounted (List.filter (fun m => negb (String.eqb (snd m) path)) (mounted p)) p);
  CSIProxyMounter.FsClient_IsMountPoint := fun path p =>
    (Ok (existsb (fun m => String.eqb (snd m) path) (mounted p)), p);
  CSIProxyMounter.FsClient_PathExists := fun path p =>
    if String.eqb path ""
    then ((None, Some fmt_Errorf), p)
    else ((Some (existsb (fun m => String.eqb (snd m) path) (mounted p)), None), p);
  CSIProxyMounter.DiskClient_GetDiskNumberByName := fun _ p => (Ok "1", p);
  CSIProxyMounter.DiskClient_PartitionDisk := fun _ p => (partitionError p, p);
  CSIProxyMounter.VolumeClient_ListVolumesOnDisk := fun _ p => (Ok (volumes p), p);
  CSIProxyMounter.VolumeClient_IsVolumeFormatted := fun v p =>
    (Ok (existsb (String.eqb v) (formatted p)), p);
  CSIProxyMounter.VolumeClient_FormatVolume := fun v p =>
    match formatError p with
    | Some e => (Some e, p)
    | None => (None, withFormatted (formatted p ++ [v])%list p)
    end;
  CSIProxyMounter.VolumeClient_MountVolume := fun v target p =>
    (None, withMounted (mounted p ++ [(v, target)])%list p)
|}.

Definition proxy (vols fmt : list string) (partitionErr formatErr : option error)
  : Proxy :=
  {| volumes := vols; formatted := fmt; mounted := [];
     partitionError := partitionErr; formatError := formatErr; linkError := "" |}.

Definition mounter (p : Proxy) : CSIProxyMounter.t Proxy :=
  {| CSIProxyMounter.Clients := p; CSIProxyMounter.Calls := [] |}.

End Machines.

(** ** Notions used to state the properties *)

(** The loop of getZoneFromSegment run over the entries [kvs] of the
    segments, in the order of the list. *)
Definition zoneOfEntries (kvs : list (string * string)) : result string :=
  match getZoneFromSegment_range kvs "" with
  | Err e => Err e
  | Ok zone => if len0 zone then Err fmt_Errorf else Ok zone
  end.

(** What pickTopology makes of the one topology it reads. *)
Definition zoneOfTopology (t : Topology.t) : result string :=
  match Topology.Segments t with
  | None => Err fmt_Errorf
  | Some seg =>
      match getZoneFromSegment seg with
      | Err _ => Err fmt_Errorf
      | Ok zone => Ok zone
      end
  end.

(** The two keys of secret references that the parameter loop of
    CreateVolume skips. *)
Definition isSecretKey (k : string) : bool :=
  String.eqb k "csiProvisionerSecretName"
  || String.eqb k "csiProvisionerSecretNamespace".

(** The keys that the parameter loop of CreateVolume lets through. *)
Definition acceptedKey {hp : Helpers} (k : string) : bool :=
  isSecretKey k
  || String.eqb (strings_ToLower k) common.ParameterKeyType
  || String.eqb (strings_ToLower k) ParameterKeyZone.

(** The world once the controller has sent [calls] and the cloud has
    reached [c]. *)
Definition cloudAfter {C H : Type} (w : World C H) (c : C) (calls : list CloudCall)
  : World C H :=
  {| volumeLocks := volumeLocks w; lockCalls := lockCalls w;
     cloud := c; cloudCalls := (cloudCalls w ++ calls)%list; host := host w |}.

(** The attachment of [volume] on [instance]: the first entry of the
    instance's disks whose device name is the name of the volume. *)
Definition attachmentOf (volume : Disk.t) (instance : Instance.t)
  : option AttachedDisk.t :=
  List.find (fun ad => String.eqb (AttachedDisk.DeviceName ad) (Disk.Name volume))
            (Instance.Disks instance).

(** The zone that CreateVolume settles on, given the zone [paramZone]
    read from the parameters and the cloud [c] of the driver: the zone
    picked from the accessibility requirements, which exclude a zone
    parameter, else the zone parameter, else the zone of the driver. *)
Definition targetZone {C : Type} {gce : GCECompute C}
    (rnd : nat) (req : CreateVolumeRequest.t) (paramZone : string) (c : C)
  : result string :=
  match CreateVolumeRequest.AccessibilityRequirements req with
  | Some top =>
      if negb (len0 paramZone) then Err (status_Error InvalidArgument)
      else match pickTopology rnd top with
           | Ok z => Ok (if len0 z then GetZone c else z)
           | Err _ => Err (status_Error InvalidArgument)
           end
  | None => Ok (if len0 paramZone then GetZone c else paramZone)
  end.

(** The world with another content of the lock registry. *)
Definition withLocks {C H : Type} (locks : gset string) (calls : list LockCall)
    (w : World C H) : World C H :=
  {| volumeLocks := locks; lockCalls := calls;
     cloud := cloud w; cloudCalls := cloudCalls w; host := host w |}.

(** The world with another state of the host. *)
Definition withHost {C H : Type} (h : H) (w : World C H) : World C H :=
  {| volumeLocks := volumeLocks w; lockCalls := lockCalls w;
     cloud := cloud w; cloudCalls := cloudCalls w; host := h |}.

(** The world after a refused [TryAcquire] of [volumeID]. *)
Definition refusedLock {C H : Type} (volumeID : string) (w : World C H) : World C H :=
  {| volumeLocks := volumeLocks w;
     lockCalls := (lockCalls w ++ [Call_TryAcquire volumeID false])%list;
     cloud := cloud w; cloudCalls := cloudCalls w; host := host w |}.

(** The scoped acquisition of the lock of [volumeID] by the operation
    [run].  If the lock is held, the operation fails with Aborted after
    the refused [TryAcquire] and does nothing else.  If the lock is free,
    the operation calls [TryAcquire], with success, and then [Release],
    exactly once each and in this order, whatever its outcome, and the
    registry is afterwards as it was before: the lock is not left
    held. *)
Definition scopedLock {C H X : Type}
    (run : World C H -> result X * World C H) (volumeID : string) : Prop :=
  forall w : World C H,
    (volumeID ∈ volumeLocks w ->
     run w = (Err (status_Error Aborted), refusedLock volumeID w)) /\
    (volumeID ∉ volumeLocks w ->
     lockCalls (snd (run w))
     = (lockCalls w ++ [Call_TryAcquire volumeID true; Call_Release volumeID])%list /\
     volumeLocks (snd (run w)) = volumeLocks w /\
     volumeID ∉ volumeLocks (snd (run w))).

(** The zone that a request to the cloud names. *)
Definition callZone (c : CloudCall) : string :=
  match c with
  | Call_GetAndValidateExistingDisk zone _ _ _ _ => zone
  | Call_InsertDisk zone _ => zone
  | Call_DeleteDisk zone _ => zone
  | Call_WaitForOp _ zone => zone
  | Call_GetDiskOrError zone _ => zone
  | Call_GetInstanceOrError zone _ => zone
  | Call_AttachDisk zone _ _ => zone
  | Call_WaitForAttach zone _ _ => zone
  end.

(** What one call of CreateVolume for [req] may send: an existence check
    for the name and the raw bounds of the request, or an insert of a
    disk of that name and of at least the minimum size, or a wait. *)
Definition createRequestFor (req : CreateVolumeRequest.t) (c : CloudCall) : Prop :=
  match c with
  | Call_GetAndValidateExistingDisk _ name _ reqBytes limBytes =>
      name = CreateVolumeRequest.Name req /\
      reqBytes = GetRequiredBytes (CreateVolumeRequest.CapacityRange_ req) /\
      limBytes = GetLimitBytes (CreateVolumeRequest.CapacityRange_ req)
  | Call_InsertDisk _ d =>
      Disk.Name d = CreateVolumeRequest.Name req /\
      MinimumDiskSizeInGb <= Disk.SizeGb d
  | Call_WaitForOp _ _ => True
  | _ => False
  end.

(** What one call of ControllerPublishVolume for [req] may send: look-ups
    of the disk and of the instance, an attachment to the node of the
    request, persistent and with the mode of the read-only flag, and
    waits. *)
Definition publishRequestFor (req : ControllerPublishVolumeRequest.t) (c : CloudCall)
  : Prop :=
  match c with
  | Call_GetDiskOrError _ _ => True
  | Call_GetInstanceOrError _ instanceName =>
      instanceName = ControllerPublishVolumeRequest.NodeId req
  | Call_AttachDisk _ instanceName ad =>
      instanceName = ControllerPublishVolumeRequest.NodeId req /\
      AttachedDisk.Mode ad
      = (if ControllerPublishVolumeRequest.Readonly req
         then "READ_ONLY" else "READ_WRITE") /\
      AttachedDisk.Type_ ad = "PERSISTENT"
  | Call_WaitForOp _ _ => True
  | Call_WaitForAttach _ _ instanceName =>
      instanceName = ControllerPublishVolumeRequest.NodeId req
  | _ => False
  end.

(** The controller once it has sent [sent] and the cloud has reached
    [c]. *)
Definition controllerAfter {C : Type} (s : Controller C) (c : C) (sent : list Request)
  : Controller C :=
  {| CloudProvider := c; vcap := vcap s; requests := (requests s ++ sent)%list |}.

(** Every capability has an access mode, and one that the driver
    supports. *)
Definition modesSupported (supported : list nat) (caps : list ControllerCapability.t)
  : Prop :=
  Forall (fun c => exists mode,
                     ControllerCapability.AccessMode c = Some mode /\ In mode supported)
         caps.

(** The mounter for Windows [m] after a call that left the clients of
    the proxy as [p] and made the requests [sent]. *)
Definition mounterAfter {P : Type} (m : CSIProxyMounter.t P) (p : P)
    (sent : list CSIProxyMounter.ProxyCall) : CSIProxyMounter.t P :=
  {| CSIProxyMounter.Clients := p;
     CSIProxyMounter.Calls := (CSIProxyMounter.Calls m ++ sent)%list |}.

Module Examples.

Definition zoneTopology (z : string) : Topology.t :=
  {| Topology.Segments := Some {[ common.TopologyKeyZone := z ]} |}.

Definition preferredAB : TopologyRequirement.t :=
  {| TopologyRequirement.Requisite := [];
     TopologyRequirement.Preferred := [zoneTopology "zone-a"; zoneTopology "zone-b"] |}.

Definition requisiteAB : TopologyRequirement.t :=
  {| TopologyRequirement.Requisite := [zoneTopology "zone-a"; zoneTopology "zone-b"];
     TopologyRequirement.Preferred := [] |}.

Definition noTopology : TopologyRequirement.t :=
  {| TopologyRequirement.Requisite := []; TopologyRequirement.Preferred := [] |}.

Definition regionSegments : gmap string string :=
  {[ "topology.gke.io/region" := "region-a" ]}.

Definition preferredRegion : TopologyRequirement.t :=
  {| TopologyRequirement.Requisite := [];
     TopologyRequirement.Preferred := [ {| Topology.Segments := Some regionSegments |} ] |}.

(** A topology with a zone first and a region second. *)
Definition preferredZoneRegion : TopologyRequirement.t :=
  {| TopologyRequirement.Requisite := [];
     TopologyRequirement.Preferred :=
       [zoneTopology "zone-a"; {| Topology.Segments := Some regionSegments |}] |}.

Definition requisiteZoneRegion : TopologyRequirement.t :=
  {| TopologyRequirement.Requisite :=
       [zoneTopology "zone-a"; {| Topology.Segments := Some regionSegments |}];
     TopologyRequirement.Preferred := [] |}.

Definition world0 : World Fake.Cloud Fake.Host :=
  Fake.world ∅ Fake.emptyCloud Fake.emptyHost.

Definition diskD1 : Disk.t :=
  {| Disk.Name := "d1"; Disk.SizeGb := 20; Disk.Description := "";
     Disk.Type_ := "zones/zone-a/diskTypes/pd-standard"; Disk.Kind := "compute#disk" |}.

Definition attachment (mode : string) : AttachedDisk.t :=
  {| AttachedDisk.DeviceName := "d1"; AttachedDisk.Kind := "compute#disk";
     AttachedDisk.Mode := mode; AttachedDisk.Source := "zones/zone-a/disks/d1";
     AttachedDisk.Type_ := "PERSISTENT" |}.

(** A cloud with the disk d1 in zone-a and the instance n1 holding the
    attachments [ads]. *)
Definition cloudD1 (ads : list AttachedDisk.t) (waitErr outageErr : option error)
  : Fake.Cloud :=
  {| Fake.zone := "zone-a";
     Fake.disks := [("zone-a", diskD1)];
     Fake.instances := [("zone-a", "n1", {| Instance.Disks := ads |})];
     Fake.racing := [];
     Fake.waitError := waitErr;
     Fake.outage := outageErr |}.

Definition worldD1 (ads : list AttachedDisk.t) (waitErr outageErr : option error)
  : World Fake.Cloud Fake.Host :=
  Fake.world ∅ (cloudD1 ads waitErr outageErr) Fake.emptyHost.

Definition deleteRequest (id : string) : DeleteVolumeRequest.t :=
  {| DeleteVolumeRequest.VolumeId := id |}.

Definition publishRequest (readOnly : bool) : ControllerPublishVolumeRequest.t :=
  {| ControllerPublishVolumeRequest.VolumeId := "zone-a/d1";
     ControllerPublishVolumeRequest.NodeId := "n1";
     ControllerPublishVolumeRequest.VolumeCapability_ := Some Fake.mountCapability;
     ControllerPublishVolumeRequest.Readonly := readOnly |}.

Definition cloudRacing : Fake.Cloud :=
  {| Fake.zone := "zone-a"; Fake.disks := []; Fake.instances := [];
     Fake.racing := [("zone-a", diskD1)];
     Fake.waitError := None; Fake.outage := None |}.

Definition ssdParameters : gmap string string := {[ "type" := "pd-ssd" ]}.

Definition idOf (r : result CreateVolumeResponse.t) : option string :=
  match r with
  | Ok resp => Some (Volume.Id (CreateVolumeResponse.Volume resp))
  | Err _ => None
  end.

Definition requestD1 (params : gmap string string) : CreateVolumeRequest.t :=
  Fake.createRequest "d1" None params None.

(** A host on which the device of d1 is present and [blockdev] prints
    [output]. *)
Definition hostD1 (mounts : list string) (output : string) (mountErr : option error)
  : Fake.Host :=
  {| Fake.mountPoints := mounts;
     Fake.devices := ["/dev/disk/by-id/google-d1"];
     Fake.blockdevOutput := output;
     Fake.mountError := mountErr |}.

Definition nodeWorld (locks : gset string) (h : Fake.Host) : World Fake.Cloud Fake.Host :=
  Fake.world locks Fake.emptyCloud h.

Definition newline : string := String "010"%char EmptyString.

Definition expandRequest (cr : option CapacityRange) : NodeExpandVolumeRequest.t :=
  {| NodeExpandVolumeRequest.VolumeId := "zone-a/d1";
     NodeExpandVolumeRequest.VolumePath := "/mnt/d1";
     NodeExpandVolumeRequest.CapacityRange_ := cr |}.

Definition stageRequest : NodeStageVolumeRequest.t :=
  {| NodeStageVolumeRequest.VolumeId := "zone-a/d1";
     NodeStageVolumeRequest.StagingTargetPath := "/staging/d1";
     NodeStageVolumeRequest.VolumeCapability_ := Some Fake.mountCapability;
     NodeStageVolumeRequest.VolumeContext := ∅ |}.

Definition unstageRequest : NodeUnstageVolumeRequest.t :=
  {| NodeUnstageVolumeRequest.VolumeId := "zone-a/d1";
     NodeUnstageVolumeRequest.StagingTargetPath := "/staging/d1" |}.

Definition nodePublishRequest : NodePublishVolumeRequest.t :=
  {| NodePublishVolumeRequest.VolumeId := "zone-a/d1";
     NodePublishVolumeRequest.StagingTargetPath := "/staging/d1";
     NodePublishVolumeRequest.TargetPath := "/pods/p1/d1";
     NodePublishVolumeRequest.VolumeCapability_ := Some Fake.mountCapability;
     NodePublishVolumeRequest.Readonly := false;
     NodePublishVolumeRequest.VolumeContext := ∅ |}.

Definition unpublishRequest : NodeUnpublishVolumeRequest.t :=
  {| NodeUnpublishVolumeRequest.VolumeId := "zone-a/d1";
     NodeUnpublishVolumeRequest.TargetPath := "/pods/p1/d1" |}.

(** A cloud that finds d1 and an instance with the attachments [ads],
    and answers the other requests as given. *)
Definition scripted (ads : list AttachedDisk.t) (detachOp : result Operation.t)
    (waitErr : option error) (createOp : result Operation.t)
    (snap : result Snapshot.t) (deleteOp : result Operation.t) : Scripted.Cloud :=
  {| Scripted.zone := "zone-a";
     Scripted.disk := Ok diskD1;
     Scripted.instance := Ok {| Instance.Disks := ads |};
     Scripted.detach := detachOp;
     Scripted.wait := waitErr;
     Scripted.createSnapshot := createOp;
     Scripted.snapshot := snap;
     Scripted.deleteSnapshot := deleteOp |}.

(** A cloud that knows no snapshot and accepts no request. *)
Definition scriptedD1 (ads : list AttachedDisk.t) (detachOp : result Operation.t)
    (waitErr : option error) : Scripted.Cloud :=
  scripted ads detachOp waitErr (Err fmt_Errorf)
    (Err (googleapi_Error ["notFound"])) (Err (googleapi_Error ["notFound"])).

Definition snapshots (createOp : result Operation.t) (snap : result Snapshot.t)
    (deleteOp : result Operation.t) (waitErr : option error) : Scripted.Cloud :=
  scripted [] (Err fmt_Errorf) waitErr createOp snap deleteOp.

Definition unpublishRequestD1 : ControllerUnpublishVolumeRequest.t :=
  {| ControllerUnpublishVolumeRequest.VolumeId := "zone-a/d1";
     ControllerUnpublishVolumeRequest.NodeId := "n1" |}.

Definition snapshotS1 (status : string) : Snapshot.t :=
  {| Snapshot.Name := "s1"; Snapshot.Status := status;
     Snapshot.CreationTimestamp := "1500" |}.

Definition validateRequest (modes : list (option nat)) (tops : list Topology.t)
  : ValidateVolumeCapabilitiesRequest.t :=
  {| ValidateVolumeCapabilitiesRequest.VolumeId := "zone-a/d1";
     ValidateVolumeCapabilitiesRequest.VolumeCapabilities :=
       List.map (fun m => {| ControllerCapability.AccessMode := m |}) modes;
     ValidateVolumeCapabilitiesRequest.AccessibleTopology := tops |}.

Definition blockPublishRequest : NodePublishVolumeRequest.t :=
  {| NodePublishVolumeRequest.VolumeId := "zone-a/d1";
     NodePublishVolumeRequest.StagingTargetPath := "/staging/d1";
     NodePublishVolumeRequest.TargetPath := "/pods/p1/d1";
     NodePublishVolumeRequest.VolumeCapability_ :=
       Some {| VolumeCapability.access_type := VolumeCapability.Block;
               VolumeCapability.AccessMode := 1 |};
     NodePublishVolumeRequest.Readonly := true;
     NodePublishVolumeRequest.VolumeContext := ∅ |}.

End Examples.

(** * Properties *)

(** ** Symbolic execution of a body *)

Ltac go_unfold :=
  unfold call, go_bind, when, orReturn, Return, go_pure, gets, invoke, defer,
    cloudDo, hostDo, TryAcquire, Release in *.

(** Case analysis on an innermost scrutinee of the goal. *)
Ltac go_case :=
  match goal with
  | |- context [match ?x with _ => _ end] =>
      lazymatch x with
      | context [match _ with _ => _ end] => fail
      | _ => destruct x eqn:?
      end
  end.

Ltac go_simpl :=
  cbn beta iota zeta delta
    [fst snd volumeLocks lockCalls cloud cloudCalls host withLocks withHost
     negb is_nil].

Ltac go_run := repeat (go_simpl; go_case).

(** ** Capacity resolution *)

Lemma MinimumVolumeSizeInBytes_eq : MinimumVolumeSizeInBytes = 5 * 2 ^ 30.
Proof. reflexivity. Qed.

Lemma getRequestCapacity_cases (r l : Z) :
  getRequestCapacity (Some {| RequiredBytes := r; LimitBytes := l |}) =
    if (0 <? l) && (0 <? r) && (l <? r) then Err fmt_Errorf
    else if (0 <? l) && (l <? MinimumVolumeSizeInBytes) then Err fmt_Errorf
    else Ok (Z.max (if 0 <? r then r else MinimumVolumeSizeInBytes)
                   MinimumVolumeSizeInBytes).
Proof.
  unfold getRequestCapacity; cbn [GetRequiredBytes GetLimitBytes RequiredBytes LimitBytes].
  rewrite MinimumVolumeSizeInBytes_eq.
  destruct (0 <? l) eqn:Hl, (0 <? r) eqn:Hr, (l <? r) eqn:Hlr; cbn [andb];
    try reflexivity;
    destruct (l <? 5 * 2 ^ 30) eqn:Hm; cbn [andb]; try reflexivity;
    f_equal;
    repeat match goal with
           | |- context [?a <? ?b] => destruct (Z.ltb_spec a b)
           end; lia.
Qed.

Lemma getRequestCapacity_bounds (capRange : option CapacityRange) (n : Z) :
  getRequestCapacity capRange = Ok n ->
  MinimumVolumeSizeInBytes <= n /\
  (0 < GetLimitBytes capRange -> n <= GetLimitBytes capRange).
Proof.
  destruct capRange as [[r l]|].
  - rewrite getRequestCapacity_cases. cbn [GetLimitBytes LimitBytes].
    rewrite MinimumVolumeSizeInBytes_eq.
    destruct (Z.ltb_spec 0 l), (Z.ltb_spec 0 r), (Z.ltb_spec l r),
      (Z.ltb_spec l (5 * 2 ^ 30)); cbn [andb]; intros [= <-]; lia.
  - cbn. intros [= <-]. lia.
Qed.

Section CallerCodes.

Context {C H : Type} {gce : GCECompute C} {nh : NodeHost H} {hp : Helpers}.

Lemma CreateVolume_capacity_invalid (rnd : nat) (req : CreateVolumeRequest.t)
    (w : World C H) :
  is_Err (getRequestCapacity (CreateVolumeRequest.CapacityRange_ req)) = true ->
  fst (CreateVolume rnd req w) = Err (status_Error InvalidArgument).
Proof.
  intros Hc. unfold CreateVolume. go_unfold.
  destruct (len0 _); [reflexivity|].
  destruct (Nat.eqb _ _); [reflexivity|].
  destruct (getRequestCapacity _); [discriminate|reflexivity].
Qed.

Lemma NodeExpandVolume_capacity_invalid (req : NodeExpandVolumeRequest.t)
    (w : World C H) :
  is_Err (getRequestCapacity (NodeExpandVolumeRequest.CapacityRange_ req)) = true ->
  fst (NodeExpandVolume req w) = Err (status_Error InvalidArgument).
Proof.
  intros Hc. unfold NodeExpandVolume. go_unfold.
  destruct (len0 _); [reflexivity|].
  destruct (getRequestCapacity _); [discriminate|reflexivity].
Qed.

End CallerCodes.

Section Capacity.

Context {C H : Type} {gce : GCECompute C} {nh : NodeHost H} {hp : Helpers}.

(** C2.  Capacity resolution.  An absent range resolves to 5 GiB.  A
    range whose limit and required size are both set (positive) with the
    limit below the required size is rejected, and so is a range whose
    limit is set and below 5 GiB; CreateVolume and NodeExpandVolume
    report the rejection as InvalidArgument.  Every other range resolves
    to the required size if set, else the minimum, raised to 5 GiB.  A
    resolved capacity is at least 5 GiB and at most the limit, if one is
    set. *)
Theorem capacity_resolution :
  getRequestCapacity None = Ok (5 * 2 ^ 30) /\
  (forall r l : Z, 0 < r -> 0 < l -> l < r ->
     getRequestCapacity (Some {| RequiredBytes := r; LimitBytes := l |})
     = Err fmt_Errorf) /\
  (forall r l : Z, 0 < l -> l < 5 * 2 ^ 30 ->
     getRequestCapacity (Some {| RequiredBytes := r; LimitBytes := l |})
     = Err fmt_Errorf) /\
  (forall r l : Z, ~ (0 < r /\ 0 < l /\ l < r) -> ~ (0 < l /\ l < 5 * 2 ^ 30) ->
     getRequestCapacity (Some {| RequiredBytes := r; LimitBytes := l |})
     = Ok (Z.max (if 0 <? r then r else 5 * 2 ^ 30) (5 * 2 ^ 30))) /\
  (forall (capRange : option CapacityRange) (n : Z),
     getRequestCapacity capRange = Ok n ->
     5 * 2 ^ 30 <= n /\
     (0 < GetLimitBytes capRange -> n <= GetLimitBytes capRange)) /\
  (forall (rnd : nat) (req : CreateVolumeRequest.t) (w : World C H),
     is_Err (getRequestCapacity (CreateVolumeRequest.CapacityRange_ req)) = true ->
     fst (CreateVolume rnd req w) = Err (status_Error InvalidArgument)) /\
  (forall (req : NodeExpandVolumeRequest.t) (w : World C H),
     is_Err (getRequestCapacity (NodeExpandVolumeRequest.CapacityRange_ req)) = true ->
     fst (NodeExpandVolume req w) = Err (status_Error InvalidArgument)).
Proof.
  split; [reflexivity|].
  split.
  { intros r l Hr Hl Hlr. rewrite getRequestCapacity_cases.
    destruct (Z.ltb_spec 0 l), (Z.ltb_spec 0 r), (Z.ltb_spec l r);
      cbn [andb]; try lia; reflexivity. }
  split.
  { intros r l Hl Hm. rewrite getRequestCapacity_cases, MinimumVolumeSizeInBytes_eq.
    destruct (Z.ltb_spec 0 l), (Z.ltb_spec l (5 * 2 ^ 30)); try lia.
    cbn [andb]. destruct (_ && _); reflexivity. }
  split.
  { intros r l H1 H2. rewrite getRequestCapacity_cases, MinimumVolumeSizeInBytes_eq.
    destruct (Z.ltb_spec 0 l), (Z.ltb_spec 0 r), (Z.ltb_spec l r),
      (Z.ltb_spec l (5 * 2 ^ 30)); cbn [andb]; try lia; reflexivity. }
  split.
  { intros capRange n Hn. apply getRequestCapacity_bounds in Hn.
    rewrite MinimumVolumeSizeInBytes_eq in Hn. exact Hn. }
  split.
  - apply CreateVolume_capacity_invalid.
  - apply NodeExpandVolume_capacity_invalid.
Qed.

End Capacity.

Lemma capacity_resolution_witness :
  getRequestCapacity (Some {| RequiredBytes := 10 * 2 ^ 30; LimitBytes := 5 * 2 ^ 30 |})
  = Err fmt_Errorf /\
  getRequestCapacity (Some {| RequiredBytes := 0; LimitBytes := 2 ^ 30 |})
  = Err fmt_Errorf /\
  getRequestCapacity (Some {| RequiredBytes := 2 ^ 30; LimitBytes := 0 |})
  = Ok (5 * 2 ^ 30) /\
  (5 * 2 ^ 30 <= 20 * 2 ^ 30 /\ (0 < 30 * 2 ^ 30 -> 20 * 2 ^ 30 <= 30 * 2 ^ 30)) /\
  fst (CreateVolume 0
         (Fake.createRequest "d1"
            (Some {| RequiredBytes := 10 * 2 ^ 30; LimitBytes := 5 * 2 ^ 30 |}) ∅ None)
         (Fake.world ∅ Fake.emptyCloud Fake.emptyHost))
  = Err (status_Error InvalidArgument) /\
  fst (NodeExpandVolume
         {| NodeExpandVolumeRequest.VolumeId := "zone-a/d1";
            NodeExpandVolumeRequest.VolumePath := "/mnt/d1";
            NodeExpandVolumeRequest.CapacityRange_ :=
              Some {| RequiredBytes := 0; LimitBytes := 2 ^ 30 |} |}
         (Fake.world ∅ Fake.emptyCloud Fake.emptyHost))
  = Err (status_Error InvalidArgument).
Proof.
  destruct (capacity_resolution (C:=Fake.Cloud) (H:=Fake.Host))
    as (_ & Hlr & Hlm & Hok & Hb & Hcv & Hne).
  split; [apply Hlr; lia|].
  split; [apply Hlm; lia|].
  split; [apply (Hok (2 ^ 30) 0); lia|].
  split.
  { apply (Hb (Some {| RequiredBytes := 20 * 2 ^ 30; LimitBytes := 30 * 2 ^ 30 |})).
    reflexivity. }
  split; [apply Hcv; reflexivity | apply Hne; reflexivity].
Defined.

(** C10.  A required size or a limit that is zero or negative counts as
    absent.  With both non-positive the range resolves to the 5 GiB
    minimum without an error; a non-positive field gives the same result
    as the field left at zero; and a range is rejected only through a
    strictly positive limit. *)
Theorem nonpositive_bounds_are_absent (r l : Z) :
  (r <= 0 -> l <= 0 ->
   getRequestCapacity (Some {| RequiredBytes := r; LimitBytes := l |})
   = Ok MinimumVolumeSizeInBytes) /\
  (r <= 0 ->
   getRequestCapacity (Some {| RequiredBytes := r; LimitBytes := l |})
   = getRequestCapacity (Some {| RequiredBytes := 0; LimitBytes := l |})) /\
  (l <= 0 ->
   getRequestCapacity (Some {| RequiredBytes := r; LimitBytes := l |})
   = getRequestCapacity (Some {| RequiredBytes := r; LimitBytes := 0 |})) /\
  (is_Err (getRequestCapacity (Some {| RequiredBytes := r; LimitBytes := l |})) = true ->
   0 < l /\ (l < MinimumVolumeSizeInBytes \/ (0 < r /\ l < r))).
Proof.
  rewrite !getRequestCapacity_cases, MinimumVolumeSizeInBytes_eq.
  change (0 <? 0) with false. cbn [andb].
  destruct (Z.ltb_spec 0 l), (Z.ltb_spec 0 r), (Z.ltb_spec l r),
    (Z.ltb_spec l (5 * 2 ^ 30)); cbn [andb is_Err];
    repeat split; intros; try lia; try discriminate; try reflexivity;
    f_equal; lia.
Qed.

Lemma nonpositive_bounds_are_absent_witness :
  getRequestCapacity (Some {| RequiredBytes := -7; LimitBytes := 0 |})
  = Ok MinimumVolumeSizeInBytes /\
  getRequestCapacity (Some {| RequiredBytes := -7; LimitBytes := 6 * 2 ^ 30 |})
  = getRequestCapacity (Some {| RequiredBytes := 0; LimitBytes := 6 * 2 ^ 30 |}) /\
  getRequestCapacity (Some {| RequiredBytes := 8 * 2 ^ 30; LimitBytes := -1 |})
  = getRequestCapacity (Some {| RequiredBytes := 8 * 2 ^ 30; LimitBytes := 0 |}) /\
  (0 < 2 ^ 30 /\ (2 ^ 30 < MinimumVolumeSizeInBytes \/ (0 < -7 /\ 2 ^ 30 < -7))).
Proof.
  split.
  { destruct (nonpositive_bounds_are_absent (-7) 0) as (Hboth & _). apply Hboth; lia. }
  split.
  { destruct (nonpositive_bounds_are_absent (-7) (6 * 2 ^ 30)) as (_ & Hreq & _).
    apply Hreq; lia. }
  split.
  { destruct (nonpositive_bounds_are_absent (8 * 2 ^ 30) (-1)) as (_ & _ & Hlim & _).
    apply Hlim; lia. }
  destruct (nonpositive_bounds_are_absent (-7) (2 ^ 30)) as (_ & _ & _ & Herr).
  apply Herr. reflexivity.
Defined.

(** ** Topology selection *)

Lemma len0_false (s : string) : len0 s = false <-> s <> "".
Proof. destruct s; cbn; split; congruence. Qed.

Lemma len0_true (s : string) : len0 s = true <-> s = "".
Proof. destruct s; cbn; split; congruence. Qed.

Lemma getZoneFromSegment_range_Err (kvs : list (string * string)) (zone : string)
    (e : error) :
  getZoneFromSegment_range kvs zone = Err e -> e = fmt_Errorf.
Proof.
  revert zone. induction kvs as [|[k v] kvs IH]; intros zone; cbn.
  - discriminate.
  - destruct (String.eqb k common.TopologyKeyZone); [apply IH | congruence].
Qed.

Lemma getZoneFromSegment_range_unknown (kvs : list (string * string)) (zone k v : string) :
  In (k, v) kvs -> k <> common.TopologyKeyZone ->
  getZoneFromSegment_range kvs zone = Err fmt_Errorf.
Proof.
  revert zone. induction kvs as [|[k' v'] kvs IH]; intros zone Hin Hk; cbn.
  - destruct Hin.
  - destruct (String.eqb_spec k' common.TopologyKeyZone) as [->|Hne].
    + destruct Hin as [[= <- <-]|Hin]; [congruence | now apply IH].
    + reflexivity.
Qed.

Lemma getZoneFromSegment_range_Ok (kvs : list (string * string)) (zone z : string) :
  getZoneFromSegment_range kvs zone = Ok z ->
  Forall (fun kv => fst kv = common.TopologyKeyZone) kvs.
Proof.
  revert zone. induction kvs as [|[k v] kvs IH]; intros zone; cbn.
  - constructor.
  - destruct (String.eqb_spec k common.TopologyKeyZone) as [->|Hne]; [|discriminate].
    intros Hr. constructor; [reflexivity | eapply IH, Hr].
Qed.

Lemma getZoneFromSegment_Err (seg : gmap string string) (e : error) :
  getZoneFromSegment seg = Err e -> e = fmt_Errorf.
Proof.
  unfold getZoneFromSegment.
  destruct (getZoneFromSegment_range _ _) eqn:Hr.
  - destruct (len0 a); congruence.
  - intros [= <-]. eapply getZoneFromSegment_range_Err, Hr.
Qed.

Lemma getZoneFromSegment_Ok (seg : gmap string string) (z : string) :
  getZoneFromSegment seg = Ok z <->
  seg = {[ common.TopologyKeyZone := z ]} /\ z <> "".
Proof.
  unfold getZoneFromSegment. split.
  - destruct (getZoneFromSegment_range _ _) as [z'|] eqn:Hr; [|discriminate].
    destruct (len0 z') eqn:Hz; [discriminate|]. intros [= <-].
    apply len0_false in Hz. split; [|exact Hz].
    pose proof (getZoneFromSegment_range_Ok _ _ _ Hr) as Hall.
    pose proof (NoDup_fst_map_to_list seg) as Hnd.
    rewrite <- (list_to_map_to_list seg).
    destruct (map_to_list seg) as [|[k v] [|[k' v'] rest]].
    + cbn in Hr. congruence.
    + inversion Hall as [|? ? Hk _]; subst. cbn in Hk. subst.
      cbn in Hr. injection Hr as ->.
      cbn. now rewrite insert_empty.
    + exfalso. inversion Hall as [|? ? Hk Hall']; subst.
      inversion Hall' as [|? ? Hk' _]; subst. cbn in Hk, Hk'. subst.
      cbn in Hnd. apply NoDup_cons in Hnd as [Hnot _].
      apply Hnot. left.
  - intros [-> Hz]. rewrite map_to_list_singleton. cbn.
    apply len0_false in Hz. now rewrite Hz.
Qed.

Lemma getZoneFromSegment_unknown_key (seg : gmap string string) (k v : string) :
  seg !! k = Some v -> k <> common.TopologyKeyZone ->
  getZoneFromSegment seg = Err fmt_Errorf.
Proof.
  intros Hl Hk. unfold getZoneFromSegment.
  rewrite (getZoneFromSegment_range_unknown _ _ k v); [reflexivity| |exact Hk].
  apply list_elem_of_In, elem_of_map_to_list, Hl.
Qed.

Lemma zoneOfEntries_Err (kvs : list (string * string)) (e : error) :
  zoneOfEntries kvs = Err e -> e = fmt_Errorf.
Proof.
  unfold zoneOfEntries. destruct (getZoneFromSegment_range kvs "") as [z|e'] eqn:Hr.
  - destruct (len0 z); congruence.
  - intros [= <-]. eapply getZoneFromSegment_range_Err, Hr.
Qed.

(** The order in which the entries of the segments are visited does not
    matter: every order gives what getZoneFromSegment gives. *)
Lemma getZoneFromSegment_any_order (seg : gmap string string)
    (kvs : list (string * string)) :
  kvs ≡ₚ map_to_list seg ->
  zoneOfEntries kvs = getZoneFromSegment seg.
Proof.
  intros Hperm.
  assert (forall z, zoneOfEntries kvs = Ok z -> getZoneFromSegment seg = Ok z) as Hto.
  { intros z Hz. apply getZoneFromSegment_Ok. unfold zoneOfEntries in Hz.
    destruct (getZoneFromSegment_range kvs "") as [z'|] eqn:Hr; [|discriminate Hz].
    destruct (len0 z') eqn:Hl; [discriminate Hz|]. injection Hz as ->.
    apply len0_false in Hl. split; [|exact Hl].
    pose proof (getZoneFromSegment_range_Ok _ _ _ Hr) as Hall.
    assert (NoDup (kvs.*1)) as Hnd.
    { rewrite Hperm. apply NoDup_fst_map_to_list. }
    rewrite <- (list_to_map_to_list seg).
    rewrite <- (list_to_map_proper kvs (map_to_list seg) Hnd Hperm).
    destruct kvs as [|[k v] [|[k' v'] rest]].
    - cbn in Hr. congruence.
    - inversion Hall as [|? ? Hk _]; subst. cbn in Hk. subst.
      cbn in Hr. injection Hr as ->. cbn. now rewrite insert_empty.
    - exfalso. inversion Hall as [|? ? Hk Hall']; subst.
      inversion Hall' as [|? ? Hk' _]; subst. cbn in Hk, Hk'. subst.
      cbn in Hnd. apply NoDup_cons in Hnd as [Hnot _].
      apply Hnot. left. }
  assert (forall z, getZoneFromSegment seg = Ok z -> zoneOfEntries kvs = Ok z) as Hfrom.
  { intros z Hz. apply getZoneFromSegment_Ok in Hz as [-> Hz].
    rewrite map_to_list_singleton in Hperm.
    apply Permutation_singleton_r in Hperm as ->.
    unfold zoneOfEntries. cbn. apply len0_false in Hz. now rewrite Hz. }
  destruct (zoneOfEntries kvs) as [z|e] eqn:Hk.
  - symmetry. apply Hto. reflexivity.
  - apply zoneOfEntries_Err in Hk as ->.
    destruct (getZoneFromSegment seg) as [z|e] eqn:Hs.
    + specialize (Hfrom z eq_refl). discriminate Hfrom.
    + apply getZoneFromSegment_Err in Hs as ->. reflexivity.
Qed.

Lemma zoneOfTopology_Ok (t : Topology.t) (z : string) :
  zoneOfTopology t = Ok z <->
  Topology.Segments t = Some {[ common.TopologyKeyZone := z ]} /\ z <> "".
Proof.
  unfold zoneOfTopology. destruct (Topology.Segments t) as [seg|].
  - destruct (getZoneFromSegment seg) as [z'|] eqn:Hg.
    + apply getZoneFromSegment_Ok in Hg as [-> Hz]. split.
      * intros [= <-]. auto.
      * intros [Heq _]. f_equal. apply (inj Some) in Heq.
        apply (f_equal (fun m : gmap string string => m !! common.TopologyKeyZone)) in Heq.
        rewrite !lookup_singleton_eq in Heq. now apply (inj Some) in Heq.
    + split; [discriminate|]. intros [Heq Hz]. apply (inj Some) in Heq. subst seg.
      assert (getZoneFromSegment {[common.TopologyKeyZone := z]} = Ok z) as Hok
        by (apply getZoneFromSegment_Ok; split; [reflexivity | exact Hz]).
      rewrite Hok in Hg. discriminate Hg.
  - split; [discriminate | intros [? _]; discriminate].
Qed.

Lemma zoneOfTopology_Err (t : Topology.t) (e : error) :
  zoneOfTopology t = Err e -> e = fmt_Errorf.
Proof.
  unfold zoneOfTopology. destruct (Topology.Segments t) as [seg|]; [|congruence].
  destruct (getZoneFromSegment seg); congruence.
Qed.

Lemma pickTopology_preferred (rnd : nat) (top : TopologyRequirement.t)
    (p : Topology.t) (ps : list Topology.t) :
  TopologyRequirement.Preferred top = p :: ps ->
  pickTopology rnd top = zoneOfTopology p.
Proof. unfold pickTopology, zoneOfTopology. intros ->. reflexivity. Qed.

Lemma pickTopology_requisite (rnd : nat) (top : TopologyRequirement.t) :
  TopologyRequirement.Preferred top = [] ->
  TopologyRequirement.Requisite top <> [] ->
  exists t, In t (TopologyRequirement.Requisite top) /\
            pickTopology rnd top = zoneOfTopology t.
Proof.
  unfold pickTopology, zoneOfTopology. intros -> Hne.
  destruct (TopologyRequirement.Requisite top) as [|t0 ts] eqn:Hreq; [congruence|].
  exists (nth (rand_Intn rnd (length (t0 :: ts))) (t0 :: ts) t0).
  split; [|reflexivity].
  apply nth_In. unfold rand_Intn. apply Nat.mod_upper_bound. cbn. lia.
Qed.

Lemma pickTopology_drawn (rnd : nat) (top : TopologyRequirement.t) (t : Topology.t) :
  TopologyRequirement.Preferred top = [] ->
  nth_error (TopologyRequirement.Requisite top)
    (rand_Intn rnd (length (TopologyRequirement.Requisite top))) = Some t ->
  pickTopology rnd top = zoneOfTopology t.
Proof.
  unfold pickTopology, zoneOfTopology. intros -> Hdrawn.
  destruct (TopologyRequirement.Requisite top) as [|t0 ts] eqn:Hreq.
  - destruct (rand_Intn rnd (length (@nil Topology.t))); discriminate Hdrawn.
  - cbv zeta. rewrite (List.nth_error_nth _ _ t0 Hdrawn). reflexivity.
Qed.

Lemma pickTopology_Err (rnd : nat) (top : TopologyRequirement.t) (e : error) :
  pickTopology rnd top = Err e -> e = fmt_Errorf.
Proof.
  destruct (TopologyRequirement.Preferred top) as [|p ps] eqn:Hp.
  - destruct (TopologyRequirement.Requisite top) as [|t0 ts] eqn:Hr.
    + unfold pickTopology. rewrite Hp, Hr. congruence.
    + destruct (pickTopology_requisite rnd top Hp) as (t & _ & ->); [congruence|].
      apply zoneOfTopology_Err.
  - rewrite (pickTopology_preferred rnd top p ps Hp). apply zoneOfTopology_Err.
Qed.

Section Topology.

Context {C H : Type} {gce : GCECompute C} {nh : NodeHost H} {hp : Helpers}.

Lemma CreateVolume_parameters_Err (kvs : list (string * string))
    (diskType configuredZone : string) (e : error) :
  CreateVolume_parameters kvs diskType configuredZone = Err e ->
  e = status_Error InvalidArgument.
Proof.
  revert diskType configuredZone.
  induction kvs as [|[k v] kvs IH]; intros diskType configuredZone; cbn.
  - discriminate.
  - repeat (destruct (_ : bool)); try apply IH. congruence.
Qed.

Lemma CreateVolume_topology_invalid (rnd : nat) (req : CreateVolumeRequest.t)
    (top : TopologyRequirement.t) (w : World C H) :
  CreateVolumeRequest.AccessibilityRequirements req = Some top ->
  is_Err (pickTopology rnd top) = true ->
  fst (CreateVolume rnd req w) = Err (status_Error InvalidArgument).
Proof.
  intros Htop Hpick. unfold CreateVolume. go_unfold. rewrite Htop.
  destruct (len0 _); [reflexivity|].
  destruct (Nat.eqb _ _); [reflexivity|].
  destruct (getRequestCapacity _); [|reflexivity].
  destruct (CreateVolume_parameters _ _ _) as [[diskType configuredZone]|e] eqn:Hp.
  - destruct (negb (len0 configuredZone)); [reflexivity|].
    destruct (pickTopology rnd top); [discriminate | reflexivity].
  - apply CreateVolume_parameters_Err in Hp as ->. reflexivity.
Qed.

(** C7.  Topology selection.  With a non-empty preferred list the outcome
    is that of the first preferred topology alone, whatever the random
    source gives and whatever the other preferred topologies and the
    requisite topologies are: the chosen zone is the value that its
    segments bind to the zone key.  With an empty preferred list and a
    non-empty requisite list the outcome is that of the requisite
    topology drawn: the chosen zone is the zone of one of the requisite
    topologies, and a zone is chosen whenever each of them holds one.
    With both lists empty the selection fails.  Segments that hold a key
    other than the zone key yield no zone, so that the selection fails
    when it reads them, as the first preferred topology or as the
    requisite topology drawn; the topologies that are not read are not
    examined.  CreateVolume reports a failed selection as
    InvalidArgument. *)
Theorem topology_selection (rnd : nat) (top : TopologyRequirement.t) :
  (forall (p : Topology.t) (ps : list Topology.t),
     TopologyRequirement.Preferred top = p :: ps ->
     (forall rnd' : nat, pickTopology rnd' top = pickTopology rnd top) /\
     (forall z : string,
        pickTopology rnd top = Ok z <->
        Topology.Segments p = Some {[ common.TopologyKeyZone := z ]} /\ z <> "") /\
     (forall ps' requisite' : list Topology.t,
        pickTopology rnd {| TopologyRequirement.Requisite := requisite';
                            TopologyRequirement.Preferred := p :: ps' |}
        = pickTopology rnd top)) /\
  (TopologyRequirement.Preferred top = [] ->
   TopologyRequirement.Requisite top <> [] ->
   (forall z : string,
      pickTopology rnd top = Ok z ->
      exists t, In t (TopologyRequirement.Requisite top) /\
                Topology.Segments t = Some {[ common.TopologyKeyZone := z ]}) /\
   ((forall t, In t (TopologyRequirement.Requisite top) ->
               exists z, z <> "" /\
                         Topology.Segments t = Some {[ common.TopologyKeyZone := z ]}) ->
    exists z, pickTopology rnd top = Ok z) /\
   (forall t : Topology.t,
      nth_error (TopologyRequirement.Requisite top)
        (rand_Intn rnd (length (TopologyRequirement.Requisite top))) = Some t ->
      forall z : string,
        pickTopology rnd top = Ok z <->
        Topology.Segments t = Some {[ common.TopologyKeyZone := z ]} /\ z <> "")) /\
  (TopologyRequirement.Preferred top = [] ->
   TopologyRequirement.Requisite top = [] ->
   pickTopology rnd top = Err fmt_Errorf) /\
  (forall (seg : gmap string string) (k v : string),
     seg !! k = Some v -> k <> common.TopologyKeyZone ->
     getZoneFromSegment seg = Err fmt_Errorf /\
     (forall (p : Topology.t) (ps : list Topology.t),
        TopologyRequirement.Preferred top = p :: ps ->
        Topology.Segments p = Some seg ->
        pickTopology rnd top = Err fmt_Errorf) /\
     (TopologyRequirement.Preferred top = [] ->
      (forall t, In t (TopologyRequirement.Requisite top) ->
                 Topology.Segments t = Some seg) ->
      pickTopology rnd top = Err fmt_Errorf) /\
     (TopologyRequirement.Preferred top = [] ->
      forall t : Topology.t,
        nth_error (TopologyRequirement.Requisite top)
          (rand_Intn rnd (length (TopologyRequirement.Requisite top))) = Some t ->
        Topology.Segments t = Some seg ->
        pickTopology rnd top = Err fmt_Errorf)) /\
  (forall (req : CreateVolumeRequest.t) (w : World C H),
     CreateVolumeRequest.AccessibilityRequirements req = Some top ->
     is_Err (pickTopology rnd top) = true ->
     fst (CreateVolume rnd req w) = Err (status_Error InvalidArgument)).
Proof.
  split.
  { intros p ps Hp. split; [|split].
    - intros rnd'. now rewrite !(pickTopology_preferred _ top p ps Hp).
    - intros z. rewrite (pickTopology_preferred _ top p ps Hp).
      apply zoneOfTopology_Ok.
    - intros ps' requisite'. rewrite (pickTopology_preferred _ top p ps Hp).
      apply (pickTopology_preferred rnd _ p ps'). reflexivity. }
  split.
  { intros Hp Hr. split; [|split].
    - intros z Hz. destruct (pickTopology_requisite rnd top Hp Hr) as (t & Hin & Heq).
      exists t. split; [exact Hin|]. rewrite Heq in Hz.
      apply zoneOfTopology_Ok in Hz. apply Hz.
    - intros Hall. destruct (pickTopology_requisite rnd top Hp Hr) as (t & Hin & Heq).
      destruct (Hall t Hin) as (z & Hz & Hseg). exists z. rewrite Heq.
      apply zoneOfTopology_Ok. split; assumption.
    - intros t Hdrawn z. rewrite (pickTopology_drawn rnd top t Hp Hdrawn).
      apply zoneOfTopology_Ok. }
  split.
  { intros Hp Hr. unfold pickTopology. now rewrite Hp, Hr. }
  split.
  { intros seg k v Hl Hk.
    pose proof (getZoneFromSegment_unknown_key seg k v Hl Hk) as Hseg.
    split; [exact Hseg|]. split; [|split].
    - intros p ps Hp Hs. rewrite (pickTopology_preferred _ top p ps Hp).
      unfold zoneOfTopology. now rewrite Hs, Hseg.
    - intros Hp Hall.
      destruct (TopologyRequirement.Requisite top) as [|t0 ts] eqn:Hr.
      + unfold pickTopology. now rewrite Hp, Hr.
      + destruct (pickTopology_requisite rnd top Hp) as (t & Hin & Heq).
        * rewrite Hr. discriminate.
        * rewrite Heq. unfold zoneOfTopology. rewrite Hr in Hin.
          now rewrite (Hall t Hin), Hseg.
    - intros Hp t Hdrawn Hs. rewrite (pickTopology_drawn rnd top t Hp Hdrawn).
      unfold zoneOfTopology. now rewrite Hs, Hseg. }
  intros req w. apply CreateVolume_topology_invalid.
Qed.

End Topology.

Lemma topology_selection_witness :
  pickTopology 7 Examples.preferredAB = Ok "zone-a" /\
  (exists t, In t (TopologyRequirement.Requisite Examples.requisiteAB) /\
             Topology.Segments t = Some {[ common.TopologyKeyZone := "zone-b" ]}) /\
  (exists z, pickTopology 4 Examples.requisiteAB = Ok z) /\
  pickTopology 3 Examples.noTopology = Err fmt_Errorf /\
  pickTopology 3 Examples.preferredRegion = Err fmt_Errorf /\
  fst (CreateVolume 3
         (Fake.createRequest "d1" None ∅ (Some Examples.preferredRegion))
         Examples.world0)
  = Err (status_Error InvalidArgument) /\
  (* a region after the first preferred topology is not read *)
  pickTopology 7 Examples.preferredZoneRegion = pickTopology 7 Examples.preferredAB /\
  (* a region among the requisite topologies: read when it is drawn *)
  pickTopology 2 Examples.requisiteZoneRegion = Ok "zone-a" /\
  pickTopology 3 Examples.requisiteZoneRegion = Err fmt_Errorf.
Proof.
  split.
  { destruct (topology_selection (C:=Fake.Cloud) (H:=Fake.Host) 7%nat Examples.preferredAB)
      as (Hpref & _).
    destruct (Hpref (Examples.zoneTopology "zone-a") [Examples.zoneTopology "zone-b"]
                eq_refl) as (_ & Hz & _).
    apply Hz. split; [reflexivity | discriminate]. }
  split.
  { destruct (topology_selection (C:=Fake.Cloud) (H:=Fake.Host) 1%nat Examples.requisiteAB)
      as (_ & Hreq & _).
    destruct (Hreq eq_refl) as (Hin & _); [discriminate|].
    apply Hin. vm_compute. reflexivity. }
  split.
  { destruct (topology_selection (C:=Fake.Cloud) (H:=Fake.Host) 4%nat Examples.requisiteAB)
      as (_ & Hreq & _).
    destruct (Hreq eq_refl) as (_ & Hex & _); [discriminate|].
    apply Hex. intros t [<-|[<-|[]]].
    - exists "zone-a". split; [discriminate | reflexivity].
    - exists "zone-b". split; [discriminate | reflexivity]. }
  split.
  { destruct (topology_selection (C:=Fake.Cloud) (H:=Fake.Host) 3%nat Examples.noTopology)
      as (_ & _ & Hnone & _).
    apply Hnone; reflexivity. }
  destruct (topology_selection (C:=Fake.Cloud) (H:=Fake.Host) 3%nat Examples.preferredRegion)
    as (_ & _ & _ & Hkey & Hcv).
  split.
  { destruct (Hkey Examples.regionSegments "topology.gke.io/region" "region-a")
      as (_ & Hp & _).
    - vm_compute. reflexivity.
    - discriminate.
    - eapply Hp; reflexivity. }
  split.
  { apply Hcv; [reflexivity | vm_compute; reflexivity]. }
  split.
  { destruct (topology_selection (C:=Fake.Cloud) (H:=Fake.Host) 7%nat Examples.preferredAB)
      as (Hpref & _).
    destruct (Hpref (Examples.zoneTopology "zone-a") [Examples.zoneTopology "zone-b"]
                eq_refl) as (_ & _ & Hunread).
    exact (Hunread [ {| Topology.Segments := Some Examples.regionSegments |} ] []). }
  split.
  { destruct (topology_selection (C:=Fake.Cloud) (H:=Fake.Host) 2%nat
                Examples.requisiteZoneRegion)
      as (_ & Hreq & _).
    destruct (Hreq eq_refl) as (_ & _ & Hdrawn); [discriminate|].
    apply (Hdrawn (Examples.zoneTopology "zone-a") eq_refl "zone-a").
    split; [reflexivity | discriminate]. }
  destruct (topology_selection (C:=Fake.Cloud) (H:=Fake.Host) 3%nat
              Examples.requisiteZoneRegion)
    as (_ & _ & _ & Hkey' & _).
  destruct (Hkey' Examples.regionSegments "topology.gke.io/region" "region-a")
    as (_ & _ & _ & Hdrawn).
  - vm_compute. reflexivity.
  - discriminate.
  - exact (Hdrawn eq_refl {| Topology.Segments := Some Examples.regionSegments |}
             eq_refl eq_refl).
Defined.

(** C7, counterexample.  A request whose second preferred topology holds
    a region key, which is not the zone key, is not refused: the zone of
    the first preferred topology is chosen and the volume is created
    there.  The same two topologies as requisite topologies give the
    zone or the failure according to the draw. *)
Lemma topology_unread_key_accepted :
  Examples.regionSegments !! "topology.gke.io/region" = Some "region-a" /\
  "topology.gke.io/region" <> common.TopologyKeyZone /\
  pickTopology 0 Examples.preferredZoneRegion = Ok "zone-a" /\
  Examples.idOf
    (fst (CreateVolume 0
            (Fake.createRequest "d1" None ∅ (Some Examples.preferredZoneRegion))
            Examples.world0))
  = Some "zone-a/d1" /\
  pickTopology 0 Examples.requisiteZoneRegion = Ok "zone-a" /\
  pickTopology 1 Examples.requisiteZoneRegion = Err fmt_Errorf.
Proof.
  split; [vm_compute; reflexivity|].
  split; [discriminate|].
  split; [vm_compute; reflexivity|].
  split; [vm_compute; reflexivity|].
  split; vm_compute; reflexivity.
Qed.

(** ** Parameters of CreateVolume *)

Section Parameters.

Context {C H : Type} {gce : GCECompute C} {nh : NodeHost H} {hp : Helpers}.

Lemma isSecretKey_lower (k : string) :
  isSecretKey k = true -> strings_ToLower k <> common.ParameterKeyType.
Proof.
  unfold isSecretKey. intros Hs. apply orb_true_iff in Hs as [Hs|Hs];
    apply String.eqb_eq in Hs; subst k; vm_compute; discriminate.
Qed.

Lemma CreateVolume_parameters_step (k v : string) (rest : list (string * string))
    (diskType configuredZone : string) :
  CreateVolume_parameters ((k, v) :: rest) diskType configuredZone =
    if isSecretKey k then CreateVolume_parameters rest diskType configuredZone
    else if String.eqb (strings_ToLower k) common.ParameterKeyType
    then CreateVolume_parameters rest v configuredZone
    else if String.eqb (strings_ToLower k) ParameterKeyZone
    then CreateVolume_parameters rest diskType v
    else Err (status_Error InvalidArgument).
Proof. reflexivity. Qed.

Lemma CreateVolume_parameters_rejects (kvs : list (string * string))
    (diskType configuredZone : string) :
  is_Err (CreateVolume_parameters kvs diskType configuredZone) = true <->
  exists k v, In (k, v) kvs /\ acceptedKey k = false.
Proof.
  revert diskType configuredZone.
  induction kvs as [|[k v] kvs IH]; intros diskType configuredZone.
  - cbn. split; [discriminate | intros (k & v & [] & _)].
  - rewrite CreateVolume_parameters_step. unfold acceptedKey in *.
    destruct (isSecretKey k) eqn:Hs;
      [|destruct (String.eqb (strings_ToLower k) common.ParameterKeyType) eqn:Ht;
        [|destruct (String.eqb (strings_ToLower k) ParameterKeyZone) eqn:Hz]].
    1-3: rewrite IH; split;
      [ intros (k' & v' & Hin & Hk); exists k', v'; split; [right; exact Hin | exact Hk]
      | intros (k' & v' & [[= <- <-]|Hin] & Hk);
        [ rewrite Hs in Hk; cbn in Hk; try rewrite Ht in Hk; try rewrite Hz in Hk;
          cbn in Hk; discriminate
        | exists k', v'; split; assumption ] ].
    split; [|reflexivity]. intros _. exists k, v. split; [left; reflexivity|].
    now rewrite Hs, Ht, Hz.
Qed.

(** C3, as the code has it.  The parameter loop of CreateVolume lets
    through the disk type key and the zone override key, compared after
    lower-casing, and the two secret-reference keys, compared as written,
    which it skips; the call fails with InvalidArgument as soon as the
    parameters hold any other key.  The replication type key and the
    encryption key are such other keys. *)
Theorem parameters_recognized (rnd : nat) (req : CreateVolumeRequest.t) (w : World C H) :
  (forall k v : string,
     CreateVolumeRequest.Parameters req !! k = Some v ->
     acceptedKey k = false ->
     fst (CreateVolume rnd req w) = Err (status_Error InvalidArgument)) /\
  (forall (kvs : list (string * string)) (diskType configuredZone : string),
     is_Err (CreateVolume_parameters kvs diskType configuredZone) = true <->
     exists k v, In (k, v) kvs /\ acceptedKey k = false) /\
  (forall (k v : string) (rest : list (string * string)) (diskType configuredZone : string),
     strings_ToLower k = common.ParameterKeyType ->
     CreateVolume_parameters ((k, v) :: rest) diskType configuredZone
     = CreateVolume_parameters rest v configuredZone) /\
  (forall (k v : string) (rest : list (string * string)) (diskType configuredZone : string),
     strings_ToLower k = ParameterKeyZone ->
     isSecretKey k = false ->
     ParameterKeyZone <> common.ParameterKeyType ->
     CreateVolume_parameters ((k, v) :: rest) diskType configuredZone
     = CreateVolume_parameters rest diskType v) /\
  (forall (k v : string) (rest : list (string * string)) (diskType configuredZone : string),
     isSecretKey k = true ->
     CreateVolume_parameters ((k, v) :: rest) diskType configuredZone
     = CreateVolume_parameters rest diskType configuredZone) /\
  (ParameterKeyZone <> common.ParameterKeyReplicationType ->
   acceptedKey common.ParameterKeyReplicationType = false) /\
  (ParameterKeyZone <> common.ParameterKeyDiskEncryptionKmsKey ->
   acceptedKey common.ParameterKeyDiskEncryptionKmsKey = false).
Proof.
  split.
  { intros k v Hl Hk. unfold CreateVolume. go_unfold.
    destruct (len0 _); [reflexivity|].
    destruct (Nat.eqb _ _); [reflexivity|].
    destruct (getRequestCapacity _); [|reflexivity].
    destruct (CreateVolume_parameters _ _ _) as [p|e] eqn:Hp.
    - exfalso.
      assert (is_Err (CreateVolume_parameters
                        (map_to_list (CreateVolumeRequest.Parameters req))
                        "pd-standard" "") = true) as Herr.
      { apply CreateVolume_parameters_rejects. exists k, v. split; [|exact Hk].
        apply list_elem_of_In, elem_of_map_to_list, Hl. }
      rewrite Hp in Herr. discriminate Herr.
    - apply CreateVolume_parameters_Err in Hp as ->. reflexivity. }
  split; [apply CreateVolume_parameters_rejects|].
  split.
  { intros k v rest diskType configuredZone Hk. rewrite CreateVolume_parameters_step.
    destruct (isSecretKey k) eqn:Hs.
    - apply isSecretKey_lower in Hs. contradiction.
    - rewrite Hk. reflexivity. }
  split.
  { intros k v rest diskType configuredZone Hk Hs Hne.
    rewrite CreateVolume_parameters_step, Hs, Hk.
    destruct (String.eqb_spec ParameterKeyZone common.ParameterKeyType) as [Heq|_];
      [contradiction|].
    now rewrite String.eqb_refl. }
  split.
  { intros k v rest diskType configuredZone Hs.
    rewrite CreateVolume_parameters_step, Hs. reflexivity. }
  split.
  - intros Hne. unfold acceptedKey.
    change (isSecretKey common.ParameterKeyReplicationType) with false.
    change (strings_ToLower common.ParameterKeyReplicationType)
      with common.ParameterKeyReplicationType.
    change (String.eqb common.ParameterKeyReplicationType common.ParameterKeyType)
      with false.
    cbn [orb]. apply String.eqb_neq. congruence.
  - intros Hne. unfold acceptedKey.
    change (isSecretKey common.ParameterKeyDiskEncryptionKmsKey) with false.
    change (strings_ToLower common.ParameterKeyDiskEncryptionKmsKey)
      with common.ParameterKeyDiskEncryptionKmsKey.
    change (String.eqb common.ParameterKeyDiskEncryptionKmsKey common.ParameterKeyType)
      with false.
    cbn [orb]. apply String.eqb_neq. congruence.
Qed.

End Parameters.

(** C3, counterexample.  With "zone" as the zone override key, a request
    whose only parameter is the replication type, or the encryption key,
    fails with InvalidArgument, while the same request without it, or
    with the disk type spelled in capitals, succeeds. *)
Lemma parameters_replication_type_rejected :
  fst (CreateVolume 0
         (Fake.createRequest "d1" None {[ "replication-type" := "none" ]} None)
         Examples.world0)
  = Err (status_Error InvalidArgument) /\
  fst (CreateVolume 0
         (Fake.createRequest "d1" None {[ "disk-encryption-kms-key" := "key-1" ]} None)
         Examples.world0)
  = Err (status_Error InvalidArgument) /\
  is_Err (fst (CreateVolume 0 (Fake.createRequest "d1" None ∅ None) Examples.world0))
  = false /\
  is_Err (fst (CreateVolume 0
                 (Fake.createRequest "d1" None {[ "TYPE" := "pd-ssd" ]} None)
                 Examples.world0))
  = false.
Proof. vm_compute. repeat split; reflexivity. Qed.

Lemma parameters_recognized_witness :
  fst (CreateVolume 0
         (Fake.createRequest "d1" None {[ "fstype" := "xfs" ]} None)
         Examples.world0)
  = Err (status_Error InvalidArgument) /\
  CreateVolume_parameters [("Type", "pd-ssd")] "pd-standard" "" = Ok ("pd-ssd", "") /\
  CreateVolume_parameters [("ZONE", "zone-b")] "pd-standard" "" = Ok ("pd-standard", "zone-b") /\
  CreateVolume_parameters [("csiProvisionerSecretName", "s")] "pd-standard" ""
  = Ok ("pd-standard", "") /\
  acceptedKey common.ParameterKeyReplicationType = false /\
  acceptedKey common.ParameterKeyDiskEncryptionKmsKey = false.
Proof.
  destruct (parameters_recognized (C:=Fake.Cloud) (H:=Fake.Host) 0%nat
              (Fake.createRequest "d1" None {[ "fstype" := "xfs" ]} None)
              Examples.world0)
    as (Hbad & _ & Htype & Hzone & Hsecret & Hrep & Hkms).
  split.
  { apply (Hbad "fstype" "xfs"); vm_compute; reflexivity. }
  split.
  { apply (Htype "Type" "pd-ssd" [] "pd-standard" ""). reflexivity. }
  split.
  { apply (Hzone "ZONE" "zone-b" [] "pd-standard" "");
      [reflexivity | reflexivity | discriminate]. }
  split.
  { apply (Hsecret "csiProvisionerSecretName" "s" [] "pd-standard" ""). reflexivity. }
  split; [apply Hrep; discriminate | apply Hkms; discriminate].
Defined.

(** ** DeleteVolume *)

Section Delete.

Context {C H : Type} {gce : GCECompute C} {nh : NodeHost H} {hp : Helpers}.

(** C5.  DeleteVolume is lenient.  For an identifier that is provided
    (not empty) and fails to decode, the call succeeds without a request
    to the cloud.  When the delete request fails, the call fails with
    FailedPrecondition if the cloud reports the disk in use by another
    resource, succeeds if it reports the disk not found, and fails with
    Internal on any other error; an error of the wait that follows an
    accepted delete also fails with Internal. *)
Theorem DeleteVolume_lenient (req : DeleteVolumeRequest.t) (w : World C H) :
  DeleteVolumeRequest.VolumeId req <> "" ->
  (is_Err (SplitZoneNameId (DeleteVolumeRequest.VolumeId req)) = true ->
   DeleteVolume req w = (Ok DeleteVolumeResponse_empty, w)) /\
  (forall (zone name : string) (err : error) (c1 : C),
     SplitZoneNameId (DeleteVolumeRequest.VolumeId req) = Ok (zone, name) ->
     DeleteDisk zone name (cloud w) = (Err err, c1) ->
     let w1 := cloudAfter w c1 [Call_DeleteDisk zone name] in
     (IsGCEError err "resourceInUseByAnotherResource" = true ->
      DeleteVolume req w = (Err (status_Error FailedPrecondition), w1)) /\
     (IsGCEError err "resourceInUseByAnotherResource" = false ->
      IsGCEError err "notFound" = true ->
      DeleteVolume req w = (Ok DeleteVolumeResponse_empty, w1)) /\
     (IsGCEError err "resourceInUseByAnotherResource" = false ->
      IsGCEError err "notFound" = false ->
      DeleteVolume req w = (Err (status_Error Internal), w1))) /\
  (forall (zone name : string) (op : Operation.t) (c1 c2 : C) (werr : option error),
     SplitZoneNameId (DeleteVolumeRequest.VolumeId req) = Ok (zone, name) ->
     DeleteDisk zone name (cloud w) = (Ok op, c1) ->
     WaitForOp op zone c1 = (werr, c2) ->
     DeleteVolume req w =
       (match werr with
        | Some _ => Err (status_Error Internal)
        | None => Ok DeleteVolumeResponse_empty
        end,
        cloudAfter w c2 [Call_DeleteDisk zone name; Call_WaitForOp op zone])).
Proof.
  intros Hid. apply len0_false in Hid.
  unfold DeleteVolume, cloudAfter. go_unfold. rewrite Hid.
  split.
  { destruct (SplitZoneNameId _); [discriminate|]. intros _. reflexivity. }
  split.
  { intros zone name err c1 -> Hdel. cbn. rewrite Hdel.
    repeat split; intros; repeat match goal with Heq : IsGCEError _ _ = _ |- _ =>
      rewrite Heq; clear Heq end; reflexivity. }
  intros zone name op c1 c2 werr -> Hdel Hwait. cbn. rewrite Hdel. cbn.
  rewrite Hwait. destruct werr; cbn; rewrite <- app_assoc; reflexivity.
Qed.

End Delete.

Lemma DeleteVolume_lenient_witness :
  fst (DeleteVolume (Examples.deleteRequest "not-an-identifier") Examples.world0)
  = Ok DeleteVolumeResponse_empty /\
  fst (DeleteVolume (Examples.deleteRequest "zone-a/d1")
         (Examples.worldD1 [Examples.attachment "READ_WRITE"] None None))
  = Err (status_Error FailedPrecondition) /\
  fst (DeleteVolume (Examples.deleteRequest "zone-a/gone") (Examples.worldD1 [] None None))
  = Ok DeleteVolumeResponse_empty /\
  fst (DeleteVolume (Examples.deleteRequest "zone-a/d1")
         (Examples.worldD1 [] None (Some (googleapi_Error ["backendError"]))))
  = Err (status_Error Internal) /\
  fst (DeleteVolume (Examples.deleteRequest "zone-a/d1")
         (Examples.worldD1 [] (Some fmt_Errorf) None))
  = Err (status_Error Internal) /\
  fst (DeleteVolume (Examples.deleteRequest "zone-a/d1") (Examples.worldD1 [] None None))
  = Ok DeleteVolumeResponse_empty.
Proof.
  split.
  { destruct (DeleteVolume_lenient (Examples.deleteRequest "not-an-identifier")
                Examples.world0) as (Hdec & _); [discriminate|].
    rewrite Hdec; reflexivity. }
  split.
  { destruct (DeleteVolume_lenient (Examples.deleteRequest "zone-a/d1")
                (Examples.worldD1 [Examples.attachment "READ_WRITE"] None None))
      as (_ & Herr & _); [discriminate|].
    edestruct Herr as (Hbusy & _); [reflexivity | reflexivity |].
    rewrite Hbusy; reflexivity. }
  split.
  { destruct (DeleteVolume_lenient (Examples.deleteRequest "zone-a/gone")
                (Examples.worldD1 [] None None))
      as (_ & Herr & _); [discriminate|].
    edestruct Herr as (_ & Hgone & _); [reflexivity | reflexivity |].
    rewrite Hgone; reflexivity. }
  split.
  { destruct (DeleteVolume_lenient (Examples.deleteRequest "zone-a/d1")
                (Examples.worldD1 [] None (Some (googleapi_Error ["backendError"]))))
      as (_ & Herr & _); [discriminate|].
    edestruct Herr as (_ & _ & Hother); [reflexivity | reflexivity |].
    rewrite Hother; reflexivity. }
  split.
  { destruct (DeleteVolume_lenient (Examples.deleteRequest "zone-a/d1")
                (Examples.worldD1 [] (Some fmt_Errorf) None))
      as (_ & _ & Hwait); [discriminate|].
    rewrite (Hwait _ _ _ _ _ _ eq_refl eq_refl eq_refl). reflexivity. }
  destruct (DeleteVolume_lenient (Examples.deleteRequest "zone-a/d1")
              (Examples.worldD1 [] None None))
    as (_ & _ & Hwait); [discriminate|].
  rewrite (Hwait _ _ _ _ _ _ eq_refl eq_refl eq_refl). reflexivity.
Defined.

(** ** ControllerPublishVolume *)

Lemma diskIsAttachedAndCompatible_attachmentOf (volume : Disk.t) (instance : Instance.t)
    (volumeCapability : option VolumeCapability.t) (readWrite : string) :
  diskIsAttachedAndCompatible volume instance volumeCapability readWrite =
    match attachmentOf volume instance with
    | None => (false, None)
    | Some ad =>
        if String.eqb (AttachedDisk.Mode ad) readWrite
        then (true, None) else (true, Some fmt_Errorf)
    end.
Proof.
  unfold diskIsAttachedAndCompatible, attachmentOf.
  induction (Instance.Disks instance) as [|ad ads IH]; cbn; [reflexivity|].
  destruct (String.eqb (AttachedDisk.DeviceName ad) (Disk.Name volume)); [|exact IH].
  destruct (String.eqb (AttachedDisk.Mode ad) readWrite); reflexivity.
Qed.

Section Publish.

Context {C H : Type} {gce : GCECompute C} {nh : NodeHost H} {hp : Helpers}.

(** C6.  ControllerPublishVolume is idempotent.  For a request with its
    required fields, whose identifier decodes and whose disk and instance
    the cloud returns: if the disk is attached to the instance with the
    requested mode the call succeeds and sends no attach request; if it is
    attached with another mode the call fails with AlreadyExists, again
    without an attach request; if it is not attached the call sends one
    attach request whose mode is READ_ONLY or READ_WRITE after the
    read-only flag, waits for the operation, then waits for the attachment
    to be visible, and succeeds only after both waits; a failure of the
    attach request or of either wait is Internal. *)
Theorem ControllerPublishVolume_idempotent
    (req : ControllerPublishVolumeRequest.t) (w : World C H)
    (zone name : string) (disk : Disk.t) (instance : Instance.t) (c1 c2 : C) :
  ControllerPublishVolumeRequest.VolumeId req <> "" ->
  ControllerPublishVolumeRequest.NodeId req <> "" ->
  ControllerPublishVolumeRequest.VolumeCapability_ req <> None ->
  SplitZoneNameId (ControllerPublishVolumeRequest.VolumeId req) = Ok (zone, name) ->
  GetDiskOrError zone name (cloud w) = (Ok disk, c1) ->
  GetInstanceOrError zone (ControllerPublishVolumeRequest.NodeId req) c1
  = (Ok instance, c2) ->
  let nodeID := ControllerPublishVolumeRequest.NodeId req in
  let readWrite :=
    if ControllerPublishVolumeRequest.Readonly req then "READ_ONLY" else "READ_WRITE" in
  let looked := [Call_GetDiskOrError zone name; Call_GetInstanceOrError zone nodeID] in
  let attachedDiskV1 :=
    {| AttachedDisk.DeviceName := Disk.Name disk;
       AttachedDisk.Kind := Disk.Kind disk;
       AttachedDisk.Mode := readWrite;
       AttachedDisk.Source := GetDiskSourceURI disk zone c2;
       AttachedDisk.Type_ := attachableDiskTypePersistent |} in
  let attach := Call_AttachDisk zone nodeID attachedDiskV1 in
  (forall ad : AttachedDisk.t,
     attachmentOf disk instance = Some ad ->
     AttachedDisk.Mode ad = readWrite ->
     ControllerPublishVolume req w
     = (Ok ControllerPublishVolumeResponse_nil_info, cloudAfter w c2 looked)) /\
  (forall ad : AttachedDisk.t,
     attachmentOf disk instance = Some ad ->
     AttachedDisk.Mode ad <> readWrite ->
     ControllerPublishVolume req w
     = (Err (status_Error AlreadyExists), cloudAfter w c2 looked)) /\
  (attachmentOf disk instance = None ->
   (forall (op : Operation.t) (c3 c4 c5 : C),
      AttachDisk zone nodeID attachedDiskV1 c2 = (Ok op, c3) ->
      WaitForOp op zone c3 = (None, c4) ->
      WaitForAttach zone (Disk.Name disk) nodeID c4 = (None, c5) ->
      ControllerPublishVolume req w
      = (Ok ControllerPublishVolumeResponse_nil_info,
         cloudAfter w c5
           (looked ++ [attach; Call_WaitForOp op zone;
                       Call_WaitForAttach zone (Disk.Name disk) nodeID]))) /\
   (forall (e : error) (c3 : C),
      AttachDisk zone nodeID attachedDiskV1 c2 = (Err e, c3) ->
      ControllerPublishVolume req w
      = (Err (status_Error Internal), cloudAfter w c3 (looked ++ [attach]))) /\
   (forall (op : Operation.t) (e : error) (c3 c4 : C),
      AttachDisk zone nodeID attachedDiskV1 c2 = (Ok op, c3) ->
      WaitForOp op zone c3 = (Some e, c4) ->
      ControllerPublishVolume req w
      = (Err (status_Error Internal),
         cloudAfter w c4 (looked ++ [attach; Call_WaitForOp op zone]))) /\
   (forall (op : Operation.t) (e : error) (c3 c4 c5 : C),
      AttachDisk zone nodeID attachedDiskV1 c2 = (Ok op, c3) ->
      WaitForOp op zone c3 = (None, c4) ->
      WaitForAttach zone (Disk.Name disk) nodeID c4 = (Some e, c5) ->
      ControllerPublishVolume req w
      = (Err (status_Error Internal),
         cloudAfter w c5
           (looked ++ [attach; Call_WaitForOp op zone;
                       Call_WaitForAttach zone (Disk.Name disk) nodeID])))).
Proof.
  intros Hid Hnode Hcap Hsplit Hdisk Hinst nodeID readWrite looked attachedDiskV1 attach.
  apply len0_false in Hid, Hnode.
  assert (is_nil (ControllerPublishVolumeRequest.VolumeCapability_ req) = false) as Hnil
    by (destruct (ControllerPublishVolumeRequest.VolumeCapability_ req);
        [reflexivity | contradiction]).
  unfold ControllerPublishVolume, cloudAfter. go_unfold.
  rewrite Hid, Hnode, Hnil, Hsplit. cbn. rewrite Hdisk. cbn. rewrite Hinst. cbn.
  rewrite diskIsAttachedAndCompatible_attachmentOf.
  fold nodeID readWrite.
  split.
  { intros ad -> Hmode. rewrite Hmode, String.eqb_refl. cbn.
    rewrite <- app_assoc. reflexivity. }
  split.
  { intros ad -> Hmode. apply String.eqb_neq in Hmode. rewrite Hmode. cbn.
    rewrite <- app_assoc. reflexivity. }
  intros ->. cbn. fold attachedDiskV1.
  split.
  { intros op c3 c4 c5 Hatt Hwait Hvis. rewrite Hatt. cbn. rewrite Hwait. cbn.
    rewrite Hvis. cbn. rewrite <- !app_assoc. reflexivity. }
  split.
  { intros e c3 Hatt. rewrite Hatt. cbn. rewrite <- !app_assoc. reflexivity. }
  split.
  { intros op e c3 c4 Hatt Hwait. rewrite Hatt. cbn. rewrite Hwait. cbn.
    rewrite <- !app_assoc. reflexivity. }
  intros op e c3 c4 c5 Hatt Hwait Hvis. rewrite Hatt. cbn. rewrite Hwait. cbn.
  rewrite Hvis. cbn. rewrite <- !app_assoc. reflexivity.
Qed.

End Publish.

Lemma ControllerPublishVolume_idempotent_witness :
  (let '(r, w) := ControllerPublishVolume (Examples.publishRequest false)
                    (Examples.worldD1 [Examples.attachment "READ_WRITE"] None None) in
   r = Ok ControllerPublishVolumeResponse_nil_info /\
   existsb is_AttachDisk (cloudCalls w) = false) /\
  (let '(r, w) := ControllerPublishVolume (Examples.publishRequest false)
                    (Examples.worldD1 [Examples.attachment "READ_ONLY"] None None) in
   r = Err (status_Error AlreadyExists) /\
   existsb is_AttachDisk (cloudCalls w) = false) /\
  (let '(r, w) := ControllerPublishVolume (Examples.publishRequest true)
                    (Examples.worldD1 [] None None) in
   r = Ok ControllerPublishVolumeResponse_nil_info /\
   cloudCalls w =
     [Call_GetDiskOrError "zone-a" "d1"; Call_GetInstanceOrError "zone-a" "n1";
      Call_AttachDisk "zone-a" "n1" (Examples.attachment "READ_ONLY");
      Call_WaitForOp {| Operation.Name := "attach" |} "zone-a";
      Call_WaitForAttach "zone-a" "d1" "n1"]) /\
  fst (ControllerPublishVolume (Examples.publishRequest false)
         (Examples.worldD1 [] None (Some (googleapi_Error ["backendError"]))))
  = Err (status_Error Internal) /\
  fst (ControllerPublishVolume (Examples.publishRequest false)
         (Examples.worldD1 [] (Some fmt_Errorf) None))
  = Err (status_Error Internal).
Proof.
  split.
  { destruct (ControllerPublishVolume_idempotent (Examples.publishRequest false)
                (Examples.worldD1 [Examples.attachment "READ_WRITE"] None None)
                "zone-a" "d1" Examples.diskD1
                {| Instance.Disks := [Examples.attachment "READ_WRITE"] |}
                (Examples.cloudD1 [Examples.attachment "READ_WRITE"] None None)
                (Examples.cloudD1 [Examples.attachment "READ_WRITE"] None None)
        ltac:(discriminate) ltac:(discriminate) ltac:(discriminate)
        eq_refl eq_refl eq_refl)
      as (Hsame & _).
    rewrite (Hsame (Examples.attachment "READ_WRITE") eq_refl eq_refl).
    split; reflexivity. }
  split.
  { destruct (ControllerPublishVolume_idempotent (Examples.publishRequest false)
                (Examples.worldD1 [Examples.attachment "READ_ONLY"] None None)
                "zone-a" "d1" Examples.diskD1
                {| Instance.Disks := [Examples.attachment "READ_ONLY"] |}
                (Examples.cloudD1 [Examples.attachment "READ_ONLY"] None None)
                (Examples.cloudD1 [Examples.attachment "READ_ONLY"] None None)
        ltac:(discriminate) ltac:(discriminate) ltac:(discriminate)
        eq_refl eq_refl eq_refl)
      as (_ & Hother & _).
    rewrite (Hother (Examples.attachment "READ_ONLY") eq_refl); [|discriminate].
    split; reflexivity. }
  split.
  { destruct (ControllerPublishVolume_idempotent (Examples.publishRequest true)
                (Examples.worldD1 [] None None)
                "zone-a" "d1" Examples.diskD1 {| Instance.Disks := [] |}
                (Examples.cloudD1 [] None None) (Examples.cloudD1 [] None None)
        ltac:(discriminate) ltac:(discriminate) ltac:(discriminate)
        eq_refl eq_refl eq_refl)
      as (_ & _ & Hnew).
    destruct (Hnew eq_refl) as (Hok & _).
    rewrite (Hok _ _ _ _ eq_refl eq_refl eq_refl). split; reflexivity. }
  split.
  { destruct (ControllerPublishVolume_idempotent (Examples.publishRequest false)
                (Examples.worldD1 [] None (Some (googleapi_Error ["backendError"])))
                "zone-a" "d1" Examples.diskD1 {| Instance.Disks := [] |}
                (Examples.cloudD1 [] None (Some (googleapi_Error ["backendError"])))
                (Examples.cloudD1 [] None (Some (googleapi_Error ["backendError"])))
        ltac:(discriminate) ltac:(discriminate) ltac:(discriminate)
        eq_refl eq_refl eq_refl)
      as (_ & _ & Hnew).
    destruct (Hnew eq_refl) as (_ & Hrefused & _).
    rewrite (Hrefused _ _ eq_refl). reflexivity. }
  destruct (ControllerPublishVolume_idempotent (Examples.publishRequest false)
              (Examples.worldD1 [] (Some fmt_Errorf) None)
              "zone-a" "d1" Examples.diskD1 {| Instance.Disks := [] |}
              (Examples.cloudD1 [] (Some fmt_Errorf) None)
              (Examples.cloudD1 [] (Some fmt_Errorf) None)
      ltac:(discriminate) ltac:(discriminate) ltac:(discriminate)
      eq_refl eq_refl eq_refl)
    as (_ & _ & Hnew).
  destruct (Hnew eq_refl) as (_ & _ & Hwait & _).
  rewrite (Hwait _ _ _ _ eq_refl eq_refl). reflexivity.
Defined.

(** ** CreateVolume *)

Section Create.

Context {C H : Type} {gce : GCECompute C} {nh : NodeHost H} {hp : Helpers}.

(** C4.  CreateVolume is idempotent.  For a request with its required
    fields, a valid capacity range and valid parameters, resolved to the
    zone [zone]: if the existence check finds a compatible disk the call
    succeeds with the identifier zone/name and sends nothing but the
    check, so no create request; if the check fails, as it does with
    AlreadyExists on an incompatible disk, the call fails with the error
    of the check; if the insert request, or the wait for it, fails with
    "alreadyExists" the call sends the same check again and returns its
    verdict, success unless the check fails; and an insert that goes
    through gives the same identifier. *)
Theorem CreateVolume_idempotent (rnd : nat) (req : CreateVolumeRequest.t) (w : World C H)
    (capBytes : Z) (diskType paramZone zone : string) :
  CreateVolumeRequest.Name req <> "" ->
  CreateVolumeRequest.VolumeCapabilities req <> [] ->
  getRequestCapacity (CreateVolumeRequest.CapacityRange_ req) = Ok capBytes ->
  CreateVolume_parameters (map_to_list (CreateVolumeRequest.Parameters req))
    "pd-standard" "" = Ok (diskType, paramZone) ->
  targetZone rnd req paramZone (cloud w) = Ok zone ->
  let name := CreateVolumeRequest.Name req in
  let reqBytes := GetRequiredBytes (CreateVolumeRequest.CapacityRange_ req) in
  let limBytes := GetLimitBytes (CreateVolumeRequest.CapacityRange_ req) in
  let check := Call_GetAndValidateExistingDisk zone name diskType reqBytes limBytes in
  let createResp :=
    {| CreateVolumeResponse.Volume :=
         {| Volume.CapacityBytes := capBytes;
            Volume.Id := (zone ++ "/" ++ name)%string;
            Volume.Attributes := None;
            Volume.AccessibleTopology :=
              [ {| Topology.Segments := Some {[ common.TopologyKeyZone := zone ]} |} ]
         |} |} in
  (forall c1 : C,
     GetAndValidateExistingDisk zone name diskType reqBytes limBytes (cloud w)
     = (Ok true, c1) ->
     CreateVolume rnd req w = (Ok createResp, cloudAfter w c1 [check])) /\
  (forall (e : error) (c1 : C),
     GetAndValidateExistingDisk zone name diskType reqBytes limBytes (cloud w)
     = (Err e, c1) ->
     CreateVolume rnd req w = (Err e, cloudAfter w c1 [check])) /\
  (forall c1 : C,
     GetAndValidateExistingDisk zone name diskType reqBytes limBytes (cloud w)
     = (Ok false, c1) ->
     let diskToCreate :=
       {| Disk.Name := name;
          Disk.SizeGb :=
            if BytesToGb capBytes <? MinimumDiskSizeInGb
            then MinimumDiskSizeInGb else BytesToGb capBytes;
          Disk.Description := "Disk created by GCE-PD CSI Driver";
          Disk.Type_ := GetDiskTypeURI zone diskType c1;
          Disk.Kind := "" |} in
     let insert := Call_InsertDisk zone diskToCreate in
     (forall (err : error) (c2 c3 : C) (r2 : result bool),
        InsertDisk zone diskToCreate c1 = (Err err, c2) ->
        IsGCEError err "alreadyExists" = true ->
        GetAndValidateExistingDisk zone name diskType reqBytes limBytes c2 = (r2, c3) ->
        CreateVolume rnd req w
        = (match r2 with Ok _ => Ok createResp | Err e => Err e end,
           cloudAfter w c3 [check; insert; check])) /\
     (forall (op : Operation.t) (err : error) (c2 c3 c4 : C) (r2 : result bool),
        InsertDisk zone diskToCreate c1 = (Ok op, c2) ->
        WaitForOp op zone c2 = (Some err, c3) ->
        IsGCEError err "alreadyExists" = true ->
        GetAndValidateExistingDisk zone name diskType reqBytes limBytes c3 = (r2, c4) ->
        CreateVolume rnd req w
        = (match r2 with Ok _ => Ok createResp | Err e => Err e end,
           cloudAfter w c4 [check; insert; Call_WaitForOp op zone; check])) /\
     (forall (op : Operation.t) (c2 c3 : C),
        InsertDisk zone diskToCreate c1 = (Ok op, c2) ->
        WaitForOp op zone c2 = (None, c3) ->
        CreateVolume rnd req w
        = (Ok createResp, cloudAfter w c3 [check; insert; Call_WaitForOp op zone]))).
Proof.
  intros Hname Hcaps Hcap Hparams Hzone name reqBytes limBytes check createResp.
  apply len0_false in Hname.
  assert (Nat.eqb (length (CreateVolumeRequest.VolumeCapabilities req)) 0 = false)
    as Hlen by (destruct (CreateVolumeRequest.VolumeCapabilities req);
                [contradiction | reflexivity]).
  unfold CreateVolume, cloudAfter. go_unfold.
  rewrite Hname, Hlen, Hcap, Hparams.
  fold name reqBytes limBytes.
  unfold targetZone in Hzone.
  destruct (CreateVolumeRequest.AccessibilityRequirements req) as [top|] eqn:Htop.
  1: destruct (len0 paramZone) eqn:Hpz; cbn [negb] in Hzone; [|discriminate];
     destruct (pickTopology rnd top) as [z|] eqn:Hpick; [|discriminate];
     destruct (len0 z) eqn:Hz.
  3: destruct (len0 paramZone) eqn:Hpz.
  all: injection Hzone as <-; cbn; try rewrite Hpz; try rewrite Hpick;
    try rewrite Hz; cbn.
  all: (split; [|split]);
    [ intros c1 Hchk; rewrite Hchk; reflexivity
    | intros e c1 Hchk; rewrite Hchk; reflexivity
    | intros c1 Hchk; rewrite Hchk; cbn; (split; [|split]);
      [ intros err c2 c3 r2 Hins Hdup Hchk2; rewrite Hins; cbn; rewrite Hdup; cbn;
        rewrite Hchk2; destruct r2; cbn; rewrite <- !app_assoc; reflexivity
      | intros op err c2 c3 c4 r2 Hins Hwait Hdup Hchk2; rewrite Hins; cbn;
        rewrite Hwait; cbn; rewrite Hdup; cbn; rewrite Hchk2;
        destruct r2; cbn; rewrite <- !app_assoc; reflexivity
      | intros op c2 c3 Hins Hwait; rewrite Hins; cbn; rewrite Hwait; cbn;
        rewrite <- !app_assoc; reflexivity ] ].
Qed.

End Create.

Lemma CreateVolume_idempotent_witness :
  (let '(r, w) := CreateVolume 0 (Examples.requestD1 ∅) (Examples.worldD1 [] None None) in
   Examples.idOf r = Some "zone-a/d1" /\
   existsb is_InsertDisk (cloudCalls w) = false) /\
  (let '(r, w) := CreateVolume 0 (Examples.requestD1 Examples.ssdParameters)
                    (Examples.worldD1 [] None None) in
   r = Err (status_Error AlreadyExists) /\
   existsb is_InsertDisk (cloudCalls w) = false) /\
  (let '(r, w) := CreateVolume 0 (Examples.requestD1 ∅)
                    (Fake.world ∅ Examples.cloudRacing Fake.emptyHost) in
   Examples.idOf r = Some "zone-a/d1" /\ length (cloudCalls w) = 3%nat) /\
  (let '(r1, w1) := CreateVolume 0 (Examples.requestD1 ∅) Examples.world0 in
   let '(r2, w2) := CreateVolume 0 (Examples.requestD1 ∅) w1 in
   Examples.idOf r1 = Some "zone-a/d1" /\
   Examples.idOf r2 = Some "zone-a/d1" /\
   length (List.filter is_InsertDisk (cloudCalls w2)) = 1%nat).
Proof.
  split.
  { destruct (CreateVolume_idempotent 0 (Examples.requestD1 ∅)
                (Examples.worldD1 [] None None)
                MinimumVolumeSizeInBytes "pd-standard" "" "zone-a"
                ltac:(discriminate) ltac:(discriminate) eq_refl eq_refl eq_refl)
      as (Hexists & _).
    rewrite (Hexists _ eq_refl). split; reflexivity. }
  split.
  { destruct (CreateVolume_idempotent 0 (Examples.requestD1 Examples.ssdParameters)
                (Examples.worldD1 [] None None)
                MinimumVolumeSizeInBytes "pd-ssd" "" "zone-a"
                ltac:(discriminate) ltac:(discriminate) eq_refl eq_refl eq_refl)
      as (_ & Hfails & _).
    rewrite (Hfails _ _ eq_refl). split; reflexivity. }
  split.
  { destruct (CreateVolume_idempotent 0 (Examples.requestD1 ∅)
                (Fake.world ∅ Examples.cloudRacing Fake.emptyHost)
                MinimumVolumeSizeInBytes "pd-standard" "" "zone-a"
                ltac:(discriminate) ltac:(discriminate) eq_refl eq_refl eq_refl)
      as (_ & _ & Habsent).
    destruct (Habsent _ eq_refl) as (Hrace & _).
    rewrite (Hrace _ _ _ _ eq_refl eq_refl eq_refl). split; reflexivity. }
  destruct (CreateVolume_idempotent 0 (Examples.requestD1 ∅) Examples.world0
              MinimumVolumeSizeInBytes "pd-standard" "" "zone-a"
              ltac:(discriminate) ltac:(discriminate) eq_refl eq_refl eq_refl)
    as (_ & _ & Habsent).
  destruct (Habsent _ eq_refl) as (_ & _ & Hcreated).
  rewrite (Hcreated _ _ _ eq_refl eq_refl).
  match goal with
  | |- context [CreateVolume 0 (Examples.requestD1 ∅) ?w1] =>
      destruct (CreateVolume_idempotent 0 (Examples.requestD1 ∅) w1
                  MinimumVolumeSizeInBytes "pd-standard" "" "zone-a"
                  ltac:(discriminate) ltac:(discriminate) eq_refl eq_refl eq_refl)
        as (Hexists & _)
  end.
  rewrite (Hexists _ eq_refl). repeat split; reflexivity.
Defined.

(** ** The controller and the lock registry *)

Section ControllerLocks.

Context {C H : Type} {gce : GCECompute C} {nh : NodeHost H} {hp : Helpers}.

Lemma CreateVolume_lock_frame (rnd : nat) (req : CreateVolumeRequest.t) (w : World C H) :
  volumeLocks (snd (CreateVolume rnd req w)) = volumeLocks w /\
  lockCalls (snd (CreateVolume rnd req w)) = lockCalls w /\
  host (snd (CreateVolume rnd req w)) = host w.
Proof.
  unfold CreateVolume. go_unfold. go_run. all: go_simpl; auto.
Qed.

Lemma CreateVolume_lock_blind (rnd : nat) (req : CreateVolumeRequest.t) (w : World C H)
    (locks : gset string) (calls : list LockCall) :
  CreateVolume rnd req (withLocks locks calls w)
  = (fst (CreateVolume rnd req w), withLocks locks calls (snd (CreateVolume rnd req w))).
Proof.
  unfold CreateVolume. go_unfold. go_run. all: go_simpl; reflexivity.
Qed.

Lemma CreateVolume_not_Aborted (rnd : nat) (req : CreateVolumeRequest.t) (w : World C H) :
  (forall (zone name diskType : string) (reqBytes limBytes : Z) (c : C),
     fst (GetAndValidateExistingDisk zone name diskType reqBytes limBytes c)
     <> Err (status_Error Aborted)) ->
  fst (CreateVolume rnd req w) <> Err (status_Error Aborted).
Proof.
  intros Hcheck. unfold CreateVolume. go_unfold.
  destruct (CreateVolume_parameters _ _ _) as [[diskType paramZone]|e] eqn:Hp;
    [|apply CreateVolume_parameters_Err in Hp as ->].
  all: go_run; go_simpl; try discriminate.
  all: match goal with
       | Hc : GetAndValidateExistingDisk ?z ?n ?t ?r ?l ?c = (Err ?e, _) |- Err ?e <> _ =>
           let Habs := fresh "Habs" in
           intros Habs; injection Habs as Habs;
           specialize (Hcheck z n t r l c); rewrite Hc, Habs in Hcheck;
           apply Hcheck; reflexivity
       end.
Qed.

(** C1, as the code has it.  CreateVolume takes no lock: it makes no
    call on the lock registry and leaves the registry as it found it, its
    result and its requests to the cloud do not depend on which
    identifiers are held, and it fails with Aborted only if the existence
    check of the cloud client itself returns that error. *)
Theorem CreateVolume_takes_no_lock (rnd : nat) (req : CreateVolumeRequest.t)
    (w : World C H) :
  volumeLocks (snd (CreateVolume rnd req w)) = volumeLocks w /\
  lockCalls (snd (CreateVolume rnd req w)) = lockCalls w /\
  (forall (locks : gset string) (calls : list LockCall),
     CreateVolume rnd req (withLocks locks calls w)
     = (fst (CreateVolume rnd req w),
        withLocks locks calls (snd (CreateVolume rnd req w)))) /\
  ((forall (zone name diskType : string) (reqBytes limBytes : Z) (c : C),
      fst (GetAndValidateExistingDisk zone name diskType reqBytes limBytes c)
      <> Err (status_Error Aborted)) ->
   fst (CreateVolume rnd req w) <> Err (status_Error Aborted)).
Proof.
  destruct (CreateVolume_lock_frame rnd req w) as (Hlocks & Hcalls & _).
  split; [exact Hlocks|]. split; [exact Hcalls|]. split.
  - apply CreateVolume_lock_blind.
  - apply CreateVolume_not_Aborted.
Qed.

End ControllerLocks.

Lemma Fake_check_not_Aborted
    (zone name diskType : string) (reqBytes limBytes : Z) (c : Fake.Cloud) :
  fst (GetAndValidateExistingDisk zone name diskType reqBytes limBytes c)
  <> Err (status_Error Aborted).
Proof.
  cbn. unfold Fake.getAndValidateExistingDisk.
  destruct (Fake.findDisk _ _ _); [|discriminate].
  destruct (_ && _); discriminate.
Qed.

Lemma CreateVolume_takes_no_lock_witness :
  fst (CreateVolume 0 (Examples.requestD1 ∅) Examples.world0)
  <> Err (status_Error Aborted).
Proof.
  destruct (CreateVolume_takes_no_lock 0 (Examples.requestD1 ∅) Examples.world0)
    as (_ & _ & _ & Hcode).
  apply Hcode. exact Fake_check_not_Aborted.
Defined.

(** C1, counterexample.  With the lock of the name "d1", and of the
    identifier "zone-a/d1", held by an operation in flight, CreateVolume
    for "d1" makes no call on the lock registry, sends its three requests
    to the cloud and succeeds. *)
Lemma CreateVolume_ignores_held_lock :
  let w := Fake.world {[ "d1"; "zone-a/d1" ]} Fake.emptyCloud Fake.emptyHost in
  let '(r, w') := CreateVolume 0 (Examples.requestD1 ∅) w in
  bool_decide ("d1" ∈ volumeLocks w) = true /\
  Examples.idOf r = Some "zone-a/d1" /\
  lockCalls w' = [] /\
  length (cloudCalls w') = 3%nat.
Proof. vm_compute. repeat split; reflexivity. Qed.

(** ** NodeExpandVolume *)

Section Expand.

Context {C H : Type} {gce : GCECompute C} {nh : NodeHost H} {hp : Helpers}.

Lemma NodeExpandVolume_capacity (req : NodeExpandVolumeRequest.t) (w : World C H)
    (resp : NodeExpandVolumeResponse.t) :
  fst (NodeExpandVolume req w) = Ok resp ->
  getRequestCapacity (NodeExpandVolumeRequest.CapacityRange_ req)
  = Ok (NodeExpandVolumeResponse.CapacityBytes resp).
Proof.
  unfold NodeExpandVolume. go_unfold. go_run.
  all: go_simpl; try discriminate.
  all: intros [= <-]; reflexivity.
Qed.

(** C8, as the code has it.  For a request with its required fields and
    a valid range resolved to [reqBytes], whose identifier decodes:
    NodeExpandVolume resolves the device path, resizes the file system,
    then reads the size of the block device; a size below [reqBytes]
    fails with Internal, a size equal to or above it succeeds, and the
    response then carries [reqBytes], the size resolved from the request,
    in CapacityBytes.  Whenever the call succeeds, CapacityBytes is the
    capacity resolved from the range of the request. *)
Theorem NodeExpandVolume_checks_size :
  (forall (req : NodeExpandVolumeRequest.t) (w w1 : World C H) (reqBytes : Z)
          (volKey : VolumeKey.t) (devicePath : string) (resized : bool) (h2 : H),
     NodeExpandVolumeRequest.VolumeId req <> "" ->
     getRequestCapacity (NodeExpandVolumeRequest.CapacityRange_ req) = Ok reqBytes ->
     NodeExpandVolumeRequest.VolumePath req <> "" ->
     VolumeIDToKey (NodeExpandVolumeRequest.VolumeId req) = Ok volKey ->
     getDevicePath (NodeExpandVolumeRequest.VolumeId req) "" w = (Ok devicePath, w1) ->
     Resize devicePath (NodeExpandVolumeRequest.VolumePath req) (host w1)
     = (Ok resized, h2) ->
     forall (gotBlockSizeBytes : Z) (w3 : World C H),
       getBlockSizeBytes devicePath (withHost h2 w1) = (Ok gotBlockSizeBytes, w3) ->
       (gotBlockSizeBytes < reqBytes ->
        NodeExpandVolume req w = (Err (status_Error Internal), w3)) /\
       (reqBytes <= gotBlockSizeBytes ->
        NodeExpandVolume req w
        = (Ok {| NodeExpandVolumeResponse.CapacityBytes := reqBytes |}, w3))) /\
  (forall (req : NodeExpandVolumeRequest.t) (w : World C H)
          (resp : NodeExpandVolumeResponse.t),
     fst (NodeExpandVolume req w) = Ok resp ->
     getRequestCapacity (NodeExpandVolumeRequest.CapacityRange_ req)
     = Ok (NodeExpandVolumeResponse.CapacityBytes resp)).
Proof.
  split; [|apply NodeExpandVolume_capacity].
  intros req w w1 reqBytes volKey devicePath resized h2
    Hid Hcap Hpath Hkey Hdev Hresize got w3 Hsize.
  apply len0_false in Hid, Hpath.
  unfold NodeExpandVolume, withHost in *. go_unfold.
  rewrite Hid, Hcap, Hpath, Hkey, Hdev. go_simpl. rewrite Hresize. go_simpl.
  rewrite Hsize. go_simpl.
  split; intros Hcmp.
  - apply Z.ltb_lt in Hcmp. rewrite Hcmp. reflexivity.
  - apply Z.ltb_ge in Hcmp. rewrite Hcmp. reflexivity.
Qed.

End Expand.

(** C8, counterexample.  The request names no size, so that 5 GiB is
    requested; after the resize the device measures 6 GiB.  The call
    succeeds and reports 5 GiB, not the 6 GiB that resulted. *)
Lemma NodeExpandVolume_reports_requested_size :
  let w := Examples.nodeWorld ∅
             (Examples.hostD1 [] ("6442450944" ++ Examples.newline) None) in
  let '(r, w') := NodeExpandVolume (Examples.expandRequest None) w in
  r = Ok {| NodeExpandVolumeResponse.CapacityBytes := 5368709120 |} /\
  fst (getBlockSizeBytes "/dev/disk/by-id/google-d1" w') = Ok 6442450944.
Proof. vm_compute. split; reflexivity. Qed.

Lemma NodeExpandVolume_checks_size_witness :
  fst (NodeExpandVolume
         (Examples.expandRequest
            (Some {| RequiredBytes := 8 * 2 ^ 30; LimitBytes := 0 |}))
         (Examples.nodeWorld ∅
            (Examples.hostD1 [] ("6442450944" ++ Examples.newline) None)))
  = Err (status_Error Internal) /\
  fst (NodeExpandVolume (Examples.expandRequest None)
         (Examples.nodeWorld ∅
            (Examples.hostD1 [] ("6442450944" ++ Examples.newline) None)))
  = Ok {| NodeExpandVolumeResponse.CapacityBytes := 5 * 2 ^ 30 |} /\
  getRequestCapacity (NodeExpandVolumeRequest.CapacityRange_ (Examples.expandRequest None))
  = Ok (5 * 2 ^ 30).
Proof.
  destruct (NodeExpandVolume_checks_size (C:=Fake.Cloud) (H:=Fake.Host))
    as (Hsize & Hcap).
  split.
  { destruct (Hsize (Examples.expandRequest
                       (Some {| RequiredBytes := 8 * 2 ^ 30; LimitBytes := 0 |}))
                (Examples.nodeWorld ∅
                   (Examples.hostD1 [] ("6442450944" ++ Examples.newline) None))
                _ _ _ _ _ _
                ltac:(discriminate) eq_refl ltac:(discriminate) eq_refl eq_refl eq_refl
                _ _ eq_refl)
      as (Hsmall & _).
    rewrite Hsmall; reflexivity. }
  split.
  { destruct (Hsize (Examples.expandRequest None)
                (Examples.nodeWorld ∅
                   (Examples.hostD1 [] ("6442450944" ++ Examples.newline) None))
                _ _ _ _ _ _
                ltac:(discriminate) eq_refl ltac:(discriminate) eq_refl eq_refl eq_refl
                _ _ eq_refl)
      as (_ & Hlarge).
    rewrite Hlarge; [reflexivity | discriminate]. }
  apply (Hcap (Examples.expandRequest None)
           (Examples.nodeWorld ∅
              (Examples.hostD1 [] ("6442450944" ++ Examples.newline) None))
           {| NodeExpandVolumeResponse.CapacityBytes := 5 * 2 ^ 30 |}).
  reflexivity.
Defined.

(** ** The node operations and the volume lock *)

Lemma Release_after_TryAcquire (volumeID : string) (vl : gset string) :
  volumeID ∉ vl ->
  VolumeLocks.Release volumeID ({[ volumeID ]} ∪ vl) = vl.
Proof.
  intros Hfree. unfold VolumeLocks.Release. apply set_eq. intros x.
  rewrite elem_of_difference, elem_of_union, !elem_of_singleton.
  split.
  - intros [[->|Hx] Hne]; [contradiction | exact Hx].
  - intros Hx. split; [right; exact Hx | intros ->; contradiction].
Qed.

Section NodeLocks.

Context {C H : Type} {gce : GCECompute C} {nh : NodeHost H} {hp : Helpers}.

Ltac lock_held Hheld :=
  unfold VolumeLocks.TryAcquire; rewrite (bool_decide_eq_true_2 _ Hheld);
  reflexivity.

Ltac lock_free Hfree :=
  unfold VolumeLocks.TryAcquire; rewrite (bool_decide_eq_false_2 _ Hfree);
  assert (forall (calls : list LockCall) (a b : LockCall),
            ((calls ++ [a]) ++ [b] = calls ++ [a; b])%list) as Hlog
    by (intros; rewrite <- app_assoc; reflexivity);
  pose proof (Release_after_TryAcquire _ _ Hfree) as Hrel;
  go_run; go_simpl;
  (split; [apply Hlog | split; [exact Hrel | rewrite Hrel; exact Hfree]]).

Lemma NodeUnstageVolume_scopedLock (req : NodeUnstageVolumeRequest.t) :
  NodeUnstageVolumeRequest.VolumeId req <> "" ->
  NodeUnstageVolumeRequest.StagingTargetPath req <> "" ->
  scopedLock (C:=C) (H:=H) (NodeUnstageVolume req) (NodeUnstageVolumeRequest.VolumeId req).
Proof.
  intros Hid Hpath w. apply len0_false in Hid, Hpath.
  unfold NodeUnstageVolume, refusedLock. go_unfold. rewrite Hid, Hpath. go_simpl.
  split; intros Hlock; [lock_held Hlock | lock_free Hlock].
Qed.

Lemma NodeUnpublishVolume_scopedLock (req : NodeUnpublishVolumeRequest.t) :
  NodeUnpublishVolumeRequest.VolumeId req <> "" ->
  NodeUnpublishVolumeRequest.TargetPath req <> "" ->
  scopedLock (C:=C) (H:=H) (NodeUnpublishVolume req)
    (NodeUnpublishVolumeRequest.VolumeId req).
Proof.
  intros Hid Hpath w. apply len0_false in Hid, Hpath.
  unfold NodeUnpublishVolume, refusedLock. go_unfold. rewrite Hid, Hpath. go_simpl.
  split; intros Hlock; [lock_held Hlock | lock_free Hlock].
Qed.

Lemma NodeStageVolume_scopedLock (req : NodeStageVolumeRequest.t) :
  NodeStageVolumeRequest.VolumeId req <> "" ->
  NodeStageVolumeRequest.StagingTargetPath req <> "" ->
  NodeStageVolumeRequest.VolumeCapability_ req <> None ->
  scopedLock (C:=C) (H:=H) (NodeStageVolume req) (NodeStageVolumeRequest.VolumeId req).
Proof.
  intros Hid Hpath Hcap w. apply len0_false in Hid, Hpath.
  destruct (NodeStageVolumeRequest.VolumeCapability_ req) as [cap|] eqn:Hc;
    [clear Hcap | contradiction].
  unfold NodeStageVolume, getDevicePath, refusedLock. go_unfold.
  rewrite Hid, Hpath, Hc. go_simpl.
  split; intros Hlock; [lock_held Hlock | lock_free Hlock].
Qed.

Lemma NodePublishVolume_scopedLock (req : NodePublishVolumeRequest.t) :
  NodePublishVolumeRequest.VolumeId req <> "" ->
  NodePublishVolumeRequest.StagingTargetPath req <> "" ->
  NodePublishVolumeRequest.TargetPath req <> "" ->
  NodePublishVolumeRequest.VolumeCapability_ req <> None ->
  scopedLock (C:=C) (H:=H) (NodePublishVolume req) (NodePublishVolumeRequest.VolumeId req).
Proof.
  intros Hid Hstaging Hpath Hcap w. apply len0_false in Hid, Hstaging, Hpath.
  destruct (NodePublishVolumeRequest.VolumeCapability_ req) as [cap|] eqn:Hc;
    [clear Hcap | contradiction].
  unfold NodePublishVolume, getDevicePath, refusedLock. go_unfold.
  rewrite Hid, Hstaging, Hpath, Hc. go_simpl.
  split; intros Hlock; [lock_held Hlock | lock_free Hlock].
Qed.

End NodeLocks.

Section NodeLockDiscipline.

Context {C H : Type} {gce : GCECompute C} {nh : NodeHost H} {hp : Helpers}.

(** C9.  Scoped acquisition of the volume lock by the node operations.
    Each of NodeStageVolume, NodeUnstageVolume, NodePublishVolume and
    NodeUnpublishVolume, on a request that carries its required fields,
    fails with Aborted when TryAcquire on the volume identifier fails;
    when TryAcquire succeeds, Release is called once, after it, on every
    way out of the operation, with or without an error, so that the
    identifier is not held once the operation has returned. *)
Theorem node_operations_scoped_lock :
  (forall req : NodeStageVolumeRequest.t,
     NodeStageVolumeRequest.VolumeId req <> "" ->
     NodeStageVolumeRequest.StagingTargetPath req <> "" ->
     NodeStageVolumeRequest.VolumeCapability_ req <> None ->
     scopedLock (C:=C) (H:=H) (NodeStageVolume req)
       (NodeStageVolumeRequest.VolumeId req)) /\
  (forall req : NodeUnstageVolumeRequest.t,
     NodeUnstageVolumeRequest.VolumeId req <> "" ->
     NodeUnstageVolumeRequest.StagingTargetPath req <> "" ->
     scopedLock (C:=C) (H:=H) (NodeUnstageVolume req)
       (NodeUnstageVolumeRequest.VolumeId req)) /\
  (forall req : NodePublishVolumeRequest.t,
     NodePublishVolumeRequest.VolumeId req <> "" ->
     NodePublishVolumeRequest.StagingTargetPath req <> "" ->
     NodePublishVolumeRequest.TargetPath req <> "" ->
     NodePublishVolumeRequest.VolumeCapability_ req <> None ->
     scopedLock (C:=C) (H:=H) (NodePublishVolume req)
       (NodePublishVolumeRequest.VolumeId req)) /\
  (forall req : NodeUnpublishVolumeRequest.t,
     NodeUnpublishVolumeRequest.VolumeId req <> "" ->
     NodeUnpublishVolumeRequest.TargetPath req <> "" ->
     scopedLock (C:=C) (H:=H) (NodeUnpublishVolume req)
       (NodeUnpublishVolumeRequest.VolumeId req)).
Proof.
  split; [exact NodeStageVolume_scopedLock|].
  split; [exact NodeUnstageVolume_scopedLock|].
  split; [exact NodePublishVolume_scopedLock | exact NodeUnpublishVolume_scopedLock].
Qed.

End NodeLockDiscipline.

Lemma node_operations_scoped_lock_witness :
  (* the lock is held: Aborted *)
  fst (NodeStageVolume Examples.stageRequest
         (Examples.nodeWorld {[ "zone-a/d1" ]} (Examples.hostD1 [] "" None)))
  = Err (status_Error Aborted) /\
  fst (NodeUnstageVolume Examples.unstageRequest
         (Examples.nodeWorld {[ "zone-a/d1" ]} (Examples.hostD1 [] "" None)))
  = Err (status_Error Aborted) /\
  fst (NodePublishVolume Examples.nodePublishRequest
         (Examples.nodeWorld {[ "zone-a/d1" ]} (Examples.hostD1 [] "" None)))
  = Err (status_Error Aborted) /\
  fst (NodeUnpublishVolume Examples.unpublishRequest
         (Examples.nodeWorld {[ "zone-a/d1" ]} (Examples.hostD1 [] "" None)))
  = Err (status_Error Aborted) /\
  (* the lock is free and the mount fails: released *)
  (let '(r, w) := NodePublishVolume Examples.nodePublishRequest
                    (Examples.nodeWorld {[ "zone-a/d2" ]}
                       (Examples.hostD1 [] "" (Some (os_Error "EIO")))) in
   r = Err (status_Error Internal) /\
   lockCalls w = [Call_TryAcquire "zone-a/d1" true; Call_Release "zone-a/d1"] /\
   "zone-a/d1" ∉ volumeLocks w) /\
  (* the lock is free and the operation succeeds: released *)
  (let '(r, w) := NodeStageVolume Examples.stageRequest
                    (Examples.nodeWorld ∅ (Examples.hostD1 [] "" None)) in
   r = Ok NodeStageVolumeResponse_empty /\
   lockCalls w = [Call_TryAcquire "zone-a/d1" true; Call_Release "zone-a/d1"] /\
   "zone-a/d1" ∉ volumeLocks w).
Proof.
  destruct (node_operations_scoped_lock (C:=Fake.Cloud) (H:=Fake.Host))
    as (Hstage & Hunstage & Hpublish & Hunpublish).
  assert ("zone-a/d1" ∈ ({[ "zone-a/d1" ]} : gset string)) as Hheld
    by (apply elem_of_singleton; reflexivity).
  assert ("zone-a/d1" ∉ ({[ "zone-a/d2" ]} : gset string)) as Hother
    by (rewrite elem_of_singleton; discriminate).
  assert ("zone-a/d1" ∉ (∅ : gset string)) as Hfree
    by apply not_elem_of_empty.
  split.
  { destruct (Hstage Examples.stageRequest ltac:(discriminate) ltac:(discriminate)
                ltac:(discriminate)
                (Examples.nodeWorld {[ "zone-a/d1" ]} (Examples.hostD1 [] "" None)))
      as (Hbusy & _).
    rewrite (Hbusy Hheld). reflexivity. }
  split.
  { destruct (Hunstage Examples.unstageRequest ltac:(discriminate) ltac:(discriminate)
                (Examples.nodeWorld {[ "zone-a/d1" ]} (Examples.hostD1 [] "" None)))
      as (Hbusy & _).
    rewrite (Hbusy Hheld). reflexivity. }
  split.
  { destruct (Hpublish Examples.nodePublishRequest ltac:(discriminate)
                ltac:(discriminate) ltac:(discriminate) ltac:(discriminate)
                (Examples.nodeWorld {[ "zone-a/d1" ]} (Examples.hostD1 [] "" None)))
      as (Hbusy & _).
    rewrite (Hbusy Hheld). reflexivity. }
  split.
  { destruct (Hunpublish Examples.unpublishRequest ltac:(discriminate)
                ltac:(discriminate)
                (Examples.nodeWorld {[ "zone-a/d1" ]} (Examples.hostD1 [] "" None)))
      as (Hbusy & _).
    rewrite (Hbusy Hheld). reflexivity. }
  split.
  { destruct (Hpublish Examples.nodePublishRequest ltac:(discriminate)
                ltac:(discriminate) ltac:(discriminate) ltac:(discriminate)
                (Examples.nodeWorld {[ "zone-a/d2" ]}
                   (Examples.hostD1 [] "" (Some (os_Error "EIO")))))
      as (_ & Hidle).
    destruct (Hidle Hother) as (Hlog & _ & Hreleased).
    destruct (NodePublishVolume _ _) as [r w] eqn:Hrun.
    split; [|split; [exact Hlog | exact Hreleased]].
    change r with (fst (r, w)). rewrite <- Hrun. vm_compute. reflexivity. }
  destruct (Hstage Examples.stageRequest ltac:(discriminate) ltac:(discriminate)
              ltac:(discriminate)
              (Examples.nodeWorld ∅ (Examples.hostD1 [] "" None)))
    as (_ & Hidle).
  destruct (Hidle Hfree) as (Hlog & _ & Hreleased).
  destruct (NodeStageVolume _ _) as [r w] eqn:Hrun.
  split; [|split; [exact Hlog | exact Hreleased]].
  change r with (fst (r, w)). rewrite <- Hrun. vm_compute. reflexivity.
Defined.

(** * Further properties of the services *)

(** ** Who is refused, and who does not ask *)

Section Serialization.

Context {C H : Type} {gce : GCECompute C} {nh : NodeHost H} {hp : Helpers}.

Ltac aborted_only_if_held :=
  match goal with
  | |- context [bool_decide (?id ∈ ?vl)] =>
      destruct (bool_decide (id ∈ vl)) eqn:Hheld;
      [ intros _; apply bool_decide_eq_true in Hheld; exact Hheld | ]
  end;
  go_run; go_simpl; intros Habs; discriminate Habs.

Ltac missing_field := go_simpl; intros Habs; discriminate Habs.

(** X1.  A node operation fails with Aborted only for a volume whose lock
    is held: with the lock free, none of NodeStageVolume,
    NodeUnstageVolume, NodePublishVolume and NodeUnpublishVolume returns
    Aborted, whatever the request and whatever the host does. *)
Theorem node_operations_aborted_only_if_held (w : World C H) :
  (forall req : NodeStageVolumeRequest.t,
     fst (NodeStageVolume req w) = Err (status_Error Aborted) ->
     NodeStageVolumeRequest.VolumeId req ∈ volumeLocks w) /\
  (forall req : NodeUnstageVolumeRequest.t,
     fst (NodeUnstageVolume req w) = Err (status_Error Aborted) ->
     NodeUnstageVolumeRequest.VolumeId req ∈ volumeLocks w) /\
  (forall req : NodePublishVolumeRequest.t,
     fst (NodePublishVolume req w) = Err (status_Error Aborted) ->
     NodePublishVolumeRequest.VolumeId req ∈ volumeLocks w) /\
  (forall req : NodeUnpublishVolumeRequest.t,
     fst (NodeUnpublishVolume req w) = Err (status_Error Aborted) ->
     NodeUnpublishVolumeRequest.VolumeId req ∈ volumeLocks w).
Proof.
  split; [|split; [|split]]; intros req.
  - unfold NodeStageVolume, getDevicePath. go_unfold. unfold VolumeLocks.TryAcquire.
    destruct (len0 (NodeStageVolumeRequest.VolumeId req)); [missing_field|].
    destruct (len0 (NodeStageVolumeRequest.StagingTargetPath req)); [missing_field|].
    destruct (NodeStageVolumeRequest.VolumeCapability_ req) as [cap|];
      [|missing_field].
    go_simpl. aborted_only_if_held.
  - unfold NodeUnstageVolume. go_unfold. unfold VolumeLocks.TryAcquire.
    destruct (len0 (NodeUnstageVolumeRequest.VolumeId req)); [missing_field|].
    destruct (len0 (NodeUnstageVolumeRequest.StagingTargetPath req)); [missing_field|].
    go_simpl. aborted_only_if_held.
  - unfold NodePublishVolume, getDevicePath. go_unfold. unfold VolumeLocks.TryAcquire.
    destruct (len0 (NodePublishVolumeRequest.VolumeId req)); [missing_field|].
    destruct (len0 (NodePublishVolumeRequest.StagingTargetPath req)); [missing_field|].
    destruct (len0 (NodePublishVolumeRequest.TargetPath req)); [missing_field|].
    destruct (NodePublishVolumeRequest.VolumeCapability_ req) as [cap|];
      [|missing_field].
    go_simpl. aborted_only_if_held.
  - unfold NodeUnpublishVolume. go_unfold. unfold VolumeLocks.TryAcquire.
    destruct (len0 (NodeUnpublishVolumeRequest.VolumeId req)); [missing_field|].
    destruct (len0 (NodeUnpublishVolumeRequest.TargetPath req)); [missing_field|].
    go_simpl. aborted_only_if_held.
Qed.

(** X2.  NodeExpandVolume is not serialized with the other node
    operations: it makes no call on the lock registry and leaves it as it
    found it, its outcome is the same whichever identifiers are held, the
    one of its own volume included, and it never fails with Aborted. *)
Theorem NodeExpandVolume_not_serialized (req : NodeExpandVolumeRequest.t)
    (w : World C H) :
  volumeLocks (snd (NodeExpandVolume req w)) = volumeLocks w /\
  lockCalls (snd (NodeExpandVolume req w)) = lockCalls w /\
  fst (NodeExpandVolume req w) <> Err (status_Error Aborted) /\
  (forall (locks : gset string) (calls : list LockCall),
     NodeExpandVolume req (withLocks locks calls w)
     = (fst (NodeExpandVolume req w),
        withLocks locks calls (snd (NodeExpandVolume req w)))).
Proof.
  unfold NodeExpandVolume, getDevicePath, getBlockSizeBytes. go_unfold.
  repeat split; try (intros locks calls); go_run; go_simpl;
    try reflexivity; discriminate.
Qed.

(** X3.  DeleteVolume and ControllerPublishVolume, like CreateVolume,
    take no lock: they make no call on the lock registry, leave it and
    the host as they found them, and their outcome and their requests to
    the cloud are the same whichever identifiers are held. *)
Theorem controller_operations_take_no_lock (w : World C H) :
  (forall req : DeleteVolumeRequest.t,
     volumeLocks (snd (DeleteVolume req w)) = volumeLocks w /\
     lockCalls (snd (DeleteVolume req w)) = lockCalls w /\
     host (snd (DeleteVolume req w)) = host w /\
     forall (locks : gset string) (calls : list LockCall),
       DeleteVolume req (withLocks locks calls w)
       = (fst (DeleteVolume req w), withLocks locks calls (snd (DeleteVolume req w)))) /\
  (forall req : ControllerPublishVolumeRequest.t,
     volumeLocks (snd (ControllerPublishVolume req w)) = volumeLocks w /\
     lockCalls (snd (ControllerPublishVolume req w)) = lockCalls w /\
     host (snd (ControllerPublishVolume req w)) = host w /\
     forall (locks : gset string) (calls : list LockCall),
       ControllerPublishVolume req (withLocks locks calls w)
       = (fst (ControllerPublishVolume req w),
          withLocks locks calls (snd (ControllerPublishVolume req w)))).
Proof.
  split; intros req.
  - unfold DeleteVolume. go_unfold.
    repeat split; try (intros locks calls); go_run; go_simpl; reflexivity.
  - unfold ControllerPublishVolume, diskIsAttachedAndCompatible. go_unfold.
    repeat split; try (intros locks calls); go_run; go_simpl; reflexivity.
Qed.

End Serialization.

(** ** More on CreateVolume *)

Lemma pickTopology_nonempty (rnd : nat) (top : TopologyRequirement.t) (z : string) :
  pickTopology rnd top = Ok z ->
  z <> "" /\
  exists t, In t (TopologyRequirement.Preferred top ++ TopologyRequirement.Requisite top)%list
            /\ Topology.Segments t = Some {[ common.TopologyKeyZone := z ]}.
Proof.
  intros Hz.
  destruct (TopologyRequirement.Preferred top) as [|p ps] eqn:Hp.
  - destruct (TopologyRequirement.Requisite top) as [|t0 ts] eqn:Hr.
    + unfold pickTopology in Hz. rewrite Hp, Hr in Hz. discriminate Hz.
    + destruct (pickTopology_requisite rnd top Hp) as (t & Hin & Heq);
        [rewrite Hr; discriminate|].
      rewrite Heq in Hz. apply zoneOfTopology_Ok in Hz as [Hseg Hne].
      split; [exact Hne|]. exists t. rewrite Hr in Hin. split; [exact Hin | exact Hseg].
  - rewrite (pickTopology_preferred rnd top p ps Hp) in Hz.
    apply zoneOfTopology_Ok in Hz as [Hseg Hne].
    split; [exact Hne|]. exists p. split; [left; reflexivity | exact Hseg].
Qed.

Section CreateMore.

Context {C H : Type} {gce : GCECompute C} {nh : NodeHost H} {hp : Helpers}.

Ltac sent_log :=
  cbn [fst snd cloudCalls]; rewrite <- ?app_assoc;
  first [reflexivity | symmetry; apply app_nil_r].

(** X4.  Whatever the cloud answers, one call of CreateVolume sends its
    requests to a single zone, sends at most one insert, and sends
    nothing but existence checks for the requested name and bounds, the
    insert of a disk with the requested name and a size of at least
    5 GB, and waits. *)
Theorem CreateVolume_requests (rnd : nat) (req : CreateVolumeRequest.t) (w : World C H) :
  exists (sent : list CloudCall) (zone : string),
    cloudCalls (snd (CreateVolume rnd req w)) = (cloudCalls w ++ sent)%list /\
    (length (List.filter is_InsertDisk sent) <= 1)%nat /\
    Forall (fun c => callZone c = zone) sent /\
    Forall (createRequestFor req) sent.
Proof.
  unfold CreateVolume. go_unfold. go_run. all: go_simpl.
  all: eexists; eexists; split; [sent_log|]; cbn [app List.filter is_InsertDisk length];
    (split; [lia|]);
    (split;
     repeat match goal with
            | |- Forall _ _ => constructor
            | |- createRequestFor _ _ =>
                unfold createRequestFor; cbn [Disk.Name Disk.SizeGb]
            | |- _ /\ _ => split
            | |- True => exact I
            | |- _ = _ => reflexivity
            | Hlt : (?a <? ?b) = false |- ?b <= ?a => apply Z.ltb_ge; exact Hlt
            | |- ?b <= ?b => apply Z.le_refl
            end).
  Unshelve. all: exact "".
Qed.

Lemma CreateVolume_parameters_accepts (kvs : list (string * string))
    (diskType configuredZone : string) (p : string * string) :
  CreateVolume_parameters kvs diskType configuredZone = Ok p ->
  forall k v, In (k, v) kvs -> acceptedKey k = true.
Proof.
  intros Hok k v Hin. destruct (acceptedKey k) eqn:Hk; [reflexivity|].
  assert (is_Err (CreateVolume_parameters kvs diskType configuredZone) = true) as Herr
    by (apply CreateVolume_parameters_rejects; exists k, v; split; assumption).
  rewrite Hok in Herr. discriminate Herr.
Qed.

(** What a successful CreateVolume has checked and what its response
    carries. *)
Lemma CreateVolume_response (rnd : nat) (req : CreateVolumeRequest.t) (w : World C H)
    (resp : CreateVolumeResponse.t) :
  fst (CreateVolume rnd req w) = Ok resp ->
  CreateVolumeRequest.Name req <> "" /\
  CreateVolumeRequest.VolumeCapabilities req <> [] /\
  getRequestCapacity (CreateVolumeRequest.CapacityRange_ req)
  = Ok (Volume.CapacityBytes (CreateVolumeResponse.Volume resp)) /\
  MinimumVolumeSizeInBytes <= Volume.CapacityBytes (CreateVolumeResponse.Volume resp) /\
  (forall k v : string,
     CreateVolumeRequest.Parameters req !! k = Some v -> acceptedKey k = true) /\
  exists zone : string,
    Volume.Id (CreateVolumeResponse.Volume resp)
    = (zone ++ "/" ++ CreateVolumeRequest.Name req)%string /\
    Volume.AccessibleTopology (CreateVolumeResponse.Volume resp)
    = [ {| Topology.Segments := Some {[ common.TopologyKeyZone := zone ]} |} ] /\
    (forall top : TopologyRequirement.t,
       CreateVolumeRequest.AccessibilityRequirements req = Some top ->
       pickTopology rnd top = Ok zone).
Proof.
  unfold CreateVolume. go_unfold.
  destruct (len0 (CreateVolumeRequest.Name req)) eqn:Hname;
    [go_simpl; intros Habs; discriminate Habs|].
  destruct (Nat.eqb (length (CreateVolumeRequest.VolumeCapabilities req)) 0) eqn:Hcaps;
    [go_simpl; intros Habs; discriminate Habs|].
  destruct (getRequestCapacity (CreateVolumeRequest.CapacityRange_ req))
    as [capBytes|] eqn:Hcap; [|go_simpl; intros Habs; discriminate Habs].
  destruct (CreateVolume_parameters _ _ _) as [[diskType paramZone]|] eqn:Hparams;
    [|go_simpl; intros Habs; discriminate Habs].
  apply len0_false in Hname.
  assert (CreateVolumeRequest.VolumeCapabilities req <> []) as Hne
    by (destruct (CreateVolumeRequest.VolumeCapabilities req); [discriminate | congruence]).
  pose proof (proj1 (getRequestCapacity_bounds _ _ Hcap)) as Hmin.
  assert (forall k v : string,
            CreateVolumeRequest.Parameters req !! k = Some v -> acceptedKey k = true)
    as Hkeys.
  { intros k v Hl. eapply (CreateVolume_parameters_accepts _ _ _ _ Hparams k v).
    apply list_elem_of_In, elem_of_map_to_list, Hl. }
  clear Hparams Hcaps.
  go_run; go_simpl; intros Hresp; try discriminate Hresp;
    injection Hresp as <-; cbn [CreateVolumeResponse.Volume Volume.CapacityBytes
                                Volume.Id Volume.AccessibleTopology];
    (split; [exact Hname|]); (split; [exact Hne|]); (split; [reflexivity|]);
    (split; [exact Hmin|]); (split; [exact Hkeys|]);
    eexists; (split; [reflexivity|]); (split; [reflexivity|]);
    intros top Htop; try discriminate Htop; injection Htop as <-;
    try assumption;
    match goal with
    | Hpick : pickTopology _ _ = Ok ?z, Hz : len0 ?z = true |- _ =>
        exfalso; apply pickTopology_nonempty in Hpick as [Hnz _];
        apply len0_true in Hz; contradiction
    end.
Qed.

(** X5.  What a successful CreateVolume has checked and what it
    returns.  The request has a name and a capability, every parameter
    key is one the loop lets through, and the response carries the
    capacity resolved from the range, at least 5 GiB; its identifier is
    zone/name for one zone, the only zone of its accessible topology, and
    that zone is the one picked from the accessibility requirements when
    the request has them. *)
Theorem CreateVolume_success (rnd : nat) (req : CreateVolumeRequest.t) (w : World C H)
    (resp : CreateVolumeResponse.t) :
  fst (CreateVolume rnd req w) = Ok resp ->
  CreateVolumeRequest.Name req <> "" /\
  CreateVolumeRequest.VolumeCapabilities req <> [] /\
  getRequestCapacity (CreateVolumeRequest.CapacityRange_ req)
  = Ok (Volume.CapacityBytes (CreateVolumeResponse.Volume resp)) /\
  MinimumVolumeSizeInBytes <= Volume.CapacityBytes (CreateVolumeResponse.Volume resp) /\
  (forall k v : string,
     CreateVolumeRequest.Parameters req !! k = Some v -> acceptedKey k = true) /\
  exists zone : string,
    Volume.Id (CreateVolumeResponse.Volume resp)
    = (zone ++ "/" ++ CreateVolumeRequest.Name req)%string /\
    Volume.AccessibleTopology (CreateVolumeResponse.Volume resp)
    = [ {| Topology.Segments := Some {[ common.TopologyKeyZone := zone ]} |} ] /\
    (forall top : TopologyRequirement.t,
       CreateVolumeRequest.AccessibilityRequirements req = Some top ->
       pickTopology rnd top = Ok zone).
Proof.
  exact (CreateVolume_response rnd req w resp).
Qed.

(** X6.  CreateVolume rejects a request with InvalidArgument before
    anything is sent to the cloud when the name is empty, when no
    capability is given, when the capacity range is invalid, when a
    parameter key is not let through, and, for a request with
    accessibility requirements, when the parameters also name a zone or
    when no zone can be picked from the requirements. *)
Theorem CreateVolume_rejects_before_cloud (rnd : nat) (req : CreateVolumeRequest.t)
    (w : World C H) :
  CreateVolumeRequest.Name req = "" \/
  CreateVolumeRequest.VolumeCapabilities req = [] \/
  is_Err (getRequestCapacity (CreateVolumeRequest.CapacityRange_ req)) = true \/
  (exists k v : string,
     CreateVolumeRequest.Parameters req !! k = Some v /\ acceptedKey k = false) \/
  (exists (top : TopologyRequirement.t) (diskType paramZone : string),
     CreateVolumeRequest.AccessibilityRequirements req = Some top /\
     CreateVolume_parameters (map_to_list (CreateVolumeRequest.Parameters req))
       "pd-standard" "" = Ok (diskType, paramZone) /\
     (paramZone <> "" \/ is_Err (pickTopology rnd top) = true)) ->
  CreateVolume rnd req w = (Err (status_Error InvalidArgument), w).
Proof.
  intros Hbad. unfold CreateVolume. go_unfold.
  destruct (len0 (CreateVolumeRequest.Name req)) eqn:Hname; [reflexivity|].
  destruct Hbad as [Hn|Hbad]; [apply len0_true in Hn; congruence|].
  destruct (CreateVolumeRequest.VolumeCapabilities req) as [|c0 cs] eqn:Hcaps;
    [reflexivity|].
  destruct Hbad as [Hn|Hbad]; [discriminate Hn|]. cbn [length Nat.eqb].
  destruct (getRequestCapacity _) as [capBytes|]; [|reflexivity].
  destruct Hbad as [Hn|Hbad]; [discriminate Hn|].
  destruct (CreateVolume_parameters _ _ _) as [[diskType paramZone]|e] eqn:Hparams;
    [|apply CreateVolume_parameters_Err in Hparams as ->; reflexivity].
  destruct Hbad as [(k & v & Hl & Hk)|(top & dt & pz & Htop & Hp & Hz)].
  - exfalso.
    assert (acceptedKey k = true) as Hacc.
    { eapply (CreateVolume_parameters_accepts _ _ _ _ Hparams k v).
      apply list_elem_of_In, elem_of_map_to_list, Hl. }
    congruence.
  - injection Hp as <- <-. rewrite Htop. go_simpl.
    destruct (len0 paramZone) eqn:Hpz; cbn [negb]; [|reflexivity].
    destruct Hz as [Hz|Hz]; [apply len0_true in Hpz; contradiction|].
    destruct (pickTopology rnd top); [discriminate Hz | reflexivity].
Qed.

(** X7.  The accessible topology of a created volume leads back to its
    zone: offered as the preferred topologies of a later request, it
    makes pickTopology choose the zone of the volume's identifier. *)
Theorem CreateVolume_topology_round_trip (rnd : nat) (req : CreateVolumeRequest.t)
    (w : World C H) (resp : CreateVolumeResponse.t)
    (rnd' : nat) (requisite : list Topology.t) (zone : string) :
  fst (CreateVolume rnd req w) = Ok resp ->
  pickTopology rnd'
    {| TopologyRequirement.Requisite := requisite;
       TopologyRequirement.Preferred :=
         Volume.AccessibleTopology (CreateVolumeResponse.Volume resp) |}
  = Ok zone ->
  Volume.Id (CreateVolumeResponse.Volume resp)
  = (zone ++ "/" ++ CreateVolumeRequest.Name req)%string.
Proof.
  intros Hok Hpick.
  destruct (CreateVolume_response rnd req w resp Hok)
    as (_ & _ & _ & _ & _ & z & Hid & Htop & _).
  rewrite Htop in Hpick.
  erewrite pickTopology_preferred in Hpick by reflexivity.
  apply zoneOfTopology_Ok in Hpick as [Hseg _]. cbn [Topology.Segments] in Hseg.
  apply (inj Some) in Hseg.
  apply (f_equal (fun m : gmap string string => m !! common.TopologyKeyZone)) in Hseg.
  rewrite !lookup_singleton_eq in Hseg. apply (inj Some) in Hseg. subst z. exact Hid.
Qed.

End CreateMore.

(** ** More on ControllerPublishVolume *)

(** X8.  diskIsAttached, which ControllerUnpublishVolume consults, and
    diskIsAttachedAndCompatible, which ControllerPublishVolume consults,
    agree on whether a disk is attached: both look for an entry of the
    instance with the disk's name as device name; the second reports an
    incompatibility only for an attached disk whose mode differs. *)
Theorem diskIsAttached_agrees (volume : Disk.t) (instance : Instance.t)
    (volumeCapability : option VolumeCapability.t) (readWrite : string) :
  fst (diskIsAttachedAndCompatible volume instance volumeCapability readWrite)
  = diskIsAttached volume instance /\
  (diskIsAttached volume instance = true <->
   exists ad, In ad (Instance.Disks instance) /\
              AttachedDisk.DeviceName ad = Disk.Name volume) /\
  (snd (diskIsAttachedAndCompatible volume instance volumeCapability readWrite) <> None ->
   exists ad, attachmentOf volume instance = Some ad /\
              AttachedDisk.Mode ad <> readWrite).
Proof.
  unfold diskIsAttachedAndCompatible, diskIsAttached, attachmentOf.
  induction (Instance.Disks instance) as [|ad ads (IH1 & IH2 & IH3)]; cbn.
  - split; [reflexivity|]. split.
    + split; [discriminate | intros (ad & [] & _)].
    + intros Habs. contradiction.
  - destruct (String.eqb_spec (AttachedDisk.DeviceName ad) (Disk.Name volume))
      as [Heq|Hne].
    + destruct (String.eqb_spec (AttachedDisk.Mode ad) readWrite) as [Hm|Hm]; cbn.
      * split; [reflexivity|]. split.
        -- split; [intros _; exists ad; split; [left; reflexivity | exact Heq]
                  | reflexivity].
        -- intros Habs. contradiction.
      * split; [reflexivity|]. split.
        -- split; [intros _; exists ad; split; [left; reflexivity | exact Heq]
                  | reflexivity].
        -- intros _. exists ad. split; [reflexivity | exact Hm].
    + split; [exact IH1|]. split.
      * rewrite IH2. split.
        -- intros (ad' & Hin & Hname). exists ad'. split; [right; exact Hin | exact Hname].
        -- intros (ad' & [<-|Hin] & Hname); [contradiction|].
           exists ad'. split; assumption.
      * exact IH3.
Qed.

Section PublishMore.

Context {C H : Type} {gce : GCECompute C} {nh : NodeHost H} {hp : Helpers}.

(** X9.  The failures of ControllerPublishVolume before any attachment.
    A request without identifier, node or capability fails with
    InvalidArgument, and an identifier that does not decode with
    NotFound, both before anything is sent to the cloud.  An error of the
    disk look-up comes back unchanged.  An error of the instance look-up
    is NotFound if the cloud reports the instance not found and Internal
    otherwise. *)
Theorem ControllerPublishVolume_errors (req : ControllerPublishVolumeRequest.t)
    (w : World C H) :
  (ControllerPublishVolumeRequest.VolumeId req = "" \/
   ControllerPublishVolumeRequest.NodeId req = "" \/
   ControllerPublishVolumeRequest.VolumeCapability_ req = None ->
   ControllerPublishVolume req w = (Err (status_Error InvalidArgument), w)) /\
  (ControllerPublishVolumeRequest.VolumeId req <> "" ->
   ControllerPublishVolumeRequest.NodeId req <> "" ->
   ControllerPublishVolumeRequest.VolumeCapability_ req <> None ->
   (is_Err (SplitZoneNameId (ControllerPublishVolumeRequest.VolumeId req)) = true ->
    ControllerPublishVolume req w = (Err (status_Error NotFound), w)) /\
   (forall zone name : string,
      SplitZoneNameId (ControllerPublishVolumeRequest.VolumeId req) = Ok (zone, name) ->
      (forall (e : error) (c1 : C),
         GetDiskOrError zone name (cloud w) = (Err e, c1) ->
         ControllerPublishVolume req w
         = (Err e, cloudAfter w c1 [Call_GetDiskOrError zone name])) /\
      (forall (disk : Disk.t) (e : error) (c1 c2 : C),
         GetDiskOrError zone name (cloud w) = (Ok disk, c1) ->
         GetInstanceOrError zone (ControllerPublishVolumeRequest.NodeId req) c1
         = (Err e, c2) ->
         ControllerPublishVolume req w
         = (Err (status_Error (if IsGCEError e "notFound" then NotFound else Internal)),
            cloudAfter w c2
              [Call_GetDiskOrError zone name;
               Call_GetInstanceOrError zone
                 (ControllerPublishVolumeRequest.NodeId req)])))).
Proof.
  unfold ControllerPublishVolume, cloudAfter. go_unfold. split.
  - intros Hmissing.
    destruct (len0 (ControllerPublishVolumeRequest.VolumeId req)) eqn:Hid;
      [reflexivity|].
    destruct Hmissing as [Hm|Hmissing]; [apply len0_true in Hm; congruence|].
    destruct (len0 (ControllerPublishVolumeRequest.NodeId req)) eqn:Hnode;
      [reflexivity|].
    destruct Hmissing as [Hm|Hm]; [apply len0_true in Hm; congruence|].
    rewrite Hm. reflexivity.
  - intros Hid Hnode Hcap. apply len0_false in Hid, Hnode.
    assert (is_nil (ControllerPublishVolumeRequest.VolumeCapability_ req) = false) as Hnil
      by (destruct (ControllerPublishVolumeRequest.VolumeCapability_ req);
          [reflexivity | contradiction]).
    rewrite Hid, Hnode, Hnil. go_simpl. split.
    + destruct (SplitZoneNameId _); [discriminate | reflexivity].
    + intros zone name ->. go_simpl. split.
      * intros e c1 ->. reflexivity.
      * intros disk e c1 c2 -> . go_simpl. intros ->. go_simpl.
        destruct (IsGCEError e "notFound"); go_simpl; rewrite <- app_assoc; reflexivity.
Qed.

Ltac sent_log' :=
  cbn [fst snd cloudCalls]; rewrite <- ?app_assoc;
  first [reflexivity | symmetry; apply app_nil_r].

(** X10.  Whatever the cloud answers, one call of ControllerPublishVolume
    sends its requests to a single zone, sends at most one attach
    request, and sends nothing but look-ups of the disk and of the
    instance of the request, an attachment to the node of the request
    that is persistent and has the mode of the read-only flag, and
    waits. *)
Theorem ControllerPublishVolume_requests (req : ControllerPublishVolumeRequest.t)
    (w : World C H) :
  exists (sent : list CloudCall) (zone : string),
    cloudCalls (snd (ControllerPublishVolume req w)) = (cloudCalls w ++ sent)%list /\
    (length (List.filter is_AttachDisk sent) <= 1)%nat /\
    Forall (fun c => callZone c = zone) sent /\
    Forall (publishRequestFor req) sent.
Proof.
  unfold ControllerPublishVolume. go_unfold. go_run. all: go_simpl.
  all: eexists; eexists; split; [sent_log'|]; cbn [app List.filter is_AttachDisk length];
    (split; [lia|]);
    (split;
     repeat match goal with
            | |- Forall _ _ => constructor
            | |- publishRequestFor _ _ =>
                unfold publishRequestFor;
                cbn [AttachedDisk.Mode AttachedDisk.Type_]
            | Hro : ControllerPublishVolumeRequest.Readonly ?r = _
              |- context [ControllerPublishVolumeRequest.Readonly ?r] => rewrite Hro
            | |- _ /\ _ => split
            | |- True => exact I
            | |- _ = _ => reflexivity
            end).
  Unshelve. all: exact "".
Qed.

End PublishMore.

(** ** More on capacity resolution *)

(** X11.  A resolved capacity is a fixed point of the resolution: asked
    for again as the required size, under the same limit, it resolves to
    itself.  So the capacity that CreateVolume reports is accepted
    unchanged by a later call that requires it. *)
Theorem getRequestCapacity_fixed_point (r l n : Z) :
  getRequestCapacity (Some {| RequiredBytes := r; LimitBytes := l |}) = Ok n ->
  getRequestCapacity (Some {| RequiredBytes := n; LimitBytes := l |}) = Ok n.
Proof.
  rewrite !getRequestCapacity_cases, MinimumVolumeSizeInBytes_eq.
  destruct (Z.ltb_spec 0 l), (Z.ltb_spec 0 r), (Z.ltb_spec l r),
    (Z.ltb_spec l (5 * 2 ^ 30)); cbn [andb]; intros [= <-];
    repeat match goal with
           | |- context [?a <? ?b] => destruct (Z.ltb_spec a b); cbn [andb]
           end;
    try (f_equal; lia); exfalso; lia.
Qed.

(** ** More on the node operations *)

Section NodeMore.

Context {C H : Type} {gce : GCECompute C} {nh : NodeHost H} {hp : Helpers}.

(** X12.  getDevicePath never gives an empty path.  A path that it
    returns is the one that VerifyDevicePath found among the candidate
    paths of the device name of the volume; an error is the decoding
    error of the identifier, unchanged, or a plain error; and nothing
    but the host is touched. *)
Theorem getDevicePath_result (volumeID partition : string) (w : World C H) :
  (forall p : string,
     fst (getDevicePath volumeID partition w) = Ok p ->
     p <> "" /\
     exists (key : VolumeKey.t) (deviceName : string),
       VolumeIDToKey volumeID = Ok key /\
       GetDeviceName key = Ok deviceName /\
       VerifyDevicePath (GetDiskByIdPaths deviceName partition) (host w)
       = (Ok p, host (snd (getDevicePath volumeID partition w)))) /\
  (forall e : error,
     fst (getDevicePath volumeID partition w) = Err e ->
     e = fmt_Errorf \/ VolumeIDToKey volumeID = Err e) /\
  snd (getDevicePath volumeID partition w)
  = withHost (host (snd (getDevicePath volumeID partition w))) w.
Proof.
  unfold getDevicePath, withHost. go_unfold.
  destruct (VolumeIDToKey volumeID) as [key|e0] eqn:Hkey; go_simpl.
  2: { split; [intros p Hp; discriminate Hp|]. split.
       - intros e [= <-]. right. reflexivity.
       - destruct w; reflexivity. }
  destruct (GetDeviceName key) as [deviceName|e1] eqn:Hname; go_simpl.
  2: { split; [intros p Hp; discriminate Hp|]. split.
       - intros e [= <-]. left. reflexivity.
       - destruct w; reflexivity. }
  destruct (VerifyDevicePath (GetDiskByIdPaths deviceName partition) (host w))
    as [[p|e2] h1] eqn:Hverify; go_simpl.
  2: { split; [intros p Hp; discriminate Hp|]. split.
       - intros e [= <-]. left. reflexivity.
       - reflexivity. }
  destruct (String.eqb_spec p "") as [->|Hne]; go_simpl.
  - split; [intros p Hp; discriminate Hp|]. split.
    + intros e [= <-]. left. reflexivity.
    + reflexivity.
  - split.
    + intros p' [= <-]. split; [exact Hne|]. exists key, deviceName. auto.
    + split; [intros e He; discriminate He | reflexivity].
Qed.

(** X13.  NodeStageVolume on a staging path that is already a mount
    point, and NodeStageVolume for a block capability once the staging
    path is known not to be one, succeed without formatting or mounting:
    the host is left as the probe of the staging path left it.  The
    request has its required fields and a valid capability, its lock is
    free and its device path resolves. *)
Theorem NodeStageVolume_no_mount (req : NodeStageVolumeRequest.t) (w : World C H)
    (cap : VolumeCapability.t) (key : VolumeKey.t) (deviceName devicePath : string)
    (h1 h2 : H) (notMnt : bool) :
  NodeStageVolumeRequest.VolumeId req <> "" ->
  NodeStageVolumeRequest.StagingTargetPath req <> "" ->
  NodeStageVolumeRequest.VolumeCapability_ req = Some cap ->
  NodeStageVolumeRequest.VolumeId req ∉ volumeLocks w ->
  validateVolumeCapability cap = None ->
  VolumeIDToKey (NodeStageVolumeRequest.VolumeId req) = Ok key ->
  GetDeviceName key = Ok deviceName ->
  VerifyDevicePath
    (GetDiskByIdPaths deviceName
       (match NodeStageVolumeRequest.VolumeContext req
              !! common.VolumeAttributePartition with
        | Some part => part
        | None => ""
        end)) (host w) = (Ok devicePath, h1) ->
  devicePath <> "" ->
  IsLikelyNotMountPoint (NodeStageVolumeRequest.StagingTargetPath req) h1
  = ((notMnt, None), h2) ->
  notMnt = false \/
  (VolumeCapability.GetMount cap = None /\ VolumeCapability.GetBlock cap = true) ->
  fst (NodeStageVolume req w) = Ok NodeStageVolumeResponse_empty /\
  host (snd (NodeStageVolume req w)) = h2.
Proof.
  intros Hid Hpath Hcap Hfree Hvalid Hkey Hname Hverify Hdev Hprobe Hcase.
  apply len0_false in Hid, Hpath. apply String.eqb_neq in Hdev.
  unfold NodeStageVolume, getDevicePath. go_unfold. unfold VolumeLocks.TryAcquire.
  rewrite Hid, Hpath, Hcap, (bool_decide_eq_false_2 _ Hfree). go_simpl.
  rewrite Hvalid, Hkey. go_simpl. rewrite Hname. go_simpl. rewrite Hverify. go_simpl.
  rewrite Hdev. go_simpl. rewrite Hprobe. go_simpl.
  destruct Hcase as [->|[Hmnt Hblk]].
  - go_simpl. split; reflexivity.
  - destruct notMnt; go_simpl; [|split; reflexivity].
    rewrite Hmnt, Hblk. go_simpl. split; reflexivity.
Qed.

(** X14.  NodeStageVolume for a mount capability on a staging path that
    is not a mount point formats and mounts the device at the staging
    path, with the file system type of the capability, ext4 if it names
    none, and with the mount flags of the capability alone; the call
    succeeds if that succeeds and fails with Internal if it fails.  When
    the staging path does not exist it is created first. *)
Theorem NodeStageVolume_mount (req : NodeStageVolumeRequest.t) (w : World C H)
    (cap : VolumeCapability.t) (mnt : VolumeCapability.MountVolume)
    (key : VolumeKey.t) (deviceName devicePath : string)
    (h1 h2 h3 h4 : H) (notMnt : bool) (err mkdirErr mountErr : option error) :
  NodeStageVolumeRequest.VolumeId req <> "" ->
  NodeStageVolumeRequest.StagingTargetPath req <> "" ->
  NodeStageVolumeRequest.VolumeCapability_ req = Some cap ->
  NodeStageVolumeRequest.VolumeId req ∉ volumeLocks w ->
  validateVolumeCapability cap = None ->
  VolumeIDToKey (NodeStageVolumeRequest.VolumeId req) = Ok key ->
  GetDeviceName key = Ok deviceName ->
  VerifyDevicePath
    (GetDiskByIdPaths deviceName
       (match NodeStageVolumeRequest.VolumeContext req
              !! common.VolumeAttributePartition with
        | Some part => part
        | None => ""
        end)) (host w) = (Ok devicePath, h1) ->
  devicePath <> "" ->
  VolumeCapability.GetMount cap = Some mnt ->
  IsLikelyNotMountPoint (NodeStageVolumeRequest.StagingTargetPath req) h1
  = ((notMnt, err), h2) ->
  (* the staging path is there and is not a mount point, or it is missing
     and gets created *)
  (err = None /\ notMnt = true /\ h3 = h2) \/
  (exists e, err = Some e /\ os_IsNotExist e = true /\
             MakeDir (NodeStageVolumeRequest.StagingTargetPath req) h2 = (None, h3)) ->
  FormatAndMount devicePath (NodeStageVolumeRequest.StagingTargetPath req)
    (if String.eqb (VolumeCapability.FsType mnt) "" then "ext4"
     else VolumeCapability.FsType mnt)
    (VolumeCapability.MountFlags mnt) h3 = (mountErr, h4) ->
  fst (NodeStageVolume req w)
  = (match mountErr with
     | None => Ok NodeStageVolumeResponse_empty
     | Some _ => Err (status_Error Internal)
     end) /\
  host (snd (NodeStageVolume req w)) = h4.
Proof.
  intros Hid Hpath Hcap Hfree Hvalid Hkey Hname Hverify Hdev Hmnt Hprobe Hcase Hmount.
  apply len0_false in Hid, Hpath. apply String.eqb_neq in Hdev.
  unfold NodeStageVolume, getDevicePath. go_unfold. unfold VolumeLocks.TryAcquire.
  rewrite Hid, Hpath, Hcap, (bool_decide_eq_false_2 _ Hfree). go_simpl.
  rewrite Hvalid, Hkey. go_simpl. rewrite Hname. go_simpl. rewrite Hverify. go_simpl.
  rewrite Hdev. go_simpl. rewrite Hprobe. go_simpl.
  destruct Hcase as [(-> & -> & ->)|(e & -> & He & Hmk)].
  - go_simpl. rewrite Hmnt. go_simpl.
    destruct (String.eqb (VolumeCapability.FsType mnt) ""); cbn [negb app];
      rewrite Hmount; destruct mountErr; go_simpl; split; reflexivity.
  - rewrite He. go_simpl. rewrite Hmk. go_simpl. rewrite Hmnt. go_simpl.
    destruct (String.eqb (VolumeCapability.FsType mnt) ""); cbn [negb app];
      rewrite Hmount; destruct mountErr; go_simpl; split; reflexivity.
Qed.

(** X15.  NodePublishVolume for a mount capability.  On a target path
    that already is a mount point the call succeeds and leaves the host
    as the probe left it.  Otherwise it creates the target directory and
    bind-mounts the staging path on the target, with the file system
    type of the capability, ext4 if it names none, and with the options
    bind, then ro for a read-only request, then the mount flags of the
    capability; the call succeeds if the mount succeeds and fails with
    Internal, whatever the clean-up does, if the mount fails. *)
Theorem NodePublishVolume_mount (req : NodePublishVolumeRequest.t) (w : World C H)
    (cap : VolumeCapability.t) (mnt : VolumeCapability.MountVolume)
    (h1 : H) (notMnt : bool) (err : option error) :
  NodePublishVolumeRequest.VolumeId req <> "" ->
  NodePublishVolumeRequest.StagingTargetPath req <> "" ->
  NodePublishVolumeRequest.TargetPath req <> "" ->
  NodePublishVolumeRequest.VolumeCapability_ req = Some cap ->
  NodePublishVolumeRequest.VolumeId req ∉ volumeLocks w ->
  validateVolumeCapability cap = None ->
  VolumeCapability.GetMount cap = Some mnt ->
  IsLikelyNotMountPoint (NodePublishVolumeRequest.TargetPath req) (host w)
  = ((notMnt, err), h1) ->
  (err = None \/ exists e, err = Some e /\ os_IsNotExist e = true) ->
  (notMnt = false ->
   fst (NodePublishVolume req w) = Ok NodePublishVolumeResponse_empty /\
   host (snd (NodePublishVolume req w)) = h1) /\
  (notMnt = true ->
   forall (h2 h3 : H) (mountErr : option error),
     MakeDir (NodePublishVolumeRequest.TargetPath req) h1 = (None, h2) ->
     Mount_ (NodePublishVolumeRequest.StagingTargetPath req)
       (NodePublishVolumeRequest.TargetPath req)
       (if String.eqb (VolumeCapability.FsType mnt) "" then "ext4"
        else VolumeCapability.FsType mnt)
       ("bind" :: (if NodePublishVolumeRequest.Readonly req then ["ro"] else [])
               ++ VolumeCapability.MountFlags mnt)%list h2
     = (mountErr, h3) ->
     match mountErr with
     | None =>
         fst (NodePublishVolume req w) = Ok NodePublishVolumeResponse_empty /\
         host (snd (NodePublishVolume req w)) = h3
     | Some _ => fst (NodePublishVolume req w) = Err (status_Error Internal)
     end).
Proof.
  intros Hid Hstaging Htarget Hcap Hfree Hvalid Hmnt Hprobe Herr.
  apply len0_false in Hid, Hstaging, Htarget.
  unfold NodePublishVolume, getDevicePath. go_unfold. unfold VolumeLocks.TryAcquire.
  rewrite Hid, Hstaging, Htarget, Hcap, (bool_decide_eq_false_2 _ Hfree). go_simpl.
  rewrite Hvalid. go_simpl. rewrite Hprobe. go_simpl.
  assert (match err with Some e => negb (os_IsNotExist e) | None => false end = false)
    as Hgo by (destruct Herr as [->|(e & -> & ->)]; reflexivity).
  rewrite Hgo. go_simpl. split.
  - intros ->. go_simpl. split; reflexivity.
  - intros -> h2 h3 mountErr Hmk Hmount. go_simpl. rewrite Hmnt. go_simpl.
    rewrite Hmk. go_simpl.
    destruct (String.eqb (VolumeCapability.FsType mnt) "");
      destruct (NodePublishVolumeRequest.Readonly req); cbn [negb app] in *;
      rewrite Hmount; destruct mountErr; go_simpl;
      try (split; reflexivity); go_run; go_simpl; reflexivity.
Qed.

(** X16.  NodePublishVolume for a block capability on a target path
    that is not a mount point.  The device path is resolved from the
    volume identifier, the staging path plays no part, a file is made at
    the target, and the device is bind-mounted on it with an empty file
    system type and with the options bind, then ro for a read-only
    request; the call succeeds if the mount succeeds and fails with
    Internal if it fails.  A capability that is neither mount nor block
    is InvalidArgument. *)
Theorem NodePublishVolume_block (req : NodePublishVolumeRequest.t) (w : World C H)
    (cap : VolumeCapability.t) (h1 : H) (err : option error) :
  NodePublishVolumeRequest.VolumeId req <> "" ->
  NodePublishVolumeRequest.StagingTargetPath req <> "" ->
  NodePublishVolumeRequest.TargetPath req <> "" ->
  NodePublishVolumeRequest.VolumeCapability_ req = Some cap ->
  NodePublishVolumeRequest.VolumeId req ∉ volumeLocks w ->
  validateVolumeCapability cap = None ->
  VolumeCapability.GetMount cap = None ->
  IsLikelyNotMountPoint (NodePublishVolumeRequest.TargetPath req) (host w)
  = ((true, err), h1) ->
  (err = None \/ exists e, err = Some e /\ os_IsNotExist e = true) ->
  (VolumeCapability.GetBlock cap = false ->
   fst (NodePublishVolume req w) = Err (status_Error InvalidArgument)) /\
  (VolumeCapability.GetBlock cap = true ->
   forall (key : VolumeKey.t) (deviceName devicePath : string) (h2 h3 h4 : H)
          (mountErr : option error),
     VolumeIDToKey (NodePublishVolumeRequest.VolumeId req) = Ok key ->
     GetDeviceName key = Ok deviceName ->
     VerifyDevicePath
       (GetDiskByIdPaths deviceName
          (match NodePublishVolumeRequest.VolumeContext req
                 !! common.VolumeAttributePartition with
           | Some part => part
           | None => ""
           end)) h1 = (Ok devicePath, h2) ->
     devicePath <> "" ->
     MakeFile (NodePublishVolumeRequest.TargetPath req) h2 = (None, h3) ->
     Mount_ devicePath (NodePublishVolumeRequest.TargetPath req) ""
       ("bind" :: (if NodePublishVolumeRequest.Readonly req then ["ro"] else [])) h3
     = (mountErr, h4) ->
     match mountErr with
     | None =>
         fst (NodePublishVolume req w) = Ok NodePublishVolumeResponse_empty /\
         host (snd (NodePublishVolume req w)) = h4
     | Some _ => fst (NodePublishVolume req w) = Err (status_Error Internal)
     end).
Proof.
  intros Hid Hstaging Htarget Hcap Hfree Hvalid Hmnt Hprobe Herr.
  apply len0_false in Hid, Hstaging, Htarget.
  unfold NodePublishVolume, getDevicePath. go_unfold. unfold VolumeLocks.TryAcquire.
  rewrite Hid, Hstaging, Htarget, Hcap, (bool_decide_eq_false_2 _ Hfree). go_simpl.
  rewrite Hvalid. go_simpl. rewrite Hprobe. go_simpl.
  assert (match err with Some e => negb (os_IsNotExist e) | None => false end = false)
    as Hgo by (destruct Herr as [->|(e & -> & ->)]; reflexivity).
  rewrite Hgo. go_simpl. rewrite Hmnt. split.
  - intros ->. go_simpl. reflexivity.
  - intros -> key deviceName devicePath h2 h3 h4 mountErr
      Hkey Hname Hverify Hdev Hfile Hmount.
    apply String.eqb_neq in Hdev.
    go_simpl. rewrite Hkey. go_simpl. rewrite Hname. go_simpl. rewrite Hverify.
    go_simpl. rewrite Hdev. go_simpl. rewrite Hfile. go_simpl.
    destruct (NodePublishVolumeRequest.Readonly req); cbn [app] in *;
      rewrite Hmount; destruct mountErr; go_simpl;
      try (split; reflexivity); go_run; go_simpl; reflexivity.
Qed.

End NodeMore.

(** ** The remaining operations of the controller *)

Section ControllerMore.

Context {C : Type} {gce : GCECompute C} {gcs : GCESnapshots C}
  {hp : Helpers} {mh : MoreHelpers}.

Ltac ctl_unfold := go_unfold; unfold send, controllerAfter in *.

Ltac ctl_simpl :=
  cbn beta iota zeta delta [fst snd CloudProvider vcap requests negb is_nil].

(** X17.  ControllerUnpublishVolume.  An error of the decoding of the
    identifier, of the disk look-up or of the instance look-up comes back
    unchanged, and nothing is detached.  If the disk is not attached to
    the instance the call succeeds without a detach request.  If it is
    attached the call sends one detach request for the name of the
    volume and waits for it; it succeeds if both succeed and fails with
    Internal otherwise. *)
Theorem ControllerUnpublishVolume_idempotent
    (req : ControllerUnpublishVolumeRequest.t) (s : Controller C) :
  ControllerUnpublishVolumeRequest.VolumeId req <> "" ->
  ControllerUnpublishVolumeRequest.NodeId req <> "" ->
  let nodeID := ControllerUnpublishVolumeRequest.NodeId req in
  (forall e : error,
     SplitZoneNameId (ControllerUnpublishVolumeRequest.VolumeId req) = Err e ->
     ControllerUnpublishVolume req s = (Err e, s)) /\
  (forall zone name : string,
     SplitZoneNameId (ControllerUnpublishVolumeRequest.VolumeId req) = Ok (zone, name) ->
     let getDisk := Req (Call_GetDiskOrError zone name) in
     let getInstance := Req (Call_GetInstanceOrError zone nodeID) in
     (forall (e : error) (c1 : C),
        GetDiskOrError zone name (CloudProvider s) = (Err e, c1) ->
        ControllerUnpublishVolume req s = (Err e, controllerAfter s c1 [getDisk])) /\
     (forall (disk : Disk.t) (c1 : C),
        GetDiskOrError zone name (CloudProvider s) = (Ok disk, c1) ->
        (forall (e : error) (c2 : C),
           GetInstanceOrError zone nodeID c1 = (Err e, c2) ->
           ControllerUnpublishVolume req s
           = (Err e, controllerAfter s c2 [getDisk; getInstance])) /\
        (forall (instance : Instance.t) (c2 : C),
           GetInstanceOrError zone nodeID c1 = (Ok instance, c2) ->
           (diskIsAttached disk instance = false ->
            ControllerUnpublishVolume req s
            = (Ok ControllerUnpublishVolumeResponse_empty,
               controllerAfter s c2 [getDisk; getInstance])) /\
           (diskIsAttached disk instance = true ->
            let detach := Req_DetachDisk zone nodeID name in
            (forall (e : error) (c3 : C),
               DetachDisk zone nodeID name c2 = (Err e, c3) ->
               ControllerUnpublishVolume req s
               = (Err (status_Error Internal),
                  controllerAfter s c3 [getDisk; getInstance; detach])) /\
            (forall (op : Operation.t) (c3 c4 : C) (werr : option error),
               DetachDisk zone nodeID name c2 = (Ok op, c3) ->
               WaitForOp op zone c3 = (werr, c4) ->
               ControllerUnpublishVolume req s
               = (match werr with
                  | None => Ok ControllerUnpublishVolumeResponse_empty
                  | Some _ => Err (status_Error Internal)
                  end,
                  controllerAfter s c4
                    [getDisk; getInstance; detach;
                     Req (Call_WaitForOp op zone)])))))).
Proof.
  intros Hid Hnode nodeID. subst nodeID. apply len0_false in Hid, Hnode.
  unfold ControllerUnpublishVolume. ctl_unfold. rewrite Hid, Hnode.
  ctl_simpl. split.
  - intros e ->. reflexivity.
  - intros zone name ->. ctl_simpl. split.
    + intros e c1 ->. reflexivity.
    + intros disk c1 ->. ctl_simpl. split.
      * intros e c2 ->. ctl_simpl. rewrite <- app_assoc. reflexivity.
      * intros instance c2 ->. ctl_simpl. split.
        -- intros ->. ctl_simpl. rewrite <- app_assoc. reflexivity.
        -- intros ->. ctl_simpl. split.
           ++ intros e c3 ->. ctl_simpl. rewrite <- !app_assoc. reflexivity.
           ++ intros op c3 c4 werr -> . ctl_simpl. intros ->.
              destruct werr; ctl_simpl; rewrite <- !app_assoc; reflexivity.
Qed.

(** X18.  DeleteSnapshot is lenient in the way of DeleteVolume.  Without
    an identifier it fails with InvalidArgument and sends nothing.  When
    the delete request fails, the call fails with FailedPrecondition if
    the cloud reports the snapshot in use, succeeds if it reports it not
    found, and fails with Internal on any other error; an error of the
    wait that follows an accepted delete is Internal. *)
Theorem DeleteSnapshot_lenient (req : DeleteSnapshotRequest.t) (s : Controller C) :
  (DeleteSnapshotRequest.SnapshotId req = "" ->
   DeleteSnapshot req s = (Err (status_Error InvalidArgument), s)) /\
  (DeleteSnapshotRequest.SnapshotId req <> "" ->
   let id := DeleteSnapshotRequest.SnapshotId req in
   (forall (err : error) (c1 : C),
      CloudProvider_DeleteSnapshot id (CloudProvider s) = (Err err, c1) ->
      let s1 := controllerAfter s c1 [Req_DeleteSnapshot id] in
      (IsGCEError err "resourceInUseByAnotherResource" = true ->
       DeleteSnapshot req s = (Err (status_Error FailedPrecondition), s1)) /\
      (IsGCEError err "resourceInUseByAnotherResource" = false ->
       IsGCEError err "notFound" = true ->
       DeleteSnapshot req s = (Ok DeleteSnapshotResponse_empty, s1)) /\
      (IsGCEError err "resourceInUseByAnotherResource" = false ->
       IsGCEError err "notFound" = false ->
       DeleteSnapshot req s = (Err (status_Error Internal), s1))) /\
   (forall (op : Operation.t) (c1 c2 : C) (werr : option error),
      CloudProvider_DeleteSnapshot id (CloudProvider s) = (Ok op, c1) ->
      WaitForGlobalOp op c1 = (werr, c2) ->
      DeleteSnapshot req s
      = (match werr with
         | None => Ok DeleteSnapshotResponse_empty
         | Some _ => Err (status_Error Internal)
         end,
         controllerAfter s c2 [Req_DeleteSnapshot id; Req_WaitForGlobalOp op]))).
Proof.
  unfold DeleteSnapshot. ctl_unfold. split.
  - intros Hid. apply len0_true in Hid. rewrite Hid. reflexivity.
  - intros Hid. apply len0_false in Hid. rewrite Hid. ctl_simpl. split.
    + intros err c1 ->. ctl_simpl.
      repeat split; intros;
        repeat match goal with Heq : IsGCEError _ _ = _ |- _ =>
          rewrite Heq; clear Heq end; reflexivity.
    + intros op c1 c2 werr ->. ctl_simpl. intros ->.
      destruct werr; ctl_simpl; rewrite <- app_assoc; reflexivity.
Qed.

(** X19.  CreateSnapshot.  A source volume whose zone is not the zone of
    the driver is refused with a plain error before anything is sent to
    the cloud.  Otherwise, when the cloud accepts the create request or
    reports that the snapshot already exists, the call goes on to fetch
    the snapshot by the requested name and, on success, returns its name
    as identifier, its creation time, and its status, READY for a
    snapshot that the cloud reports READY and also for one that it
    reports DELETING. *)
Theorem CreateSnapshot_reuses (req : CreateSnapshotRequest.t) (s : Controller C)
    (zone disk : string) :
  utils_SplitZoneNameId (CreateSnapshotRequest.SourceVolumeId req) = Ok (zone, disk) ->
  (zone <> GetZone (CloudProvider s) ->
   CreateSnapshot req s = (Err fmt_Errorf, s)) /\
  (zone = GetZone (CloudProvider s) ->
   let name := CreateSnapshotRequest.Name req in
   let snapshotToCreate :=
     {| Snapshot.Name := name; Snapshot.Status := "";
        Snapshot.CreationTimestamp := "" |} in
   forall (r : result Operation.t) (c1 c2 : C) (snapshot : Snapshot.t) (t : Z),
     CloudProvider_CreateSnapshot zone disk snapshotToCreate (CloudProvider s)
     = (r, c1) ->
     (match r with
      | Ok _ => True
      | Err err => IsGCEError err "alreadyExists" = true
      end) ->
     WaitAndGetSnapshot name c1 = (Ok snapshot, c2) ->
     time_Parse_RFC3339 (Snapshot.CreationTimestamp snapshot) = Ok t ->
     CreateSnapshot req s
     = (Ok {| CsiSnapshot.Id := Snapshot.Name snapshot;
              CsiSnapshot.CreatedAt := t;
              CsiSnapshot.Status := CreateSnapshot_status (Snapshot.Status snapshot) |},
        controllerAfter s c2
          [Req_CreateSnapshot zone disk snapshotToCreate;
           Req_WaitAndGetSnapshot name]) /\
     (Snapshot.Status snapshot = "READY" \/ Snapshot.Status snapshot = "DELETING" ->
      CreateSnapshot_status (Snapshot.Status snapshot) = SnapshotStatus_READY)).
Proof.
  intros Hsplit. unfold CreateSnapshot. ctl_unfold. rewrite Hsplit. ctl_simpl. split.
  - intros Hz. apply String.eqb_neq in Hz. rewrite Hz. reflexivity.
  - intros Hz r c1 c2 snapshot t Hcreate Hr Hget Htime.
    apply String.eqb_eq in Hz. rewrite Hz. ctl_simpl.
    rewrite Hcreate. ctl_simpl. split.
    + destruct r as [op|err]; [|rewrite Hr]; ctl_simpl; rewrite Hget; ctl_simpl;
        rewrite Htime; ctl_simpl; rewrite <- app_assoc; reflexivity.
    + intros [->| ->]; reflexivity.
Qed.

(** X20.  ListSnapshots.  Without a snapshot identifier the call is
    Unimplemented and sends nothing.  With one, an error of the look-up
    comes back unchanged; a snapshot that is found gives exactly one
    entry, with the name of the snapshot, with the time of the call, not
    the creation time of the snapshot, and with a status that is the one
    CreateSnapshot reports for the same snapshot unless the cloud reports
    it DELETING, which is listed as UNKNOWN. *)
Theorem ListSnapshots_single_entry (now : Z) (req : ListSnapshotsRequest.t)
    (s : Controller C) :
  (ListSnapshotsRequest.SnapshotId req = "" ->
   ListSnapshots now req s = (Err (status_Error Unimplemented), s)) /\
  (ListSnapshotsRequest.SnapshotId req <> "" ->
   let id := ListSnapshotsRequest.SnapshotId req in
   (forall (e : error) (c1 : C),
      GetSnapshotOrError id (CloudProvider s) = (Err e, c1) ->
      ListSnapshots now req s = (Err e, controllerAfter s c1 [Req_GetSnapshotOrError id])) /\
   (forall (snapshot : Snapshot.t) (c1 : C),
      GetSnapshotOrError id (CloudProvider s) = (Ok snapshot, c1) ->
      ListSnapshots now req s
      = (Ok {| ListSnapshotsResponse.Entries :=
                 [ {| CsiSnapshot.Id := Snapshot.Name snapshot;
                      CsiSnapshot.CreatedAt := now;
                      CsiSnapshot.Status :=
                        ListSnapshots_status (Snapshot.Status snapshot) |} ] |},
         controllerAfter s c1 [Req_GetSnapshotOrError id]) /\
      (Snapshot.Status snapshot <> "DELETING" ->
       ListSnapshots_status (Snapshot.Status snapshot)
       = CreateSnapshot_status (Snapshot.Status snapshot)) /\
      (Snapshot.Status snapshot = "DELETING" ->
       ListSnapshots_status (Snapshot.Status snapshot) = SnapshotStatus_UNKNOWN /\
       CreateSnapshot_status (Snapshot.Status snapshot) = SnapshotStatus_READY))).
Proof.
  unfold ListSnapshots. ctl_unfold. split.
  - intros ->. reflexivity.
  - intros Hid. apply String.eqb_neq in Hid. rewrite Hid. ctl_simpl. split.
    + intros e c1 ->. reflexivity.
    + intros snapshot c1 ->. ctl_simpl. split; [reflexivity|]. split.
      * intros Hst. apply String.eqb_neq in Hst.
        unfold ListSnapshots_status, CreateSnapshot_status. rewrite Hst.
        reflexivity.
      * intros ->. split; reflexivity.
Qed.

End ControllerMore.

(** ** ValidateVolumeCapabilities *)

Lemma ValidateVolumeCapabilities_modes_supported
    (supported : list nat) (caps : list ControllerCapability.t) :
  modesSupported supported caps ->
  ValidateVolumeCapabilities_modes supported caps = None.
Proof.
  induction 1 as [|c rest (mode & Hmode & Hin) _ IH]; cbn; [reflexivity|].
  rewrite Hmode.
  assert (existsb (Nat.eqb mode) supported = true) as Hfound.
  { apply existsb_exists. exists mode. split; [exact Hin | apply Nat.eqb_refl]. }
  rewrite Hfound. exact IH.
Qed.

Lemma ValidateVolumeCapabilities_modes_unsupported
    (supported : list nat) (caps : list ControllerCapability.t) :
  Forall (fun c => ControllerCapability.AccessMode c <> None) caps ->
  ~ modesSupported supported caps ->
  ValidateVolumeCapabilities_modes supported caps
  = Some (Returned (Some {| ValidateVolumeCapabilitiesResponse.Supported := false |},
                    Some (status_Error InvalidArgument))).
Proof.
  induction 1 as [|c rest Hc _ IH]; intros Hnot.
  - exfalso. apply Hnot. constructor.
  - cbn. destruct (ControllerCapability.AccessMode c) as [mode|] eqn:Hmode;
      [|exfalso; apply Hc; reflexivity].
    destruct (existsb (Nat.eqb mode) supported) eqn:Hfound; [|reflexivity].
    apply IH. intros Hrest. apply Hnot. constructor; [|exact Hrest].
    exists mode. split; [exact Hmode|].
    apply existsb_exists in Hfound. destruct Hfound as (m' & Hin & Heq).
    apply Nat.eqb_eq in Heq. subst m'. exact Hin.
Qed.

Lemma ValidateVolumeCapabilities_modes_panics
    (supported : list nat) (pre : list ControllerCapability.t)
    (c : ControllerCapability.t) (post : list ControllerCapability.t) :
  modesSupported supported pre ->
  ControllerCapability.AccessMode c = None ->
  ValidateVolumeCapabilities_modes supported (pre ++ c :: post) = Some Panicked.
Proof.
  intros Hpre Hc. induction Hpre as [|c0 rest (mode & Hmode & Hin) _ IH]; cbn.
  - rewrite Hc. reflexivity.
  - rewrite Hmode.
    assert (existsb (Nat.eqb mode) supported = true) as Hfound.
    { apply existsb_exists. exists mode. split; [exact Hin | apply Nat.eqb_refl]. }
    rewrite Hfound. exact IH.
Qed.

Section ValidateMore.

Context {C : Type} {gce : GCECompute C} {gcs : GCESnapshots C}
  {hp : Helpers} {mh : MoreHelpers}.

Ltac ctl_unfold := go_unfold; unfold send, controllerAfter in *.

Ltac ctl_simpl :=
  cbn beta iota zeta delta [fst snd CloudProvider vcap requests negb is_nil].

(** X21.  The verdict of ValidateVolumeCapabilities for a volume whose
    disk the cloud finds.  A capability without access mode, after
    capabilities with supported modes, makes the call panic.  If every
    capability has a mode and one of them is not among the modes of the
    driver, the call returns both a response, with Supported false, and
    an InvalidArgument error.  If all modes are supported, the first
    entry of the first topology decides, and the topologies after it are
    not read: for a topology with the single segment k = v the volume is
    supported exactly if k is the zone key and v is the zone of the
    volume identifier, any other key being InvalidArgument; without
    topologies the volume is supported. *)
Theorem ValidateVolumeCapabilities_verdict
    (req : ValidateVolumeCapabilitiesRequest.t) (s : Controller C)
    (z n : string) (disk : Disk.t) (c1 : C) :
  ValidateVolumeCapabilitiesRequest.VolumeCapabilities req <> [] ->
  ValidateVolumeCapabilitiesRequest.VolumeId req <> "" ->
  SplitZoneNameId (ValidateVolumeCapabilitiesRequest.VolumeId req) = Ok (z, n) ->
  GetDiskOrError z n (CloudProvider s) = (Ok disk, c1) ->
  let caps := ValidateVolumeCapabilitiesRequest.VolumeCapabilities req in
  let s1 := controllerAfter s c1 [Req (Call_GetDiskOrError z n)] in
  let answer (supported : bool) :=
    Returned (Some {| ValidateVolumeCapabilitiesResponse.Supported := supported |},
              @None error) in
  (forall (pre : list ControllerCapability.t) (c : ControllerCapability.t)
          (post : list ControllerCapability.t),
     caps = (pre ++ c :: post)%list ->
     modesSupported (vcap s) pre ->
     ControllerCapability.AccessMode c = None ->
     ValidateVolumeCapabilities req s = (Panicked, s1)) /\
  (Forall (fun c => ControllerCapability.AccessMode c <> None) caps ->
   ~ modesSupported (vcap s) caps ->
   ValidateVolumeCapabilities req s
   = (Returned (Some {| ValidateVolumeCapabilitiesResponse.Supported := false |},
                Some (status_Error InvalidArgument)), s1)) /\
  (modesSupported (vcap s) caps ->
   (ValidateVolumeCapabilitiesRequest.AccessibleTopology req = [] ->
    ValidateVolumeCapabilities req s = (answer true, s1)) /\
   (forall (k v : string) (rest : list Topology.t),
      ValidateVolumeCapabilitiesRequest.AccessibleTopology req
      = {| Topology.Segments := Some {[ k := v ]} |} :: rest ->
      ValidateVolumeCapabilities req s
      = (if String.eqb k common.TopologyKeyZone
         then answer (String.eqb v z)
         else Returned (None, Some (status_Error InvalidArgument)),
         s1))).
Proof.
  intros Hcaps Hid Hsplit Hdisk caps s1 answer. subst caps s1 answer.
  apply len0_false in Hid.
  assert (Nat.eqb (length (ValidateVolumeCapabilitiesRequest.VolumeCapabilities req)) 0
          = false) as Hlen.
  { destruct (ValidateVolumeCapabilitiesRequest.VolumeCapabilities req);
      [exfalso; apply Hcaps; reflexivity | reflexivity]. }
  unfold ValidateVolumeCapabilities. ctl_unfold. rewrite Hlen, Hid, Hsplit.
  ctl_simpl. rewrite Hdisk. ctl_simpl. split; [|split].
  - intros pre c post -> Hpre Hc.
    rewrite (ValidateVolumeCapabilities_modes_panics _ _ _ post Hpre Hc).
    reflexivity.
  - intros Hmodes Hnot.
    rewrite (ValidateVolumeCapabilities_modes_unsupported _ _ Hmodes Hnot).
    reflexivity.
  - intros Hsup. rewrite (ValidateVolumeCapabilities_modes_supported _ _ Hsup).
    ctl_simpl. split.
    + intros ->. reflexivity.
    + intros k v rest ->. cbn [ValidateVolumeCapabilities_topology Topology.Segments].
      rewrite map_to_list_singleton.
      destruct (String.eqb k common.TopologyKeyZone); [|reflexivity].
      destruct (String.eqb v z); reflexivity.
Qed.

(** X22.  The refusals of ValidateVolumeCapabilities.  Without
    capabilities, or without a volume identifier, the call fails with
    InvalidArgument; an identifier that does not decode is NotFound;
    in all three cases nothing is sent to the cloud.  When the look-up of
    the disk fails the call fails with NotFound if the cloud reports the
    disk not found and with Internal otherwise.  No response comes with
    these errors. *)
Theorem ValidateVolumeCapabilities_refusals
    (req : ValidateVolumeCapabilitiesRequest.t) (s : Controller C) :
  (ValidateVolumeCapabilitiesRequest.VolumeCapabilities req = [] ->
   ValidateVolumeCapabilities req s
   = (Returned (None, Some (status_Error InvalidArgument)), s)) /\
  (ValidateVolumeCapabilitiesRequest.VolumeCapabilities req <> [] ->
   (ValidateVolumeCapabilitiesRequest.VolumeId req = "" ->
    ValidateVolumeCapabilities req s
    = (Returned (None, Some (status_Error InvalidArgument)), s)) /\
   (ValidateVolumeCapabilitiesRequest.VolumeId req <> "" ->
    (is_Err (SplitZoneNameId (ValidateVolumeCapabilitiesRequest.VolumeId req)) = true ->
     ValidateVolumeCapabilities req s
     = (Returned (None, Some (status_Error NotFound)), s)) /\
    (forall (z n : string) (e : error) (c1 : C),
       SplitZoneNameId (ValidateVolumeCapabilitiesRequest.VolumeId req) = Ok (z, n) ->
       GetDiskOrError z n (CloudProvider s) = (Err e, c1) ->
       ValidateVolumeCapabilities req s
       = (Returned (None,
                    Some (status_Error
                            (if IsGCEError e "notFound" then NotFound else Internal))),
          controllerAfter s c1 [Req (Call_GetDiskOrError z n)])))).
Proof.
  unfold ValidateVolumeCapabilities. ctl_unfold. split.
  - intros ->. reflexivity.
  - intros Hcaps.
    assert (Nat.eqb (length (ValidateVolumeCapabilitiesRequest.VolumeCapabilities req)) 0
            = false) as Hlen.
    { destruct (ValidateVolumeCapabilitiesRequest.VolumeCapabilities req);
        [exfalso; apply Hcaps; reflexivity | reflexivity]. }
    rewrite Hlen. ctl_simpl. split.
    + intros ->. reflexivity.
    + intros Hid. apply len0_false in Hid. rewrite Hid. ctl_simpl. split.
      * destruct (SplitZoneNameId _) as [[z n]|e]; [discriminate|]. reflexivity.
      * intros z n e c1 -> . ctl_simpl. intros ->. ctl_simpl.
        destruct (IsGCEError e "notFound"); reflexivity.
Qed.

End ValidateMore.

(** ** NodeUnstageVolume and NodeUnpublishVolume *)

Section NodeUnmount.

Context {C H : Type} {gce : GCECompute C} {nh : NodeHost H} {hp : Helpers}.

Ltac unmount_run Hfree Hclean :=
  go_unfold; unfold VolumeLocks.TryAcquire;
  rewrite (bool_decide_eq_false_2 _ Hfree); go_simpl;
  rewrite Hclean; go_simpl;
  match goal with
  | |- context [match ?err with Some _ => _ | None => _ end] => destruct err
  end; go_simpl; repeat split.

(** X23.  NodeUnstageVolume and NodeUnpublishVolume, for a volume whose
    lock is free, do one thing: they clean up the mount point at the
    staging path, respectively at the target path, of the request,
    without the extensive mount-point check.  The call succeeds if the
    clean-up succeeds and fails with Internal if it fails; the host is
    left as the clean-up left it and the cloud is not touched. *)
Theorem node_unmount_operations (w : World C H) (h1 : H) (err : option error) :
  (forall req : NodeUnstageVolumeRequest.t,
     NodeUnstageVolumeRequest.VolumeId req <> "" ->
     NodeUnstageVolumeRequest.StagingTargetPath req <> "" ->
     NodeUnstageVolumeRequest.VolumeId req ∉ volumeLocks w ->
     CleanupMountPoint (NodeUnstageVolumeRequest.StagingTargetPath req) false (host w)
     = (err, h1) ->
     fst (NodeUnstageVolume req w)
     = (match err with
        | None => Ok NodeUnstageVolumeResponse_empty
        | Some _ => Err (status_Error Internal)
        end) /\
     host (snd (NodeUnstageVolume req w)) = h1 /\
     cloud (snd (NodeUnstageVolume req w)) = cloud w /\
     cloudCalls (snd (NodeUnstageVolume req w)) = cloudCalls w) /\
  (forall req : NodeUnpublishVolumeRequest.t,
     NodeUnpublishVolumeRequest.VolumeId req <> "" ->
     NodeUnpublishVolumeRequest.TargetPath req <> "" ->
     NodeUnpublishVolumeRequest.VolumeId req ∉ volumeLocks w ->
     CleanupMountPoint (NodeUnpublishVolumeRequest.TargetPath req) false (host w)
     = (err, h1) ->
     fst (NodeUnpublishVolume req w)
     = (match err with
        | None => Ok NodeUnpublishVolumeResponse_empty
        | Some _ => Err (status_Error Internal)
        end) /\
     host (snd (NodeUnpublishVolume req w)) = h1 /\
     cloud (snd (NodeUnpublishVolume req w)) = cloud w /\
     cloudCalls (snd (NodeUnpublishVolume req w)) = cloudCalls w).
Proof.
  split.
  - intros req Hid Hpath Hfree Hclean. apply len0_false in Hid, Hpath.
    unfold NodeUnstageVolume. go_unfold. rewrite Hid, Hpath.
    unmount_run Hfree Hclean.
  - intros req Hid Hpath Hfree Hclean. apply len0_false in Hid, Hpath.
    unfold NodeUnpublishVolume. go_unfold. rewrite Hid, Hpath.
    unmount_run Hfree Hclean.
Qed.

End NodeUnmount.

(** ** NodeGetVolumeStats and NodeGetInfo *)

Lemma int64_small (z : Z) : - 2 ^ 63 <= z < 2 ^ 63 -> int64 z = z.
Proof.
  intros Hz. unfold int64. rewrite Z.mod_small; lia.
Qed.

Lemma strings_HasPrefix_spec (prefix s : string) :
  strings_HasPrefix s prefix = true <-> exists rest, s = (prefix ++ rest)%string.
Proof.
  unfold strings_HasPrefix. revert s.
  induction prefix as [|a prefix IH]; intros s.
  - split; [intros _; exists s; reflexivity | intros _; destruct s; reflexivity].
  - destruct s as [|b s]; cbn.
    + split; [discriminate | intros (rest & Hrest); discriminate Hrest].
    + destruct (ascii_dec a b) as [->|Hab].
      * rewrite IH. split.
        -- intros (rest & ->). exists rest. reflexivity.
        -- intros (rest & Hrest). injection Hrest as ->. exists rest. reflexivity.
      * split; [discriminate|].
        intros (rest & Hrest). injection Hrest as Heq _. exfalso. apply Hab.
        symmetry. exact Heq.
Qed.

Section NodeInfo.

Context {H M : Type} {hs : HostStat H} {ms : metadataservice.MetadataService M}
  {mh : MoreHelpers}.

(** X24.  NodeGetVolumeStats.  An empty volume path is InvalidArgument
    and a failure of statfs is Internal.  For a file system whose counts
    are consistent and whose size in bytes fits an int64, the response
    has two entries, bytes first and inodes second; the byte figures are
    the block counts times the block size, with the blocks not free
    counted as used, so that used and available never exceed the total;
    the inode figures add up exactly. *)
Theorem NodeGetVolumeStats_usage (req : NodeGetVolumeStatsRequest.t) (h : H) :
  (NodeGetVolumeStatsRequest.VolumePath req = "" ->
   NodeGetVolumeStats req h = Err (status_Error InvalidArgument)) /\
  (NodeGetVolumeStatsRequest.VolumePath req <> "" ->
   (forall e : error,
      unix_Statfs (NodeGetVolumeStatsRequest.VolumePath req) h = Err e ->
      NodeGetVolumeStats req h = Err (status_Error Internal)) /\
   (forall statfs : Statfs_t.t,
      unix_Statfs (NodeGetVolumeStatsRequest.VolumePath req) h = Ok statfs ->
      0 < Statfs_t.Bsize statfs < 2 ^ 63 ->
      0 <= Statfs_t.Bavail statfs <= Statfs_t.Bfree statfs ->
      Statfs_t.Bfree statfs <= Statfs_t.Blocks statfs ->
      Statfs_t.Blocks statfs * Statfs_t.Bsize statfs < 2 ^ 63 ->
      0 <= Statfs_t.Ffree statfs <= Statfs_t.Files statfs ->
      Statfs_t.Files statfs < 2 ^ 63 ->
      exists bytes inodes : VolumeUsage.t,
        NodeGetVolumeStats req h
        = Ok {| NodeGetVolumeStatsResponse.Usage := [bytes; inodes] |} /\
        VolumeUsage.Unit bytes = VolumeUsage_BYTES /\
        VolumeUsage.Total bytes = Statfs_t.Blocks statfs * Statfs_t.Bsize statfs /\
        VolumeUsage.Available bytes = Statfs_t.Bavail statfs * Statfs_t.Bsize statfs /\
        VolumeUsage.Used bytes
        = (Statfs_t.Blocks statfs - Statfs_t.Bfree statfs) * Statfs_t.Bsize statfs /\
        0 <= VolumeUsage.Used bytes /\
        VolumeUsage.Used bytes + VolumeUsage.Available bytes <= VolumeUsage.Total bytes /\
        VolumeUsage.Unit inodes = VolumeUsage_INODES /\
        VolumeUsage.Total inodes = Statfs_t.Files statfs /\
        VolumeUsage.Available inodes = Statfs_t.Ffree statfs /\
        0 <= VolumeUsage.Used inodes /\
        VolumeUsage.Used inodes + VolumeUsage.Available inodes
        = VolumeUsage.Total inodes)).
Proof.
  unfold NodeGetVolumeStats. split.
  - intros ->. reflexivity.
  - intros Hpath. apply len0_false in Hpath. rewrite Hpath. split.
    + intros e ->. reflexivity.
    + intros statfs -> Hbsize Hbavail Hbfree Hsize Hffree Hfiles.
      destruct statfs as [bsize blocks bfree bavail files ffree].
      cbn [Statfs_t.Bsize Statfs_t.Blocks Statfs_t.Bfree Statfs_t.Bavail
           Statfs_t.Files Statfs_t.Ffree] in *.
      assert (blocks < 2 ^ 63) as Hblocks by nia.
      assert (0 <= bavail * bsize <= blocks * bsize) as Hav by nia.
      assert (0 <= (blocks - bfree) * bsize <= blocks * bsize) as Hus by nia.
      rewrite !(int64_small bsize), !(int64_small blocks), !(int64_small bfree),
        !(int64_small bavail), !(int64_small files), !(int64_small ffree) by lia.
      rewrite (int64_small (blocks - bfree)) by lia.
      rewrite (int64_small (files - ffree)) by lia.
      rewrite !int64_small by lia.
      eexists _, _. split; [reflexivity|].
      cbn [VolumeUsage.Unit VolumeUsage.Total VolumeUsage.Available VolumeUsage.Used].
      repeat split; try lia; nia.
Qed.

End NodeInfo.

Section NodeIdentity.

Context {M : Type} {ms : metadataservice.MetadataService M} {mh : MoreHelpers}.

(** X25.  NodeGetInfo never fails.  The node identifier is made from
    the project, the zone and the name of the machine.  The volume limit
    is 127 for a machine type that begins with n1- or with custom-, and
    15 for every other machine type.  The accessible topology leads back
    to the zone of the node: offered as the preferred topology of a
    CreateVolume request it makes pickTopology choose that zone, and it
    is refused there if the node does not know its zone. *)
Theorem NodeGetInfo_reports (MetadataService : M) :
  let resp := fst (NodeGetInfo MetadataService) in
  let machineType := metadataservice.GetMachineType MetadataService in
  let zone := metadataservice.GetZone MetadataService in
  snd (NodeGetInfo MetadataService) = None /\
  NodeGetInfoResponse.NodeId resp
  = CreateNodeID (metadataservice.GetProject MetadataService) zone
      (metadataservice.GetName MetadataService) /\
  ((exists rest, machineType = ("n1-" ++ rest)%string) \/
   (exists rest, machineType = ("custom-" ++ rest)%string) ->
   NodeGetInfoResponse.MaxVolumesPerNode resp = 127) /\
  ((forall rest, machineType <> ("n1-" ++ rest)%string) ->
   (forall rest, machineType <> ("custom-" ++ rest)%string) ->
   NodeGetInfoResponse.MaxVolumesPerNode resp = 15) /\
  exists top : Topology.t,
    NodeGetInfoResponse.AccessibleTopology resp = Some top /\
    forall (rnd : nat) (requisite : list Topology.t),
      (zone <> "" ->
       pickTopology rnd {| TopologyRequirement.Requisite := requisite;
                           TopologyRequirement.Preferred := [top] |} = Ok zone) /\
      (zone = "" ->
       pickTopology rnd {| TopologyRequirement.Requisite := requisite;
                           TopologyRequirement.Preferred := [top] |} = Err fmt_Errorf).
Proof.
  intros resp machineType zone. subst resp.
  unfold NodeGetInfo, GetVolumeLimits. fold machineType zone.
  cbn [fst snd NodeGetInfoResponse.NodeId NodeGetInfoResponse.MaxVolumesPerNode
       NodeGetInfoResponse.AccessibleTopology].
  split; [reflexivity|]. split; [reflexivity|]. split; [|split].
  - intros [Hn1|Hcustom].
    + apply strings_HasPrefix_spec in Hn1. rewrite Hn1. reflexivity.
    + apply strings_HasPrefix_spec in Hcustom. rewrite Hcustom.
      rewrite orb_true_r. reflexivity.
  - intros Hn1 Hcustom.
    destruct (strings_HasPrefix machineType "n1-") eqn:H1.
    { apply strings_HasPrefix_spec in H1. destruct H1 as (rest & H1).
      exfalso. exact (Hn1 rest H1). }
    destruct (strings_HasPrefix machineType "custom-") eqn:H2.
    { apply strings_HasPrefix_spec in H2. destruct H2 as (rest & H2).
      exfalso. exact (Hcustom rest H2). }
    reflexivity.
  - eexists. split; [reflexivity|]. intros rnd requisite.
    unfold pickTopology.
    cbn [TopologyRequirement.Preferred TopologyRequirement.Requisite Topology.Segments].
    unfold getZoneFromSegment. rewrite map_to_list_singleton.
    cbn [getZoneFromSegment_range]. rewrite String.eqb_refl. split.
    + intros Hz. apply len0_false in Hz. rewrite Hz. reflexivity.
    + intros Hz. apply len0_true in Hz. rewrite Hz. reflexivity.
Qed.

End NodeIdentity.

(** ** The mounter for Windows *)

Section WindowsMounter.

Import CSIProxyMounter.

Context {P : Type} {px : CSIProxy P}.

Ltac px_unfold := go_unfold; unfold request, mounterAfter in *.

Ltac px_simpl :=
  cbn beta iota zeta delta [fst snd Clients Calls negb is_nil].

Ltac px_done := px_simpl; rewrite <- ?app_assoc; reflexivity.

(** X26.  FormatAndMount of the mounter for Windows.  The file system
    type and the options play no part.  The disk is partitioned, its
    volumes are listed, and only the first volume is used; with no volume
    the call panics.  The volume is formatted only if the proxy reports
    it not formatted, and is then mounted at the target.  The first
    request that fails ends the call with its error: after a failed
    format nothing is mounted. *)
Theorem FormatAndMount_first_volume (source target fstype : string)
    (options : list string) (m : t P) :
  FormatAndMount source target fstype options m = FormatAndMount source target "" [] m /\
  forall (perr : option error) (p1 : P),
    DiskClient_PartitionDisk source (Clients m) = (perr, p1) ->
    (perr <> None ->
     FormatAndMount source target fstype options m
     = (Returned perr, mounterAfter m p1 [Call_PartitionDisk source])) /\
    (perr = None ->
     forall (r : result (list string)) (p2 : P),
       VolumeClient_ListVolumesOnDisk source p1 = (r, p2) ->
       let listed := [Call_PartitionDisk source; Call_ListVolumesOnDisk source] in
       match r with
       | Err e =>
           FormatAndMount source target fstype options m
           = (Returned (Some e), mounterAfter m p2 listed)
       | Ok [] =>
           FormatAndMount source target fstype options m
           = (Panicked, mounterAfter m p2 listed)
       | Ok (volumeID :: _) =>
           forall (rf : result bool) (p3 : P),
             VolumeClient_IsVolumeFormatted volumeID p2 = (rf, p3) ->
             let probed := (listed ++ [Call_IsVolumeFormatted volumeID])%list in
             match rf with
             | Err e =>
                 FormatAndMount source target fstype options m
                 = (Returned (Some e), mounterAfter m p3 probed)
             | Ok true =>
                 forall (merr : option error) (p4 : P),
                   VolumeClient_MountVolume volumeID target p3 = (merr, p4) ->
                   FormatAndMount source target fstype options m
                   = (Returned merr,
                      mounterAfter m p4
                        (probed ++ [Call_MountVolume volumeID target]))
             | Ok false =>
                 forall (ferr : option error) (p4 : P),
                   VolumeClient_FormatVolume volumeID p3 = (ferr, p4) ->
                   match ferr with
                   | Some e =>
                       FormatAndMount source target fstype options m
                       = (Returned (Some e),
                          mounterAfter m p4 (probed ++ [Call_FormatVolume volumeID]))
                   | None =>
                       forall (merr : option error) (p5 : P),
                         VolumeClient_MountVolume volumeID target p4 = (merr, p5) ->
                         FormatAndMount source target fstype options m
                         = (Returned merr,
                            mounterAfter m p5
                              (probed ++ [Call_FormatVolume volumeID;
                                          Call_MountVolume volumeID target]))
                   end
             end
       end).
Proof.
  split; [reflexivity|].
  intros perr p1 Hpart. unfold FormatAndMount. px_unfold. rewrite Hpart. px_simpl.
  split.
  - intros Hperr. destruct perr as [e|]; [|exfalso; apply Hperr; reflexivity].
    reflexivity.
  - intros ->. px_simpl. intros r p2 ->. px_simpl.
    destruct r as [[|volumeID rest]|e]; [px_done | | px_done].
    px_simpl. intros rf p3 ->. px_simpl.
    destruct rf as [[|]|e]; [ | | px_done].
    + px_simpl. intros merr p4 ->. destruct merr; px_done.
    + px_simpl. intros ferr p4 ->. destruct ferr as [e|]; [px_done|].
      px_simpl. intros merr p5 ->. destruct merr; px_done.
Qed.

(** X27.  Mount of the mounter for Windows makes a link.  It creates the
    parent directory of the target and, only if that succeeds, asks the
    proxy to link the normalized target to the normalized source; the
    file system type and the options play no part.  The call fails with
    the error of the directory creation or of the request, unchanged, and
    also when the request succeeds but its response carries an error
    text. *)
Theorem Mount_links (source target fstype : string) (options : list string) (m : t P) :
  Mount source target fstype options m = Mount source target "" [] m /\
  forall (derr : option error) (p1 : P),
    os_MkdirAll (filepath_Dir target) (Clients m) = (derr, p1) ->
    let made := [Call_MkdirAll (filepath_Dir target)] in
    (derr <> None ->
     Mount source target fstype options m = (derr, mounterAfter m p1 made)) /\
    (derr = None ->
     forall (r : result string) (p2 : P),
       FsClient_LinkPath (NormalizeWindowsPath source) (NormalizeWindowsPath target) p1
       = (r, p2) ->
       Mount source target fstype options m
       = (match r with
          | Err e => Some e
          | Ok text => if String.eqb text "" then None else Some fmt_Errorf
          end,
          mounterAfter m p2
            (made ++ [Call_LinkPath (NormalizeWindowsPath source)
                        (NormalizeWindowsPath target)]))).
Proof.
  split; [reflexivity|].
  intros derr p1 Hdir. unfold Mount. px_unfold. rewrite Hdir. px_simpl. split.
  - intros Hderr. destruct derr as [e|]; [|exfalso; apply Hderr; reflexivity].
    reflexivity.
  - intros ->. px_simpl. intros r p2 ->. px_simpl.
    destruct r as [text|e]; [|px_done].
    px_simpl. destruct (String.eqb text ""); px_done.
Qed.

(** X28.  The probes of the mounter for Windows.  IsLikelyNotMountPoint
    looks at the error first: a failed request gives false with the
    error, an answered one the negation of the answer.  ExistsPath reads
    the response first: when the proxy gives no response the call panics
    instead of returning the error, and otherwise it returns the answer
    together with whatever error came with it.  ExistsPath asks for the
    normalized path, IsLikelyNotMountPoint for the path as given. *)
Theorem ExistsPath_reads_response_first (path : string) (m : t P) :
  (forall (r : result bool) (p1 : P),
     FsClient_IsMountPoint path (Clients m) = (r, p1) ->
     IsLikelyNotMountPoint path m
     = (match r with
        | Err e => (false, Some e)
        | Ok isMountPoint => (negb isMountPoint, None)
        end,
        mounterAfter m p1 [Call_IsMountPoint path])) /\
  (forall (response : option bool) (err : option error) (p1 : P),
     FsClient_PathExists (NormalizeWindowsPath path) (Clients m)
     = ((response, err), p1) ->
     ExistsPath path m
     = (match response with
        | None => Panicked
        | Some exists_ => Returned (exists_, err)
        end,
        mounterAfter m p1 [Call_PathExists (NormalizeWindowsPath path)])).
Proof.
  split.
  - intros r p1 Hr. unfold IsLikelyNotMountPoint. px_unfold. rewrite Hr. px_simpl.
    destruct r; px_done.
  - intros response err p1 Hr. unfold ExistsPath. px_unfold. rewrite Hr. px_simpl.
    destruct response; px_done.
Qed.

End WindowsMounter.
(** ** Instances of the further properties *)

Lemma node_operations_aborted_only_if_held_witness :
  "zone-a/d1"
  ∈ volumeLocks (Examples.nodeWorld {[ "zone-a/d1" ]} (Examples.hostD1 [] "" None)).
Proof.
  destruct (node_operations_aborted_only_if_held (C:=Fake.Cloud) (H:=Fake.Host)
              (nh:=Fake.host_NodeHost) (hp:=Fake.helpers)
              (Examples.nodeWorld {[ "zone-a/d1" ]} (Examples.hostD1 [] "" None)))
    as (Hstage & _).
  exact (Hstage Examples.stageRequest ltac:(vm_compute; reflexivity)).
Defined.

Lemma CreateVolume_success_witness :
  exists resp : CreateVolumeResponse.t,
    fst (CreateVolume 0%nat (Examples.requestD1 Examples.ssdParameters) Examples.world0)
    = Ok resp /\
    getRequestCapacity None = Ok (Volume.CapacityBytes (CreateVolumeResponse.Volume resp)) /\
    exists zone : string,
      Volume.Id (CreateVolumeResponse.Volume resp) = (zone ++ "/" ++ "d1")%string.
Proof.
  eexists. split; [vm_compute; reflexivity|].
  destruct (CreateVolume_success (C:=Fake.Cloud) (H:=Fake.Host)
              (gce:=Fake.cloud_GCECompute) (hp:=Fake.helpers) 0%nat
              (Examples.requestD1 Examples.ssdParameters) Examples.world0 _
              ltac:(vm_compute; reflexivity))
    as (_ & _ & Hcap & _ & _ & zone & Hid & _).
  split; [exact Hcap|]. exists zone. exact Hid.
Defined.

Lemma CreateVolume_rejects_before_cloud_witness :
  CreateVolume 0%nat (Fake.createRequest "" None ∅ None) Examples.world0
  = (Err (status_Error InvalidArgument), Examples.world0) /\
  CreateVolume 0%nat
    (Fake.createRequest "d1" (Some {| RequiredBytes := 10; LimitBytes := 5 |}) ∅ None)
    Examples.world0
  = (Err (status_Error InvalidArgument), Examples.world0).
Proof.
  split.
  - apply (CreateVolume_rejects_before_cloud (C:=Fake.Cloud) (H:=Fake.Host)).
    left. reflexivity.
  - apply (CreateVolume_rejects_before_cloud (C:=Fake.Cloud) (H:=Fake.Host)).
    right. right. left. reflexivity.
Defined.

Lemma CreateVolume_topology_round_trip_witness :
  exists resp : CreateVolumeResponse.t,
    fst (CreateVolume 0%nat (Examples.requestD1 ∅) Examples.world0) = Ok resp /\
    Volume.Id (CreateVolumeResponse.Volume resp) = "zone-a/d1".
Proof.
  eexists. split; [vm_compute; reflexivity|].
  apply (CreateVolume_topology_round_trip (C:=Fake.Cloud) (H:=Fake.Host)
           (gce:=Fake.cloud_GCECompute) (hp:=Fake.helpers) 0%nat
           (Examples.requestD1 ∅) Examples.world0 _ 7%nat [] "zone-a");
    vm_compute; reflexivity.
Defined.

Lemma diskIsAttached_agrees_witness :
  exists ad : AttachedDisk.t,
    attachmentOf Examples.diskD1
      {| Instance.Disks := [Examples.attachment "READ_ONLY"] |} = Some ad /\
    AttachedDisk.Mode ad <> "READ_WRITE".
Proof.
  destruct (diskIsAttached_agrees Examples.diskD1
              {| Instance.Disks := [Examples.attachment "READ_ONLY"] |}
              (Some Fake.mountCapability) "READ_WRITE")
    as (_ & _ & Hmode).
  exact (Hmode ltac:(discriminate)).
Defined.

Lemma ControllerPublishVolume_errors_witness :
  ControllerPublishVolume
    {| ControllerPublishVolumeRequest.VolumeId := "zone-a/d1";
       ControllerPublishVolumeRequest.NodeId := "";
       ControllerPublishVolumeRequest.VolumeCapability_ := Some Fake.mountCapability;
       ControllerPublishVolumeRequest.Readonly := false |} Examples.world0
  = (Err (status_Error InvalidArgument), Examples.world0) /\
  ControllerPublishVolume (Examples.publishRequest false) Examples.world0
  = (Err (googleapi_Error ["notFound"]),
     cloudAfter Examples.world0 Fake.emptyCloud [Call_GetDiskOrError "zone-a" "d1"]).
Proof.
  split.
  - destruct (ControllerPublishVolume_errors (C:=Fake.Cloud) (H:=Fake.Host)
                {| ControllerPublishVolumeRequest.VolumeId := "zone-a/d1";
                   ControllerPublishVolumeRequest.NodeId := "";
                   ControllerPublishVolumeRequest.VolumeCapability_ :=
                     Some Fake.mountCapability;
                   ControllerPublishVolumeRequest.Readonly := false |}
                Examples.world0) as (Hmissing & _).
    apply Hmissing. right. left. reflexivity.
  - destruct (ControllerPublishVolume_errors (C:=Fake.Cloud) (H:=Fake.Host)
                (Examples.publishRequest false) Examples.world0) as (_ & Hgiven).
    destruct (Hgiven ltac:(discriminate) ltac:(discriminate) ltac:(discriminate))
      as (_ & Hdecoded).
    destruct (Hdecoded "zone-a" "d1" eq_refl) as (Hdisk & _).
    exact (Hdisk (googleapi_Error ["notFound"]) Fake.emptyCloud eq_refl).
Defined.

Lemma getRequestCapacity_fixed_point_witness :
  getRequestCapacity (Some {| RequiredBytes := 5 * 2 ^ 30; LimitBytes := 0 |})
  = Ok (5 * 2 ^ 30).
Proof.
  exact (getRequestCapacity_fixed_point 1 0 (5 * 2 ^ 30) eq_refl).
Defined.

Lemma getDevicePath_result_witness :
  "/dev/disk/by-id/google-d1" <> "" /\
  exists (key : VolumeKey.t) (deviceName : string),
    VolumeIDToKey "zone-a/d1" = Ok key /\
    GetDeviceName key = Ok deviceName /\
    deviceName = "d1".
Proof.
  destruct (getDevicePath_result (C:=Fake.Cloud) (H:=Fake.Host)
              (nh:=Fake.host_NodeHost) (hp:=Fake.helpers) "zone-a/d1" ""
              (Examples.nodeWorld ∅ (Examples.hostD1 [] "" None)))
    as (Hfound & _ & _).
  destruct (Hfound "/dev/disk/by-id/google-d1" ltac:(vm_compute; reflexivity))
    as (Hne & key & deviceName & Hkey & Hname & _).
  split; [exact Hne|]. exists key, deviceName.
  split; [exact Hkey|]. split; [exact Hname|].
  injection Hkey as <-. injection Hname as <-. reflexivity.
Defined.

Lemma NodeStageVolume_no_mount_witness :
  fst (NodeStageVolume Examples.stageRequest
         (Examples.nodeWorld ∅ (Examples.hostD1 ["/staging/d1"] "" None)))
  = Ok NodeStageVolumeResponse_empty /\
  host (snd (NodeStageVolume Examples.stageRequest
               (Examples.nodeWorld ∅ (Examples.hostD1 ["/staging/d1"] "" None))))
  = Examples.hostD1 ["/staging/d1"] "" None.
Proof.
  apply (NodeStageVolume_no_mount (C:=Fake.Cloud) (H:=Fake.Host)
           (nh:=Fake.host_NodeHost) (hp:=Fake.helpers)
           Examples.stageRequest
           (Examples.nodeWorld ∅ (Examples.hostD1 ["/staging/d1"] "" None))
           Fake.mountCapability
           {| VolumeKey.Zone := "zone-a"; VolumeKey.Name := "d1" |}
           "d1" "/dev/disk/by-id/google-d1"
           (Examples.hostD1 ["/staging/d1"] "" None)
           (Examples.hostD1 ["/staging/d1"] "" None) false).
  - discriminate.
  - discriminate.
  - reflexivity.
  - apply not_elem_of_empty.
  - reflexivity.
  - reflexivity.
  - reflexivity.
  - vm_compute. reflexivity.
  - discriminate.
  - reflexivity.
  - left. reflexivity.
Defined.

Lemma NodeStageVolume_mount_witness :
  fst (NodeStageVolume Examples.stageRequest
         (Examples.nodeWorld ∅ (Examples.hostD1 [] "" None)))
  = Ok NodeStageVolumeResponse_empty /\
  host (snd (NodeStageVolume Examples.stageRequest
               (Examples.nodeWorld ∅ (Examples.hostD1 [] "" None))))
  = Examples.hostD1 ["/staging/d1"] "" None.
Proof.
  apply (NodeStageVolume_mount (C:=Fake.Cloud) (H:=Fake.Host)
           (nh:=Fake.host_NodeHost) (hp:=Fake.helpers)
           Examples.stageRequest
           (Examples.nodeWorld ∅ (Examples.hostD1 [] "" None))
           Fake.mountCapability
           {| VolumeCapability.FsType := ""; VolumeCapability.MountFlags := [] |}
           {| VolumeKey.Zone := "zone-a"; VolumeKey.Name := "d1" |}
           "d1" "/dev/disk/by-id/google-d1"
           (Examples.hostD1 [] "" None) (Examples.hostD1 [] "" None)
           (Examples.hostD1 [] "" None) (Examples.hostD1 ["/staging/d1"] "" None)
           true None None None).
  - discriminate.
  - discriminate.
  - reflexivity.
  - apply not_elem_of_empty.
  - reflexivity.
  - reflexivity.
  - reflexivity.
  - vm_compute. reflexivity.
  - discriminate.
  - reflexivity.
  - reflexivity.
  - left. split; [reflexivity | split; reflexivity].
  - reflexivity.
Defined.

Lemma NodePublishVolume_mount_witness :
  fst (NodePublishVolume Examples.nodePublishRequest
         (Examples.nodeWorld ∅ (Examples.hostD1 [] "" None)))
  = Ok NodePublishVolumeResponse_empty /\
  host (snd (NodePublishVolume Examples.nodePublishRequest
               (Examples.nodeWorld ∅ (Examples.hostD1 [] "" None))))
  = Examples.hostD1 ["/pods/p1/d1"] "" None.
Proof.
  destruct (NodePublishVolume_mount (C:=Fake.Cloud) (H:=Fake.Host)
              (nh:=Fake.host_NodeHost) (hp:=Fake.helpers)
              Examples.nodePublishRequest
              (Examples.nodeWorld ∅ (Examples.hostD1 [] "" None))
              Fake.mountCapability
              {| VolumeCapability.FsType := ""; VolumeCapability.MountFlags := [] |}
              (Examples.hostD1 [] "" None) true None
              ltac:(discriminate) ltac:(discriminate) ltac:(discriminate)
              eq_refl ltac:(apply not_elem_of_empty) eq_refl eq_refl eq_refl
              ltac:(left; reflexivity))
    as (_ & Hmount).
  exact (Hmount eq_refl (Examples.hostD1 [] "" None)
           (Examples.hostD1 ["/pods/p1/d1"] "" None) None eq_refl eq_refl).
Defined.

Lemma NodePublishVolume_block_witness :
  fst (NodePublishVolume Examples.blockPublishRequest
         (Examples.nodeWorld ∅ (Examples.hostD1 [] "" (Some (os_Error "EIO")))))
  = Err (status_Error Internal).
Proof.
  destruct (NodePublishVolume_block (C:=Fake.Cloud) (H:=Fake.Host)
              (nh:=Fake.host_NodeHost) (hp:=Fake.helpers)
              Examples.blockPublishRequest
              (Examples.nodeWorld ∅ (Examples.hostD1 [] "" (Some (os_Error "EIO"))))
              {| VolumeCapability.access_type := VolumeCapability.Block;
                 VolumeCapability.AccessMode := 1 |}
              (Examples.hostD1 [] "" (Some (os_Error "EIO"))) None
              ltac:(discriminate) ltac:(discriminate) ltac:(discriminate)
              eq_refl ltac:(apply not_elem_of_empty) eq_refl eq_refl eq_refl
              ltac:(left; reflexivity))
    as (_ & Hblock).
  exact (Hblock eq_refl
           {| VolumeKey.Zone := "zone-a"; VolumeKey.Name := "d1" |}
           "d1" "/dev/disk/by-id/google-d1"
           (Examples.hostD1 [] "" (Some (os_Error "EIO")))
           (Examples.hostD1 [] "" (Some (os_Error "EIO")))
           (Examples.hostD1 [] "" (Some (os_Error "EIO")))
           (Some (os_Error "EIO"))
           eq_refl eq_refl ltac:(vm_compute; reflexivity) ltac:(discriminate)
           eq_refl eq_refl).
Defined.

Lemma node_unmount_operations_witness :
  fst (NodeUnstageVolume Examples.unstageRequest
         (Examples.nodeWorld ∅ (Examples.hostD1 ["/staging/d1"] "" None)))
  = Ok NodeUnstageVolumeResponse_empty /\
  host (snd (NodeUnstageVolume Examples.unstageRequest
               (Examples.nodeWorld ∅ (Examples.hostD1 ["/staging/d1"] "" None))))
  = Examples.hostD1 [] "" None.
Proof.
  destruct (node_unmount_operations (C:=Fake.Cloud) (H:=Fake.Host)
              (nh:=Fake.host_NodeHost)
              (Examples.nodeWorld ∅ (Examples.hostD1 ["/staging/d1"] "" None))
              (Examples.hostD1 [] "" None) None)
    as (Hunstage & _).
  destruct (Hunstage Examples.unstageRequest ltac:(discriminate) ltac:(discriminate)
              ltac:(apply not_elem_of_empty) eq_refl)
    as (Hresult & Hhost & _).
  split; [exact Hresult | exact Hhost].
Defined.

Lemma ControllerUnpublishVolume_idempotent_witness :
  (* the disk is not attached: nothing is detached *)
  ControllerUnpublishVolume Examples.unpublishRequestD1
    (Scripted.controller (Examples.scriptedD1 [] (Err fmt_Errorf) None) [])
  = (Ok ControllerUnpublishVolumeResponse_empty,
     {| CloudProvider := Examples.scriptedD1 [] (Err fmt_Errorf) None;
        vcap := [];
        requests := [Req (Call_GetDiskOrError "zone-a" "d1");
                     Req (Call_GetInstanceOrError "zone-a" "n1")] |}) /\
  (* the disk is attached and the wait fails: Internal *)
  fst (ControllerUnpublishVolume Examples.unpublishRequestD1
         (Scripted.controller
            (Examples.scriptedD1 [Examples.attachment "READ_WRITE"]
               (Ok (Scripted.op "detach")) (Some fmt_Errorf)) []))
  = Err (status_Error Internal).
Proof.
  split.
  - destruct (ControllerUnpublishVolume_idempotent (C:=Scripted.Cloud)
                (gce:=Scripted.cloud_GCECompute) (gcs:=Scripted.cloud_GCESnapshots)
                (hp:=Fake.helpers) Examples.unpublishRequestD1
                (Scripted.controller (Examples.scriptedD1 [] (Err fmt_Errorf) None) [])
                ltac:(discriminate) ltac:(discriminate))
      as (_ & Hdecoded).
    destruct (Hdecoded "zone-a" "d1" eq_refl) as (_ & Hdisk).
    destruct (Hdisk Examples.diskD1 _ eq_refl) as (_ & Hinstance).
    destruct (Hinstance {| Instance.Disks := [] |} _ eq_refl) as (Hfree & _).
    exact (Hfree eq_refl).
  - destruct (ControllerUnpublishVolume_idempotent (C:=Scripted.Cloud)
                (gce:=Scripted.cloud_GCECompute) (gcs:=Scripted.cloud_GCESnapshots)
                (hp:=Fake.helpers) Examples.unpublishRequestD1
                (Scripted.controller
                   (Examples.scriptedD1 [Examples.attachment "READ_WRITE"]
                      (Ok (Scripted.op "detach")) (Some fmt_Errorf)) [])
                ltac:(discriminate) ltac:(discriminate))
      as (_ & Hdecoded).
    destruct (Hdecoded "zone-a" "d1" eq_refl) as (_ & Hdisk).
    destruct (Hdisk Examples.diskD1 _ eq_refl) as (_ & Hinstance).
    destruct (Hinstance {| Instance.Disks := [Examples.attachment "READ_WRITE"] |} _
                eq_refl) as (_ & Hattached).
    destruct (Hattached eq_refl) as (_ & Hdetached).
    rewrite (Hdetached (Scripted.op "detach") _ _ (Some fmt_Errorf) eq_refl eq_refl).
    reflexivity.
Defined.

Lemma DeleteSnapshot_lenient_witness :
  (* the snapshot is gone already: success *)
  fst (DeleteSnapshot {| DeleteSnapshotRequest.SnapshotId := "s1" |}
         (Scripted.controller
            (Examples.snapshots (Err fmt_Errorf) (Err fmt_Errorf)
               (Err (googleapi_Error ["notFound"])) None) []))
  = Ok DeleteSnapshotResponse_empty /\
  (* the snapshot is in use: FailedPrecondition, also when it is reported
     not found as well *)
  fst (DeleteSnapshot {| DeleteSnapshotRequest.SnapshotId := "s1" |}
         (Scripted.controller
            (Examples.snapshots (Err fmt_Errorf) (Err fmt_Errorf)
               (Err (googleapi_Error ["notFound"; "resourceInUseByAnotherResource"]))
               None) []))
  = Err (status_Error FailedPrecondition) /\
  (* no identifier *)
  fst (DeleteSnapshot {| DeleteSnapshotRequest.SnapshotId := "" |}
         (Scripted.controller
            (Examples.snapshots (Err fmt_Errorf) (Err fmt_Errorf)
               (Ok (Scripted.op "delete")) None) []))
  = Err (status_Error InvalidArgument).
Proof.
  split; [|split].
  - destruct (DeleteSnapshot_lenient (C:=Scripted.Cloud)
                (gcs:=Scripted.cloud_GCESnapshots) (hp:=Fake.helpers)
                {| DeleteSnapshotRequest.SnapshotId := "s1" |}
                (Scripted.controller
                   (Examples.snapshots (Err fmt_Errorf) (Err fmt_Errorf)
                      (Err (googleapi_Error ["notFound"])) None) []))
      as (_ & Hgiven).
    destruct (Hgiven ltac:(discriminate)) as (Hrefused & _).
    destruct (Hrefused (googleapi_Error ["notFound"]) _ eq_refl) as (_ & Hgone & _).
    rewrite (Hgone eq_refl eq_refl). reflexivity.
  - destruct (DeleteSnapshot_lenient (C:=Scripted.Cloud)
                (gcs:=Scripted.cloud_GCESnapshots) (hp:=Fake.helpers)
                {| DeleteSnapshotRequest.SnapshotId := "s1" |}
                (Scripted.controller
                   (Examples.snapshots (Err fmt_Errorf) (Err fmt_Errorf)
                      (Err (googleapi_Error
                              ["notFound"; "resourceInUseByAnotherResource"]))
                      None) []))
      as (_ & Hgiven).
    destruct (Hgiven ltac:(discriminate)) as (Hrefused & _).
    destruct (Hrefused (googleapi_Error ["notFound"; "resourceInUseByAnotherResource"])
                _ eq_refl) as (Hused & _).
    rewrite (Hused eq_refl). reflexivity.
  - destruct (DeleteSnapshot_lenient (C:=Scripted.Cloud)
                (gcs:=Scripted.cloud_GCESnapshots) (hp:=Fake.helpers)
                {| DeleteSnapshotRequest.SnapshotId := "" |}
                (Scripted.controller
                   (Examples.snapshots (Err fmt_Errorf) (Err fmt_Errorf)
                      (Ok (Scripted.op "delete")) None) []))
      as (Hmissing & _).
    rewrite (Hmissing eq_refl). reflexivity.
Defined.

Lemma CreateSnapshot_reuses_witness :
  (* the snapshot exists already and is being deleted: reported READY *)
  fst (CreateSnapshot
         {| CreateSnapshotRequest.Name := "s1";
            CreateSnapshotRequest.SourceVolumeId := "zone-a/d1" |}
         (Scripted.controller
            (Examples.snapshots (Err (googleapi_Error ["alreadyExists"]))
               (Ok (Examples.snapshotS1 "DELETING")) (Err fmt_Errorf) None) []))
  = Ok {| CsiSnapshot.Id := "s1"; CsiSnapshot.CreatedAt := 1500;
          CsiSnapshot.Status := SnapshotStatus_READY |} /\
  (* a volume of another zone *)
  CreateSnapshot
    {| CreateSnapshotRequest.Name := "s1";
       CreateSnapshotRequest.SourceVolumeId := "zone-b/d1" |}
    (Scripted.controller
       (Examples.snapshots (Ok (Scripted.op "create"))
          (Ok (Examples.snapshotS1 "READY")) (Err fmt_Errorf) None) [])
  = (Err fmt_Errorf,
     Scripted.controller
       (Examples.snapshots (Ok (Scripted.op "create"))
          (Ok (Examples.snapshotS1 "READY")) (Err fmt_Errorf) None) []).
Proof.
  split.
  - destruct (CreateSnapshot_reuses (C:=Scripted.Cloud)
                (gce:=Scripted.cloud_GCECompute) (gcs:=Scripted.cloud_GCESnapshots)
                (hp:=Fake.helpers) (mh:=Scripted.moreHelpers)
                {| CreateSnapshotRequest.Name := "s1";
                   CreateSnapshotRequest.SourceVolumeId := "zone-a/d1" |}
                (Scripted.controller
                   (Examples.snapshots (Err (googleapi_Error ["alreadyExists"]))
                      (Ok (Examples.snapshotS1 "DELETING")) (Err fmt_Errorf) None) [])
                "zone-a" "d1" eq_refl)
      as (_ & Hzone).
    destruct (Hzone eq_refl (Err (googleapi_Error ["alreadyExists"])) _ _
                (Examples.snapshotS1 "DELETING") 1500 eq_refl eq_refl eq_refl
                ltac:(vm_compute; reflexivity))
      as (Hresult & Hstatus).
    rewrite Hresult. cbn [fst]. rewrite (Hstatus ltac:(right; reflexivity)).
    reflexivity.
  - destruct (CreateSnapshot_reuses (C:=Scripted.Cloud)
                (gce:=Scripted.cloud_GCECompute) (gcs:=Scripted.cloud_GCESnapshots)
                (hp:=Fake.helpers) (mh:=Scripted.moreHelpers)
                {| CreateSnapshotRequest.Name := "s1";
                   CreateSnapshotRequest.SourceVolumeId := "zone-b/d1" |}
                (Scripted.controller
                   (Examples.snapshots (Ok (Scripted.op "create"))
                      (Ok (Examples.snapshotS1 "READY")) (Err fmt_Errorf) None) [])
                "zone-b" "d1" eq_refl)
      as (Hother & _).
    exact (Hother ltac:(discriminate)).
Defined.

Lemma ListSnapshots_single_entry_witness :
  (* a snapshot that is being deleted is listed as UNKNOWN, at the time
     of the call *)
  fst (ListSnapshots 99 {| ListSnapshotsRequest.SnapshotId := "s1" |}
         (Scripted.controller
            (Examples.snapshots (Err fmt_Errorf) (Ok (Examples.snapshotS1 "DELETING"))
               (Err fmt_Errorf) None) []))
  = Ok {| ListSnapshotsResponse.Entries :=
            [ {| CsiSnapshot.Id := "s1"; CsiSnapshot.CreatedAt := 99;
                 CsiSnapshot.Status := SnapshotStatus_UNKNOWN |} ] |} /\
  (* no identifier *)
  fst (ListSnapshots 99 {| ListSnapshotsRequest.SnapshotId := "" |}
         (Scripted.controller
            (Examples.snapshots (Err fmt_Errorf) (Ok (Examples.snapshotS1 "READY"))
               (Err fmt_Errorf) None) []))
  = Err (status_Error Unimplemented).
Proof.
  split.
  - destruct (ListSnapshots_single_entry (C:=Scripted.Cloud)
                (gcs:=Scripted.cloud_GCESnapshots) 99
                {| ListSnapshotsRequest.SnapshotId := "s1" |}
                (Scripted.controller
                   (Examples.snapshots (Err fmt_Errorf)
                      (Ok (Examples.snapshotS1 "DELETING")) (Err fmt_Errorf) None) []))
      as (_ & Hgiven).
    destruct (Hgiven ltac:(discriminate)) as (_ & Hfound).
    destruct (Hfound (Examples.snapshotS1 "DELETING") _ eq_refl)
      as (Hresult & _ & Hdeleting).
    destruct (Hdeleting eq_refl) as (Hstatus & _).
    rewrite Hresult. cbn [fst]. rewrite Hstatus. reflexivity.
  - destruct (ListSnapshots_single_entry (C:=Scripted.Cloud)
                (gcs:=Scripted.cloud_GCESnapshots) 99
                {| ListSnapshotsRequest.SnapshotId := "" |}
                (Scripted.controller
                   (Examples.snapshots (Err fmt_Errorf)
                      (Ok (Examples.snapshotS1 "READY")) (Err fmt_Errorf) None) []))
      as (Hmissing & _).
    rewrite (Hmissing eq_refl). reflexivity.
Defined.

Lemma ValidateVolumeCapabilities_verdict_witness :
  (* an unsupported mode: a response and an error *)
  fst (ValidateVolumeCapabilities (Examples.validateRequest [Some 1%nat; Some 5%nat] [])
         (Scripted.controller (Examples.scriptedD1 [] (Err fmt_Errorf) None) [1%nat]))
  = Returned (Some {| ValidateVolumeCapabilitiesResponse.Supported := false |},
              Some (status_Error InvalidArgument)) /\
  (* a capability without access mode *)
  fst (ValidateVolumeCapabilities (Examples.validateRequest [Some 1%nat; None] [])
         (Scripted.controller (Examples.scriptedD1 [] (Err fmt_Errorf) None) [1%nat]))
  = Panicked /\
  (* the first topology names another zone, the second the zone of the
     volume: not supported *)
  fst (ValidateVolumeCapabilities
         (Examples.validateRequest [Some 1%nat]
            [Examples.zoneTopology "zone-b"; Examples.zoneTopology "zone-a"])
         (Scripted.controller (Examples.scriptedD1 [] (Err fmt_Errorf) None) [1%nat]))
  = Returned (Some {| ValidateVolumeCapabilitiesResponse.Supported := false |}, None).
Proof.
  assert (modesSupported [1%nat] [ {| ControllerCapability.AccessMode := Some 1%nat |} ])
    as Hone.
  { constructor; [|constructor]. exists 1%nat. split; [reflexivity | left; reflexivity]. }
  split; [|split].
  - destruct (ValidateVolumeCapabilities_verdict (C:=Scripted.Cloud)
                (gce:=Scripted.cloud_GCECompute) (hp:=Fake.helpers)
                (Examples.validateRequest [Some 1%nat; Some 5%nat] [])
                (Scripted.controller (Examples.scriptedD1 [] (Err fmt_Errorf) None)
                   [1%nat])
                "zone-a" "d1" Examples.diskD1 _
                ltac:(discriminate) ltac:(discriminate) eq_refl eq_refl)
      as (_ & Hunsupported & _).
    rewrite Hunsupported; [reflexivity | |].
    + repeat constructor; discriminate.
    + intros Hall. inversion Hall as [|c rest _ Hrest]; subst.
      inversion Hrest as [|c' rest' (mode & Hmode & Hin) _]; subst.
      injection Hmode as <-. destruct Hin as [Hin|[]]. discriminate Hin.
  - destruct (ValidateVolumeCapabilities_verdict (C:=Scripted.Cloud)
                (gce:=Scripted.cloud_GCECompute) (hp:=Fake.helpers)
                (Examples.validateRequest [Some 1%nat; None] [])
                (Scripted.controller (Examples.scriptedD1 [] (Err fmt_Errorf) None)
                   [1%nat])
                "zone-a" "d1" Examples.diskD1 _
                ltac:(discriminate) ltac:(discriminate) eq_refl eq_refl)
      as (Hpanic & _).
    rewrite (Hpanic [ {| ControllerCapability.AccessMode := Some 1%nat |} ]
               {| ControllerCapability.AccessMode := None |} [] eq_refl Hone eq_refl).
    reflexivity.
  - destruct (ValidateVolumeCapabilities_verdict (C:=Scripted.Cloud)
                (gce:=Scripted.cloud_GCECompute) (hp:=Fake.helpers)
                (Examples.validateRequest [Some 1%nat]
                   [Examples.zoneTopology "zone-b"; Examples.zoneTopology "zone-a"])
                (Scripted.controller (Examples.scriptedD1 [] (Err fmt_Errorf) None)
                   [1%nat])
                "zone-a" "d1" Examples.diskD1 _
                ltac:(discriminate) ltac:(discriminate) eq_refl eq_refl)
      as (_ & _ & Hsupported).
    destruct (Hsupported Hone) as (_ & Htopology).
    rewrite (Htopology common.TopologyKeyZone "zone-b"
               [Examples.zoneTopology "zone-a"] eq_refl).
    reflexivity.
Defined.

Lemma ValidateVolumeCapabilities_refusals_witness :
  (* no capability *)
  fst (ValidateVolumeCapabilities (Examples.validateRequest [] [])
         (Scripted.controller (Examples.scriptedD1 [] (Err fmt_Errorf) None) [1%nat]))
  = Returned (None, Some (status_Error InvalidArgument)) /\
  (* the disk is not found *)
  fst (ValidateVolumeCapabilities (Examples.validateRequest [Some 1%nat] [])
         (Scripted.controller
            {| Scripted.zone := "zone-a";
               Scripted.disk := Err (googleapi_Error ["notFound"]);
               Scripted.instance := Err fmt_Errorf;
               Scripted.detach := Err fmt_Errorf;
               Scripted.wait := None;
               Scripted.createSnapshot := Err fmt_Errorf;
               Scripted.snapshot := Err fmt_Errorf;
               Scripted.deleteSnapshot := Err fmt_Errorf |} [1%nat]))
  = Returned (None, Some (status_Error NotFound)).
Proof.
  split.
  - destruct (ValidateVolumeCapabilities_refusals (C:=Scripted.Cloud)
                (gce:=Scripted.cloud_GCECompute) (hp:=Fake.helpers)
                (Examples.validateRequest [] [])
                (Scripted.controller (Examples.scriptedD1 [] (Err fmt_Errorf) None)
                   [1%nat]))
      as (Hnone & _).
    rewrite (Hnone eq_refl). reflexivity.
  - destruct (ValidateVolumeCapabilities_refusals (C:=Scripted.Cloud)
                (gce:=Scripted.cloud_GCECompute) (hp:=Fake.helpers)
                (Examples.validateRequest [Some 1%nat] [])
                (Scripted.controller
                   {| Scripted.zone := "zone-a";
                      Scripted.disk := Err (googleapi_Error ["notFound"]);
                      Scripted.instance := Err fmt_Errorf;
                      Scripted.detach := Err fmt_Errorf;
                      Scripted.wait := None;
                      Scripted.createSnapshot := Err fmt_Errorf;
                      Scripted.snapshot := Err fmt_Errorf;
                      Scripted.deleteSnapshot := Err fmt_Errorf |} [1%nat]))
      as (_ & Hcaps).
    destruct (Hcaps ltac:(discriminate)) as (_ & Hid).
    destruct (Hid ltac:(discriminate)) as (_ & Hdisk).
    rewrite (Hdisk "zone-a" "d1" (googleapi_Error ["notFound"]) _ eq_refl eq_refl).
    reflexivity.
Defined.

Lemma NodeGetVolumeStats_usage_witness :
  exists bytes inodes : VolumeUsage.t,
    NodeGetVolumeStats
      {| NodeGetVolumeStatsRequest.VolumeId := "zone-a/d1";
         NodeGetVolumeStatsRequest.VolumePath := "/pods/p1/d1" |}
      [("/pods/p1/d1", Machines.ext4)]
    = Ok {| NodeGetVolumeStatsResponse.Usage := [bytes; inodes] |} /\
    VolumeUsage.Total bytes = 5242880 * 4096 /\
    VolumeUsage.Used bytes + VolumeUsage.Available bytes <= VolumeUsage.Total bytes /\
    VolumeUsage.Used inodes + VolumeUsage.Available inodes = VolumeUsage.Total inodes.
Proof.
  destruct (NodeGetVolumeStats_usage (H:=list (string * Statfs_t.t))
              (hs:=Machines.table_HostStat)
              {| NodeGetVolumeStatsRequest.VolumeId := "zone-a/d1";
                 NodeGetVolumeStatsRequest.VolumePath := "/pods/p1/d1" |}
              [("/pods/p1/d1", Machines.ext4)])
    as (_ & Hgiven).
  destruct (Hgiven ltac:(discriminate)) as (_ & Hstat).
  destruct (Hstat Machines.ext4 eq_refl ltac:(vm_compute; split; reflexivity)
              ltac:(vm_compute; split; discriminate) ltac:(vm_compute; discriminate)
              ltac:(vm_compute; reflexivity) ltac:(vm_compute; split; discriminate)
              ltac:(vm_compute; reflexivity))
    as (bytes & inodes & Hresp & _ & Htotal & _ & _ & _ & Hsum & _ & _ & _ & _ & Hinodes).
  exists bytes, inodes.
  split; [exact Hresp|]. split; [exact Htotal|]. split; [exact Hsum | exact Hinodes].
Defined.

Lemma NodeGetInfo_reports_witness :
  NodeGetInfoResponse.MaxVolumesPerNode (fst (NodeGetInfo Machines.n1)) = 127 /\
  NodeGetInfoResponse.MaxVolumesPerNode (fst (NodeGetInfo Machines.f1)) = 15 /\
  exists top : Topology.t,
    NodeGetInfoResponse.AccessibleTopology (fst (NodeGetInfo Machines.n1)) = Some top /\
    pickTopology 3%nat {| TopologyRequirement.Requisite := [];
                          TopologyRequirement.Preferred := [top] |} = Ok "zone-a".
Proof.
  destruct (NodeGetInfo_reports (M:=Machines.Machine)
              (ms:=Machines.machine_MetadataService) (mh:=Scripted.moreHelpers)
              Machines.n1)
    as (_ & _ & Hbig & _ & top & Htop & Hpick).
  destruct (NodeGetInfo_reports (M:=Machines.Machine)
              (ms:=Machines.machine_MetadataService) (mh:=Scripted.moreHelpers)
              Machines.f1)
    as (_ & _ & _ & Hsmall & _).
  split; [|split].
  - apply Hbig. left. exists "standard-4". reflexivity.
  - apply Hsmall; intros rest Hrest; discriminate Hrest.
  - exists top. split; [exact Htop|].
    destruct (Hpick 3%nat []) as (Hzone & _).
    exact (Hzone ltac:(discriminate)).
Defined.

Lemma FormatAndMount_first_volume_witness :
  (* a formatted volume is mounted without being formatted *)
  CSIProxyMounter.FormatAndMount "1" "/staging/d1" "ntfs" ["ro"]
    (Machines.mounter (Machines.proxy ["v1"; "v2"] ["v1"] None None))
  = (Returned None,
     {| CSIProxyMounter.Clients :=
          Machines.withMounted [("v1", "/staging/d1")]
            (Machines.proxy ["v1"; "v2"] ["v1"] None None);
        CSIProxyMounter.Calls :=
          [CSIProxyMounter.Call_PartitionDisk "1";
           CSIProxyMounter.Call_ListVolumesOnDisk "1";
           CSIProxyMounter.Call_IsVolumeFormatted "v1";
           CSIProxyMounter.Call_MountVolume "v1" "/staging/d1"] |}) /\
  (* a disk without volume *)
  fst (CSIProxyMounter.FormatAndMount "1" "/staging/d1" "ntfs" []
         (Machines.mounter (Machines.proxy [] [] None None)))
  = Panicked /\
  (* a format that fails: nothing is mounted *)
  CSIProxyMounter.FormatAndMount "1" "/staging/d1" "ntfs" []
    (Machines.mounter (Machines.proxy ["v1"] [] None (Some fmt_Errorf)))
  = (Returned (Some fmt_Errorf),
     {| CSIProxyMounter.Clients := Machines.proxy ["v1"] [] None (Some fmt_Errorf);
        CSIProxyMounter.Calls :=
          [CSIProxyMounter.Call_PartitionDisk "1";
           CSIProxyMounter.Call_ListVolumesOnDisk "1";
           CSIProxyMounter.Call_IsVolumeFormatted "v1";
           CSIProxyMounter.Call_FormatVolume "v1"] |}).
Proof.
  split; [|split].
  - destruct (FormatAndMount_first_volume (P:=Machines.Proxy)
                (px:=Machines.proxy_CSIProxy) "1" "/staging/d1" "ntfs" ["ro"]
                (Machines.mounter (Machines.proxy ["v1"; "v2"] ["v1"] None None)))
      as (_ & Hrun).
    destruct (Hrun None _ eq_refl) as (_ & Hpartitioned).
    exact (Hpartitioned eq_refl (Ok ["v1"; "v2"]) _ eq_refl (Ok true) _ eq_refl
             None _ eq_refl).
  - destruct (FormatAndMount_first_volume (P:=Machines.Proxy)
                (px:=Machines.proxy_CSIProxy) "1" "/staging/d1" "ntfs" []
                (Machines.mounter (Machines.proxy [] [] None None)))
      as (_ & Hrun).
    destruct (Hrun None _ eq_refl) as (_ & Hpartitioned).
    rewrite (Hpartitioned eq_refl (Ok []) _ eq_refl). reflexivity.
  - destruct (FormatAndMount_first_volume (P:=Machines.Proxy)
                (px:=Machines.proxy_CSIProxy) "1" "/staging/d1" "ntfs" []
                (Machines.mounter (Machines.proxy ["v1"] [] None (Some fmt_Errorf))))
      as (_ & Hrun).
    destruct (Hrun None _ eq_refl) as (_ & Hpartitioned).
    exact (Hpartitioned eq_refl (Ok ["v1"]) _ eq_refl (Ok false) _ eq_refl
             (Some fmt_Errorf) _ eq_refl).
Defined.

Lemma Mount_links_witness :
  (* the proxy answers the request with an error text *)
  fst (CSIProxyMounter.Mount "1" "/pods/p1/d1" "ntfs" ["bind"]
         (Machines.mounter
            {| Machines.volumes := []; Machines.formatted := []; Machines.mounted := [];
               Machines.partitionError := None; Machines.formatError := None;
               Machines.linkError := "access denied" |}))
  = Some fmt_Errorf /\
  (* the link is made *)
  CSIProxyMounter.Mount "1" "/pods/p1/d1" "ntfs" ["bind"]
    (Machines.mounter (Machines.proxy [] [] None None))
  = (None,
     {| CSIProxyMounter.Clients :=
          Machines.withMounted [("1", "/pods/p1/d1")] (Machines.proxy [] [] None None);
        CSIProxyMounter.Calls :=
          [CSIProxyMounter.Call_MkdirAll "/pods/p1/d1";
           CSIProxyMounter.Call_LinkPath "1" "/pods/p1/d1"] |}).
Proof.
  split.
  - destruct (Mount_links (P:=Machines.Proxy) (px:=Machines.proxy_CSIProxy)
                "1" "/pods/p1/d1" "ntfs" ["bind"]
                (Machines.mounter
                   {| Machines.volumes := []; Machines.formatted := [];
                      Machines.mounted := [];
                      Machines.partitionError := None; Machines.formatError := None;
                      Machines.linkError := "access denied" |}))
      as (_ & Hrun).
    destruct (Hrun None _ eq_refl) as (_ & Hmade).
    rewrite (Hmade eq_refl (Ok "access denied") _ eq_refl). reflexivity.
  - destruct (Mount_links (P:=Machines.Proxy) (px:=Machines.proxy_CSIProxy)
                "1" "/pods/p1/d1" "ntfs" ["bind"]
                (Machines.mounter (Machines.proxy [] [] None None)))
      as (_ & Hrun).
    destruct (Hrun None _ eq_refl) as (_ & Hmade).
    exact (Hmade eq_refl (Ok "") _ eq_refl).
Defined.

Lemma ExistsPath_reads_response_first_witness :
  (* the request fails and gives no response *)
  fst (CSIProxyMounter.ExistsPath ""
         (Machines.mounter (Machines.proxy [] [] None None)))
  = Panicked /\
  fst (CSIProxyMounter.IsLikelyNotMountPoint "/pods/p1/d1"
         (Machines.mounter (Machines.proxy [] [] None None)))
  = (true, None).
Proof.
  destruct (ExistsPath_reads_response_first (P:=Machines.Proxy)
              (px:=Machines.proxy_CSIProxy) ""
              (Machines.mounter (Machines.proxy [] [] None None)))
    as (_ & Hexists).
  destruct (ExistsPath_reads_response_first (P:=Machines.Proxy)
              (px:=Machines.proxy_CSIProxy) "/pods/p1/d1"
              (Machines.mounter (Machines.proxy [] [] None None)))
    as (Hprobe & _).
  split.
  - rewrite (Hexists None (Some fmt_Errorf) _ eq_refl). reflexivity.
  - rewrite (Hprobe (Ok false) _ eq_refl). reflexivity.
Defined.
